(** * babysh: the process lifecycle and job-control engine of [babysh.c]

    The shell is embedded as Rocq functions in a small monad that threads
    the operating system through every call: the kernel is an oracle giving
    the return value of each system call, a run records the calls made and
    the text printed, and a run ends by returning, by [exit], by a
    successful [exec], or in undefined behaviour: an array access outside
    its bounds, or a null file name handed to [exec]. *)

From Stdlib Require Import ZArith String Ascii DecimalString Lia.
From stdpp Require Import base list strings.

Open Scope Z_scope.

(** ** Constants *)

(** [#define]s of babysh.c, lines 22-26. *)
Definition MAX_PROCESSES : nat := 100.
Definition IS_PROCESS_FINISHED : Z := 0.

(** Constants of the C library headers, with their Linux values. *)
Definition EXIT_SUCCESS : Z := 0.
Definition EXIT_FAILURE : Z := 1.
Definition O_RDONLY : Z := 0.
Definition O_WRONLY : Z := 1.
Definition O_CREAT : Z := 64.
Definition O_TRUNC : Z := 512.
Definition F_SETFD : Z := 2.
Definition FD_CLOEXEC : Z := 1.
Definition WNOHANG : Z := 1.
Definition SIGINT : Z := 2.
Definition SIGKILL : Z := 9.

(** The wait-status macros of <sys/wait.h>, on the status word as an [int]. *)
Definition WTERMSIG (s : Z) : Z := Z.land s 127.
Definition WEXITSTATUS (s : Z) : Z := Z.shiftr (Z.land s 65280) 8.
Definition WIFEXITED (s : Z) : bool := WTERMSIG s =? 0.
(** [(signed char)] of a value in 0..255. *)
Definition signed_char (v : Z) : Z := if 128 <=? v then v - 256 else v.
Definition WIFSIGNALED (s : Z) : bool :=
  0 <? Z.shiftr (signed_char (Z.land s 127 + 1)) 1.

(** ** Text *)

(** The newline character of the C format strings. *)
Definition nl : string := String (ascii_of_nat 10) EmptyString.

(** printf's [%d]. *)
Definition dec (n : Z) : string := NilZero.string_of_int (Z.to_int n).

(** printf's [%s]; the C library prints a null pointer as [(null)]. *)
Definition str (p : option string) : string :=
  match p with Some s => s | None => "(null)" end.

(** ** The operating system *)

Inductive Handler := SIG_DFL | SIG_IGN.

Inductive Syscall :=
| sys_open (path : option string) (flags : Z) (mode : option Z)
| sys_fcntl (fd cmd arg : Z)
| sys_fork
| sys_sigaction (signo : Z) (handler : Handler)
| sys_dup2 (oldfd newfd : Z)
| sys_exec (file : option string) (argv : list string)
| sys_waitpid (pid options : Z)
| sys_chdir (path : option string)
| sys_kill (pid sig : Z).

(** What a run of the shell does that the outside can see: a system call
    with its return value ([waitpid] also with the status word it stored, if
    any), text written by [printf] or [perror], and [EvIndeterminate], the
    read of an automatic variable that was never assigned. *)
Inductive Event :=
| EvSys (call : Syscall) (ret : Z)
| EvWait (pid options ret : Z) (stored : option Z)
| EvStdout (text : string)
| EvPerror (text : string)
| EvIndeterminate (var : string).

(** The kernel, as the shell sees it: [answer t c] is the return value of
    call [c] when it is the [t]-th system call of the process,
    [wait_status t] the status word a successful [waitpid] stores then,
    [garbage x] the value found in the unassigned variable [x], and
    [getenv] the environment. *)
Record Kernel := MkKernel {
  answer : nat -> Syscall -> Z;
  wait_status : nat -> Z;
  garbage : string -> Z;
  getenv : string -> option string
}.

(** How a run ends. *)
Inductive Outcome (A : Type) : Type :=
| Returned (a : A)
| Exited (code : Z)
| Replaced
| Undefined
| OutOfFuel.
Arguments Returned {A} a.
Arguments Exited {A} code.
Arguments Replaced {A}.
Arguments Undefined {A}.
Arguments OutOfFuel {A}.

Record Run (A : Type) : Type := MkRun {
  outcome : Outcome A;
  clock : nat;
  events : list Event
}.
Arguments MkRun {A} outcome clock events.
Arguments outcome {A} r.
Arguments clock {A} r.
Arguments events {A} r.

(** A computation: given the kernel and the number of system calls made so
    far, a run. *)
Definition M (A : Type) : Type := Kernel -> nat -> Run A.

Definition ret {A} (a : A) : M A := fun _ t => MkRun (Returned a) t [].

(** A run that ended otherwise than by returning, seen from the caller. *)
Definition stop {A B} (o : Outcome A) : Outcome B :=
  match o with
  | Returned _ => Undefined
  | Exited c => Exited c
  | Replaced => Replaced
  | Undefined => Undefined
  | OutOfFuel => OutOfFuel
  end.

(** The run [r], after the events [evs]. *)
Definition after {A} (evs : list Event) (r : Run A) : Run A :=
  match r with MkRun o c e => MkRun o c (evs ++ e) end.

Definition bind {A B} (m : M A) (k : A -> M B) : M B := fun K t =>
  match m K t with
  | MkRun (Returned a) c e => after e (k a K c)
  | MkRun o c e => MkRun (stop o) c e
  end.

Declare Scope shell_scope.
Delimit Scope shell_scope with shell.
Notation "x <- m ;; k" := (bind m (fun x => k))
  (at level 100, m at next level, right associativity) : shell_scope.
Notation "m ;; k" := (bind m (fun _ => k))
  (at level 100, right associativity) : shell_scope.
Open Scope shell_scope.

Definition undefined {A} : M A := fun _ t => MkRun Undefined t [].
Definition out_of_fuel {A} : M A := fun _ t => MkRun OutOfFuel t [].
Definition exit_ {A} (code : Z) : M A := fun _ t => MkRun (Exited code) t [].

Definition syscall (c : Syscall) : M Z := fun K t =>
  MkRun (Returned (answer K t c)) (S t) [EvSys c (answer K t c)].

(** [exec] returns only when it fails. It reads the file name: with a
    null pointer for it the behaviour is undefined. *)
Definition exec (file : option string) (argv : list string) : M unit :=
  match file with
  | None => undefined
  | Some _ => fun K t =>
      let r := answer K t (sys_exec file argv) in
      MkRun (if r =? -1 then Returned tt else Replaced) (S t)
            [EvSys (sys_exec file argv) r]
  end.

(** [waitpid(pid, &st, options)]: the return value, and the status word
    when one was stored. *)
Definition waitpid (pid options : Z) : M (Z * option Z) := fun K t =>
  let r := answer K t (sys_waitpid pid options) in
  let stored := if 0 <? r then Some (wait_status K t) else None in
  MkRun (Returned (r, stored)) (S t) [EvWait pid options r stored].

Definition printf (text : string) : M unit := fun _ t =>
  MkRun (Returned tt) t [EvStdout text].
Definition perror (text : string) : M unit := fun _ t =>
  MkRun (Returned tt) t [EvPerror text].

(** Reading an [int] variable: its value when assigned, else whatever the
    stack holds. *)
Definition rd (var : string) (v : option Z) : M Z :=
  match v with
  | Some x => ret x
  | None => fun K t => MkRun (Returned (garbage K var)) t [EvIndeterminate var]
  end.

Definition env (name : string) : M (option string) := fun K t =>
  MkRun (Returned (getenv K name)) t [].

(** [a[i]] of a C array; outside the array the behaviour is undefined. *)
Definition at_ {A} (a : list A) (i : nat) : M A :=
  match a !! i with Some x => ret x | None => undefined end.

Definition defined {A} (o : option A) : M A :=
  match o with Some x => ret x | None => undefined end.

(** ** Shell state *)

(** [status], [termination] and [bgOpen] of [main], passed by pointer to
    every command. Slots of [bgOpen]: -1 unused, 0 finished, else a pid. *)
Record Shell := MkShell {
  status : Z;
  termination : Z;
  bgOpen : list Z
}.

Definition set_status (v : Z) (s : Shell) : Shell :=
  MkShell v (termination s) (bgOpen s).
Definition set_termination (v : Z) (s : Shell) : Shell :=
  MkShell (status s) v (bgOpen s).
Definition set_bgOpen (i : nat) (v : Z) (s : Shell) : Shell :=
  MkShell (status s) (termination s) (<[i := v]> (bgOpen s)).

(** [main], lines 46-55. *)
Definition init : Shell := MkShell 0 0 (replicate MAX_PROCESSES (-1)).

(** ** Argument scans (lines 567-636) *)

(** Each scan walks [args] from position 0 to the first null pointer; the
    list argument is the array from [position] on. *)
Fixpoint isInputRedirected (args : list (option string)) : option bool :=
  match args with
  | [] => None
  | None :: _ => Some false
  | Some a :: rest => if String.eqb a "<" then Some true else isInputRedirected rest
  end.

Fixpoint isOutputRedirected (args : list (option string)) : option bool :=
  match args with
  | [] => None
  | None :: _ => Some false
  | Some a :: rest => if String.eqb a ">" then Some true else isOutputRedirected rest
  end.

(** [isBackground] also overwrites the [&] it finds with a null pointer. *)
Fixpoint isBackground (args : list (option string))
  : option (bool * list (option string)) :=
  match args with
  | [] => None
  | None :: _ => Some (false, args)
  | Some a :: rest =>
      if String.eqb a "&" then Some (true, None :: rest)
      else match isBackground rest with
           | Some (b, rest') => Some (b, Some a :: rest')
           | None => None
           end
  end.

(** The strings of a null-terminated vector, as [exec] reads it. *)
Fixpoint vector (args : list (option string)) : list string :=
  match args with
  | Some a :: rest => a :: vector rest
  | _ => []
  end.

(** ** cmdExecute (lines 366-551) *)

(** Lines 382-398: a background command without redirection of a stream
    gets [/dev/null] for it. The result is either the state at an early
    [return], or [inputFile] and [outputFile]. *)
Definition cmdExecute_devnull (runInBackground redirectInput redirectOutput : bool)
    (s : Shell) : M (Shell + option Z * option Z) :=
  if runInBackground then
    inputFile <- (if negb redirectInput
                  then fd <- syscall (sys_open (Some "/dev/null") O_RDONLY None) ;;
                       ret (Some fd)
                  else ret None) ;;
    outputFile <- (if negb redirectOutput
                   then fd <- syscall (sys_open (Some "/dev/null") O_WRONLY None) ;;
                        ret (Some fd)
                   else ret None) ;;
    i <- rd "inputFile" inputFile ;;
    failed <- (if i =? -1 then ret true
               else o <- rd "outputFile" outputFile ;; ret (o =? -1)) ;;
    if failed : bool then
      printf ("cannot open /dev/null" +:+ nl) ;;
      ret (inl (set_status EXIT_FAILURE s))
    else
      i <- rd "inputFile" inputFile ;;
      syscall (sys_fcntl i F_SETFD FD_CLOEXEC) ;;
      o <- rd "outputFile" outputFile ;;
      syscall (sys_fcntl o F_SETFD FD_CLOEXEC) ;;
      ret (inr (inputFile, outputFile))
  else ret (inr (None, None)).

(** Lines 404-416. *)
Definition cmdExecute_input (args : list (option string)) (redirectInput : bool)
    (inputFile : option Z) (s : Shell) : M (Shell + option Z) :=
  if redirectInput then
    path <- at_ args 2 ;;
    fd <- syscall (sys_open path O_RDONLY None) ;;
    if fd =? -1 then
      printf ("File Error: cannot open " +:+ str path +:+ " for input" +:+ nl) ;;
      ret (inl (set_status EXIT_FAILURE s))
    else
      syscall (sys_fcntl fd F_SETFD FD_CLOEXEC) ;;
      ret (inr (Some fd))
  else ret (inr inputFile).

(** Lines 419-431. *)
Definition cmdExecute_output (args : list (option string)) (redirectOutput : bool)
    (outputFile : option Z) (s : Shell) : M (Shell + option Z) :=
  if redirectOutput then
    path <- at_ args 2 ;;
    fd <- syscall (sys_open path (Z.lor (Z.lor O_WRONLY O_CREAT) O_TRUNC) (Some 420)) ;;
    if fd =? -1 then
      printf ("File Error: cannot open " +:+ str path +:+ " for ouput" +:+ nl) ;;
      ret (inl (set_status EXIT_FAILURE s))
    else
      syscall (sys_fcntl fd F_SETFD FD_CLOEXEC) ;;
      ret (inr (Some fd))
  else ret (inr outputFile).

(** Lines 440-504: the child. It never returns to the caller. *)
Definition cmdExecute_child (args : list (option string))
    (runInBackground redirectInput redirectOutput : bool)
    (inputFile outputFile : option Z) : M Shell :=
  syscall (sys_sigaction SIGINT (if runInBackground then SIG_IGN else SIG_DFL)) ;;
  (if runInBackground then
     i <- rd "inputFile" inputFile ;;
     r <- syscall (sys_dup2 i 0) ;;
     (if r =? -1 then perror "dup2 failed" ;; exit_ EXIT_FAILURE else ret tt) ;;
     o <- rd "outputFile" outputFile ;;
     r <- syscall (sys_dup2 o 1) ;;
     (if r =? -1 then perror "dup2 failed" ;; exit_ EXIT_FAILURE else ret tt)
   else if redirectInput || redirectOutput then
     redirectFd <- (if redirectInput
                    then i <- rd "inputFile" inputFile ;;
                         r <- syscall (sys_dup2 i 0) ;; ret (Some r)
                    else ret None) ;;
     redirectFd <- (if redirectOutput
                    then o <- rd "outputFile" outputFile ;;
                         r <- syscall (sys_dup2 o 1) ;; ret (Some r)
                    else ret redirectFd) ;;
     r <- rd "redirectFd" redirectFd ;;
     (if r =? -1 then perror "dup2" ;; exit_ EXIT_FAILURE else ret tt)
   else ret tt) ;;
  file <- at_ args 0 ;;
  (if redirectInput || redirectOutput
   then exec file (vector [file; None])
   else exec file (vector args)) ;;
  printf ("Execution Error: " +:+ str file +:+ " is not a valid command" +:+ nl) ;;
  exit_ EXIT_FAILURE.

(** Lines 511-521: the slot search. [Some] is the table at the [return]
    inside the loop, [None] the loop running to its end. *)
Fixpoint cmdExecute_record (fuel : nat) (bgCounter : nat) (cpid : Z) (s : Shell)
  : M (option Shell) :=
  if (bgCounter <? MAX_PROCESSES)%nat then
    match fuel with
    | O => out_of_fuel
    | S fuel' =>
        slot <- at_ (bgOpen s) bgCounter ;;
        if slot <? 1 then ret (Some (set_bgOpen bgCounter cpid s))
        else cmdExecute_record fuel' (S bgCounter) cpid s
    end
  else ret None.

(** Lines 528-549: what follows the wait. *)
Definition cmdExecute_outcome (wpid waitStatus : option Z) (s : Shell) : M Shell :=
  w <- rd "wpid" wpid ;;
  s <- (if w =? -1
        then perror "wait failed" ;; ret (set_status EXIT_FAILURE s)
        else ret s) ;;
  ws <- rd "waitStatus" waitStatus ;;
  s <- (if WIFEXITED ws
        then ret (set_termination 0 (set_status (WEXITSTATUS ws) s))
        else ret s) ;;
  ws <- rd "waitStatus" waitStatus ;;
  if WIFSIGNALED ws then
    let s := set_termination (WTERMSIG ws) s in
    printf ("terminated by signal " +:+ dec (termination s) +:+ nl) ;;
    ret s
  else ret s.

(** Lines 505-550: the parent. *)
Definition cmdExecute_parent (runInBackground : bool) (cpid : Z) (s : Shell) : M Shell :=
  if runInBackground then
    printf ("background pid is " +:+ dec cpid +:+ nl) ;;
    recorded <- cmdExecute_record MAX_PROCESSES 0 cpid s ;;
    match recorded with
    | Some s' => ret s'
    | None => cmdExecute_outcome None None s
    end
  else
    w <- waitpid cpid 0 ;;
    cmdExecute_outcome (Some (fst w)) (snd w) s.

(** Lines 435-550. *)
Definition cmdExecute_fork (args : list (option string))
    (runInBackground redirectInput redirectOutput : bool)
    (inputFile outputFile : option Z) (s : Shell) : M Shell :=
  cpid <- syscall sys_fork ;;
  if cpid =? -1 then perror "fork failed" ;; ret s
  else if cpid =? 0 then
    cmdExecute_child args runInBackground redirectInput redirectOutput
                     inputFile outputFile
  else if 0 <? cpid then cmdExecute_parent runInBackground cpid s
  else ret s.

Definition cmdExecute (args : list (option string)) (s : Shell) : M Shell :=
  redirectInput <- defined (isInputRedirected args) ;;
  redirectOutput <- defined (isOutputRedirected args) ;;
  bg <- defined (isBackground args) ;;
  let runInBackground := fst bg in
  let args := snd bg in
  opened <- cmdExecute_devnull runInBackground redirectInput redirectOutput s ;;
  match opened with
  | inl s' => ret s'
  | inr (inputFile, outputFile) =>
      opened <- cmdExecute_input args redirectInput inputFile s ;;
      match opened with
      | inl s' => ret s'
      | inr inputFile =>
          opened <- cmdExecute_output args redirectOutput outputFile s ;;
          match opened with
          | inl s' => ret s'
          | inr outputFile =>
              cmdExecute_fork args runInBackground redirectInput redirectOutput
                              inputFile outputFile s
          end
      end
  end.

(** ** The builtins (lines 256-341) *)

Definition cmdChangeDir (args : list (option string)) (s : Shell) : M Shell :=
  homeDir <- env "HOME" ;;
  dir <- at_ args 1 ;;
  match dir with
  | None => syscall (sys_chdir homeDir) ;; ret s
  | Some _ =>
      r <- syscall (sys_chdir dir) ;;
      if r =? -1 then
        printf ("cd: " +:+ str dir +:+ ": No such file or directory" +:+ nl) ;;
        ret (set_status EXIT_FAILURE s)
      else ret s
  end.

Definition cmdStatus (status termination : Z) : M unit :=
  if 0 <? termination then
    printf ("terminated by signal " +:+ dec termination +:+ nl)
  else
    printf ("exit value " +:+ dec status +:+ nl).

Fixpoint cmdExit_loop (fuel : nat) (bgCounter : nat) (bgOpen : list Z) : M unit :=
  match fuel with
  | O => out_of_fuel
  | S fuel' =>
      curPid <- at_ bgOpen bgCounter ;;
      if curPid =? -1 then ret tt
      else
        (if negb (curPid =? IS_PROCESS_FINISHED) then
           r <- syscall (sys_kill curPid SIGKILL) ;;
           if r =? -1 then perror "kill failed" else ret tt
         else ret tt) ;;
        cmdExit_loop fuel' (S bgCounter) bgOpen
  end.

Definition cmdExit (bgOpen : list Z) : M Shell :=
  cmdExit_loop (S MAX_PROCESSES) 0 bgOpen ;;
  exit_ EXIT_SUCCESS.

(** ** processArgs (lines 211-237) *)

Definition first_char (a : string) : option ascii :=
  match a with String c _ => Some c | EmptyString => None end.

Definition processArgs (args : list (option string)) (s : Shell) : M Shell :=
  a0 <- at_ args 0 ;;
  match a0 with
  | None => ret s
  | Some cmd =>
      if bool_decide (first_char cmd = Some "#"%char) then ret s
      else if String.eqb cmd "cd" then cmdChangeDir args s
      else if String.eqb cmd "status" then
        cmdStatus (status s) (termination s) ;; ret s
      else if String.eqb cmd "exit" then cmdExit (bgOpen s)
      else cmdExecute args s
  end.

(** ** The reap sweep of [main] (lines 71-111) *)

(** Lines 72-106: the body of the loop at slot [bgCounter], which holds
    [curPid]. *)
Definition reap_slot (bgCounter : nat) (curPid : Z) (s : Shell) : M Shell :=
  if negb (curPid =? IS_PROCESS_FINISHED) then
    w <- waitpid curPid WNOHANG ;;
    let wpid := fst w in
    let bgStatus := snd w in
    if wpid =? -1 then
      perror ("wait failed" +:+ nl) ;;
      ret (set_status EXIT_FAILURE s)
    else if 0 <? wpid then
      printf ("background pid " +:+ dec curPid +:+ " is done: ") ;;
      st <- rd "bgStatus" bgStatus ;;
      (if WIFEXITED st
       then printf ("exit value " +:+ dec (WEXITSTATUS st) +:+ nl)
       else ret tt) ;;
      st <- rd "bgStatus" bgStatus ;;
      (if WIFSIGNALED st
       then printf ("terminated by signal " +:+ dec (WTERMSIG st) +:+ nl)
       else ret tt) ;;
      ret (set_bgOpen bgCounter IS_PROCESS_FINISHED s)
    else ret s
  else ret s.

(** Lines 71-108. *)
Fixpoint reap_loop (fuel : nat) (bgCounter : nat) (s : Shell) : M Shell :=
  match fuel with
  | O => out_of_fuel
  | S fuel' =>
      curPid <- at_ (bgOpen s) bgCounter ;;
      if curPid =? -1 then ret s
      else
        s' <- reap_slot bgCounter curPid s ;;
        reap_loop fuel' (S bgCounter) s'
  end.

(** One sweep: [bgCounter] is 0 at every entry of the loop (lines 49, 111). *)
Definition reap (s : Shell) : M Shell := reap_loop (S MAX_PROCESSES) 0 s.

(** One turn of the loop of [main] (lines 69-125); [inputArgs] is the
    array [parseInput] has filled from the line read. *)
Definition main_turn (inputArgs : list (option string)) (s : Shell) : M Shell :=
  s <- reap s ;;
  printf ": " ;;
  processArgs inputArgs s.


(** ** Reading and splitting a line (lines 144-187) *)

(** [#define]s of babysh.c, lines 22-23. *)
Definition MAX_LINE_LENGTH : nat := 2048.
Definition MAX_ARGS : nat := 512.

Definition is_newline (c : ascii) : bool := Ascii.eqb c (ascii_of_nat 10).
Definition is_nul (c : ascii) : bool := Ascii.eqb c (ascii_of_nat 0).
Definition is_space (c : ascii) : bool := Ascii.eqb c " "%char.

(** [fgets] reads at most [n] characters more, and stops after a newline:
    the characters read and what is left of the stream. *)
Fixpoint fgets_read (n : nat) (stream : string) : string * string :=
  match n with
  | O => (EmptyString, stream)
  | S n' =>
      match stream with
      | EmptyString => (EmptyString, EmptyString)
      | String c rest =>
          if is_newline c then (String c EmptyString, rest)
          else let r := fgets_read n' rest in (String c (fst r), snd r)
      end
  end.

(** [fgets(s, size, stdin)]: at the end of the stream nothing is stored and
    a null pointer is returned. *)
Definition fgets (size : nat) (stream : string) : option string * string :=
  match stream with
  | EmptyString => (None, EmptyString)
  | _ => let r := fgets_read (size - 1) stream in (Some (fst r), snd r)
  end.

(** The C string an array holds: the characters before the first NUL. *)
Fixpoint c_string (bytes : string) : string :=
  match bytes with
  | EmptyString => EmptyString
  | String c rest => if is_nul c then EmptyString else String c (c_string rest)
  end.

(** [*strchr(s, '\n') = '\0']: the string cut at its first newline. *)
Fixpoint cut_newline (s : string) : string :=
  match s with
  | EmptyString => EmptyString
  | String c rest => if is_newline c then EmptyString else String c (cut_newline rest)
  end.

(** [getInput] (lines 144-152): [input] is the string the array holds on
    entry, [stream] what is left of standard input; the result of [fgets]
    is not looked at. *)
Definition getInput (input : string) (stream : string) : string * string :=
  let r := fgets MAX_LINE_LENGTH stream in
  let input := match fst r with Some read => c_string read | None => input end in
  (cut_newline input, snd r).

(** [strtok] with the delimiter [" "]: leading spaces are skipped, the
    token runs to the next space or to the end of the string. *)
Fixpoint skip_spaces (s : string) : string :=
  match s with
  | EmptyString => EmptyString
  | String c rest => if is_space c then skip_spaces rest else s
  end.

(** The token at the head of [s], and what follows its delimiter. *)
Fixpoint token_span (s : string) : string * string :=
  match s with
  | EmptyString => (EmptyString, EmptyString)
  | String c rest =>
      if is_space c then (EmptyString, rest)
      else let r := token_span rest in (String c (fst r), snd r)
  end.

(** One call of [strtok]: the token, if any, and the string the next call
    goes on from. *)
Definition strtok (s : string) : option string * string :=
  match skip_spaces s with
  | EmptyString => (None, EmptyString)
  | s' => let r := token_span s' in (Some (fst r), snd r)
  end.

(** Lines 175-185: the loop and the final store. A store outside [args]
    is undefined. *)
Fixpoint parseInput_loop (fuel : nat) (token : option string) (rest : string)
    (position : nat) (args : list (option string)) : Outcome (list (option string)) :=
  match token with
  | None =>
      if (position <? length args)%nat then Returned (<[position := None]> args)
      else Undefined
  | Some tok =>
      match fuel with
      | O => OutOfFuel
      | S fuel' =>
          if (position <? length args)%nat then
            let next := strtok rest in
            parseInput_loop fuel' (fst next) (snd next) (S position)
                            (<[position := Some tok]> args)
          else Undefined
      end
  end.

(** [parseInput] (lines 169-187). *)
Definition parseInput (input : string) (args : list (option string))
  : Outcome (list (option string)) :=
  let first := strtok input in
  parseInput_loop (String.length input) (fst first) (snd first) 0 args.
(** ** Observations on a run *)

(** Everything written to standard output, in order. *)
Fixpoint stdout (evs : list Event) : string :=
  match evs with
  | [] => ""
  | EvStdout text :: rest => text +:+ stdout rest
  | _ :: rest => stdout rest
  end.

Definition open_failed (evs : list Event) : Prop :=
  exists path flags mode, In (EvSys (sys_open path flags mode) (-1)) evs.

Definition forked (evs : list Event) : Prop :=
  exists cpid, In (EvSys sys_fork cpid) evs.

Definition waited (evs : list Event) : Prop :=
  exists pid options ret stored, In (EvWait pid options ret stored) evs.

(** A [waitpid] that returned -1. *)
Definition wait_failed (e : Event) : bool :=
  match e with EvWait _ _ ret _ => ret =? -1 | _ => false end.
Definition check_failed (evs : list Event) : bool := existsb wait_failed evs.

(** The three messages of a failed [open] (lines 389, 408, 423). *)
Definition open_error_report (text : string) : Prop :=
  text = "cannot open /dev/null" +:+ nl
  \/ (exists path, text = "File Error: cannot open " +:+ str path +:+ " for input" +:+ nl)
  \/ (exists path, text = "File Error: cannot open " +:+ str path +:+ " for ouput" +:+ nl).

(** What lines 87-101 print for a finished job with status word [ws]. *)
Definition done_report (curPid ws : Z) : list Event :=
  EvStdout ("background pid " +:+ dec curPid +:+ " is done: ")
  :: (if WIFEXITED ws
      then [EvStdout ("exit value " +:+ dec (WEXITSTATUS ws) +:+ nl)] else [])
  ++ (if WIFSIGNALED ws
      then [EvStdout ("terminated by signal " +:+ dec (WTERMSIG ws) +:+ nl)] else []).

(** What lines 534-549 leave in the shell, given the status word of the
    foreground child. *)
Definition foreground_outcome (ws : Z) (s : Shell) : Shell :=
  if WIFEXITED ws then MkShell (WEXITSTATUS ws) 0 (bgOpen s)
  else if WIFSIGNALED ws then MkShell (status s) (WTERMSIG ws) (bgOpen s)
  else s.

(** The sweep as a walk over the slots [slots], which sit in the table
    from index [bgCounter] on: the check of [reap_slot] at each, in order. *)
Fixpoint reap_slots (slots : list Z) (bgCounter : nat) (s : Shell) : M Shell :=
  match slots with
  | [] => ret s
  | curPid :: rest =>
      s' <- reap_slot bgCounter curPid s ;;
      reap_slots rest (S bgCounter) s'
  end.

(** The states of the shell at the top of the loop of [main]: the initial
    one, and the one any turn returns with, whatever the line read and
    whatever the kernel answers. *)
Inductive reachable : Shell -> Prop :=
| reachable_init : reachable init
| reachable_turn s inputArgs K t s' :
    reachable s ->
    outcome (main_turn inputArgs s K t) = Returned s' ->
    reachable s'.

(** The report of a background launch as section 6 of the specification
    words it: [background pid P]. *)
Definition spec_launch_report (P : Z) : string := "background pid " +:+ dec P.

(** ** Scenarios *)

(** The array [parseInput] leaves for a line of the given tokens. *)
Definition array (tokens : list string) : list (option string) :=
  (Some <$> tokens) ++ replicate 6 None.

(** A kernel given by what [open], [fork], [waitpid] and [chdir] return at
    any time, the status word [waitpid] stores and the value unassigned
    variables hold; every other call returns 0. *)
Definition kernel (open_ret fork_ret wait_ret chdir_ret wstatus junk : Z) : Kernel :=
  MkKernel
    (fun _ c =>
       match c with
       | sys_open _ _ _ => open_ret
       | sys_fork => fork_ret
       | sys_waitpid _ _ => wait_ret
       | sys_chdir _ => chdir_ret
       | _ => 0
       end)
    (fun _ => wstatus)
    (fun _ => junk)
    (fun _ => None).

(** A kernel under which [/dev/null] opens and no other file does. *)
Definition no_target_kernel : Kernel :=
  MkKernel
    (fun _ c =>
       match c with
       | sys_open (Some "/dev/null") _ _ => 3
       | sys_open _ _ _ => -1
       | sys_fork => 42
       | _ => 0
       end)
    (fun _ => 0)
    (fun _ => 0)
    (fun _ => None).

(** A table of [n] running jobs, pids 500 and up, then unused slots. *)
Definition jobs (n : nat) : list Z :=
  ((fun i => 500 + Z.of_nat i) <$> seq 0 n) ++ replicate (MAX_PROCESSES - n) (-1).

(** A kernel under which every job stays running: [fork] gives a fresh
    pid at each call, [waitpid] returns 0, and unassigned variables
    hold 9. *)
Definition busy_kernel : Kernel :=
  MkKernel
    (fun t c =>
       match c with
       | sys_open _ _ _ => 3
       | sys_fork => 1000 + Z.of_nat t
       | _ => 0
       end)
    (fun _ => 0)
    (fun _ => 9)
    (fun _ => None).

(** [n] turns of the loop of [main], each reading [sleep 5 &]. *)
Fixpoint launches (n : nat) (t : nat) (s : Shell) : option (Shell * nat) :=
  match n with
  | O => Some (s, t)
  | S n' =>
      match main_turn (array ["sleep"; "5"; "&"]) s busy_kernel t with
      | MkRun (Returned s') t' _ => launches n' t' s'
      | _ => None
      end
  end.

(** The shell after 100 background launches, none of which has finished. *)
Definition full_table : Shell :=
  match launches MAX_PROCESSES 0 init with
  | Some (s, _) => s
  | None => init
  end.

(** ** Words for lines and vectors *)

(** The fields of a line between its spaces, empty ones included. *)
Fixpoint fields (s : string) : list string :=
  match s with
  | EmptyString => [EmptyString]
  | String c rest =>
      if is_space c then EmptyString :: fields rest
      else match fields rest with
           | f :: fs => String c f :: fs
           | [] => [String c EmptyString]
           end
  end.

Definition nonempty (s : string) : bool :=
  match s with EmptyString => false | _ => true end.

(** The words of a line: its maximal runs of characters other than the
    space. *)
Definition tokens (s : string) : list string := List.filter nonempty (fields s).

(** Words joined by single spaces. *)
Fixpoint join (words : list string) : string :=
  match words with
  | [] => EmptyString
  | [w] => w
  | w :: ws => w +:+ " " +:+ join ws
  end.

(** A word: not empty, and without a space. *)
Fixpoint spaceless (s : string) : bool :=
  match s with
  | EmptyString => true
  | String c rest => negb (is_space c) && spaceless rest
  end.
Definition word (s : string) : bool := nonempty s && spaceless s.

(** The array after [parseInput] has stored the words [ws] in it. *)
Definition stored (ws : list string) (args : list (option string))
  : list (option string) :=
  (Some <$> ws) ++ None :: drop (S (length ws)) args.

(** The words still to be stored when [strtok] has just returned [token]
    and will go on from [rest]. *)
Definition pending (token : option string) (rest : string) : list string :=
  match token with Some tok => tok :: tokens rest | None => [] end.

(** The words before the first [tok]. *)
Fixpoint before (tok : string) (ws : list string) : list string :=
  match ws with
  | [] => []
  | w :: rest => if String.eqb w tok then [] else w :: before tok rest
  end.

(** A string without newline and without NUL. *)
Fixpoint plain (s : string) : bool :=
  match s with
  | EmptyString => true
  | String c rest => negb (is_newline c) && negb (is_nul c) && plain rest
  end.

Fixpoint no_newline (s : string) : bool :=
  match s with
  | EmptyString => true
  | String c rest => negb (is_newline c) && no_newline rest
  end.

(** The string of [n] characters [c]. *)
Fixpoint run_of (n : nat) (c : ascii) : string :=
  match n with O => EmptyString | S n' => String c (run_of n' c) end.

(** ** Observations on commands *)

(** The system calls of a trace, in order. *)
Fixpoint calls (evs : list Event) : list Syscall :=
  match evs with
  | [] => []
  | EvSys c _ :: rest => c :: calls rest
  | EvWait pid options _ _ :: rest => sys_waitpid pid options :: calls rest
  | _ :: rest => calls rest
  end.

(** The [kill]s of [cmdExit] for the slots [slots]: one for each slot that
    is not marked finished. *)
Definition kills (slots : list Z) : list Syscall :=
  (fun pid => sys_kill pid SIGKILL)
    <$> List.filter (fun pid => negb (pid =? IS_PROCESS_FINISHED)) slots.

(** A table whose unused slots come last: slots that hold a pid or the
    finished mark, then unused ones only. *)
Definition table_ok (table : list Z) : Prop :=
  exists used free,
    table = used ++ replicate free (-1)
    /\ Forall (fun pid => 0 <= pid) used
    /\ length table = MAX_PROCESSES.

(** The polls of the sweep for the slots [slots]: one [waitpid] with
    [WNOHANG] for each slot that is not marked finished. *)
Definition polls (slots : list Z) : list Syscall :=
  (fun pid => sys_waitpid pid WNOHANG)
    <$> List.filter (fun pid => negb (pid =? IS_PROCESS_FINISHED)) slots.

(** ** Running the model *)

Ltac run :=
  cbv beta iota zeta delta
    [bind after ret stop syscall exec waitpid printf perror rd undefined exit_
     out_of_fuel at_ defined env outcome clock events fst snd negb orb andb
     cmdExecute_devnull cmdExecute_input cmdExecute_output cmdExecute_child
     cmdExecute_outcome cmdExecute_parent cmdExecute_fork
     cmdChangeDir cmdStatus reap_slot];
  cbn [app].

(** Case analysis on the next test the run is stuck on. *)
Ltac split_if :=
  match goal with
  | |- context [if ?b then _ else _] => destruct b eqn:?
  | |- context [match ?l !! ?i with _ => _ end] => destruct (l !! i) eqn:?
  | |- context [match ?o with Some _ => _ | None => _ end] => is_var o; destruct o
  end.

Ltac tests :=
  repeat match goal with
  | H : (_ =? _) = true |- _ => apply Z.eqb_eq in H
  | H : (_ =? _) = false |- _ => apply Z.eqb_neq in H
  | H : (_ <? _) = true |- _ => apply Z.ltb_lt in H
  | H : (_ <? _) = false |- _ => apply Z.ltb_ge in H
  end.

(** Membership in an explicit list of events. *)
Ltac member :=
  repeat match goal with
  | H : In _ (_ :: _) |- _ => destruct H as [H|H]
  | H : In _ [] |- _ => destruct H
  | H : _ \/ _ |- _ => destruct H as [H|H]
  | H : False |- _ => destruct H
  | H : @eq Event _ _ |- _ =>
      first [discriminate H | injection H; clear H; intros; subst]
  end.

(** Find an event in an explicit list. *)
Ltac found := cbn [In]; repeat (first [left; reflexivity | right]).

(** ** The monad and text *)

Lemma after_nil {A} (r : Run A) : after [] r = r.
Proof. destruct r; reflexivity. Qed.

Lemma outcome_after {A} evs (r : Run A) : outcome (after evs r) = outcome r.
Proof. destruct r; reflexivity. Qed.

Lemma bind_returned {A B} (m : M A) (k : A -> M B) K t b :
  outcome (bind m k K t) = Returned b ->
  exists a c e, m K t = MkRun (Returned a) c e /\ outcome (k a K c) = Returned b.
Proof.
  unfold bind. destruct (m K t) as [[a| | | |] c e]; cbn; try discriminate.
  rewrite outcome_after. intros H. exists a, c, e. split; [reflexivity|exact H].
Qed.

Lemma append_empty (a : string) : a +:+ "" = a.
Proof.
  induction a as [|c a IH]; [reflexivity|].
  change (String c (a +:+ "") = String c a). f_equal. exact IH.
Qed.

Lemma append_assoc (a b c : string) : (a +:+ b) +:+ c = a +:+ (b +:+ c).
Proof.
  induction a as [|x a IH]; [reflexivity|].
  change (String x ((a +:+ b) +:+ c) = String x (a +:+ (b +:+ c))).
  f_equal. exact IH.
Qed.

Lemma append_inj_l (a b c : string) : a +:+ b = a +:+ c -> b = c.
Proof.
  induction a as [|x a IH]; intros H; [exact H|].
  apply IH. change (String x (a +:+ b) = String x (a +:+ c)) in H.
  injection H as H. exact H.
Qed.

(** Decimal text never starts with the letter i. *)
Lemma dec_head P rest : dec P <> String "i" rest.
Proof.
  unfold dec. destruct P as [|p|p]; cbn.
  - discriminate.
  - destruct (Pos.to_uint p); cbn; discriminate.
  - destruct (Pos.to_uint p); cbn; discriminate.
Qed.

(** ** Wait status words *)

(** A status word is never both of an exit and of a signal. *)
Lemma WIFSIGNALED_not_exited ws : WIFSIGNALED ws = true -> WIFEXITED ws = false.
Proof.
  unfold WIFSIGNALED, WIFEXITED, WTERMSIG. intros H.
  apply Z.eqb_neq. intros E. rewrite E in H. discriminate H.
Qed.

Lemma WIFEXITED_not_signaled ws : WIFEXITED ws = true -> WIFSIGNALED ws = false.
Proof.
  intros H. destruct (WIFSIGNALED ws) eqn:E; [|reflexivity].
  apply WIFSIGNALED_not_exited in E. congruence.
Qed.

Lemma WTERMSIG_range ws : 0 <= WTERMSIG ws < 128.
Proof.
  unfold WTERMSIG. split.
  - apply Z.land_nonneg. right. lia.
  - change 127 with (Z.ones 7). rewrite Z.land_ones by lia.
    apply Z.mod_pos_bound. reflexivity.
Qed.

(** ** The scans *)

Lemma isBackground_foreground args args' :
  isBackground args = Some (false, args') -> args' = args.
Proof.
  revert args'. induction args as [|[a|] rest IH]; intros args' H; cbn in H.
  - discriminate.
  - destruct (String.eqb a "&"); [discriminate|].
    destruct (isBackground rest) as [[b rest']|]; [|discriminate].
    injection H as -> <-. f_equal. apply IH. reflexivity.
  - injection H as <-. reflexivity.
Qed.

(** ** The slot search of a background launch *)

(** The search makes no system call and prints nothing, and a table it
    returns differs from the old one in [bgOpen] only. *)
Lemma cmdExecute_record_keeps fuel : forall n cpid s K t,
  exists o, (forall s', o = Returned (Some s') ->
               status s' = status s /\ termination s' = termination s)
            /\ cmdExecute_record fuel n cpid s K t = MkRun o t [].
Proof.
  induction fuel as [|fuel IH]; intros n cpid s K t; cbn [cmdExecute_record].
  - destruct (n <? MAX_PROCESSES)%nat; eexists; (split; [|reflexivity]); discriminate.
  - destruct (n <? MAX_PROCESSES)%nat;
      [|eexists; (split; [|reflexivity]); discriminate].
    run. destruct (bgOpen s !! n) as [slot|];
      [|eexists; (split; [|reflexivity]); discriminate].
    destruct (slot <? 1).
    + eexists. split; [|reflexivity]. intros s' H. injection H as <-. split; reflexivity.
    + destruct (IH (S n) cpid s K t) as (o & Hkeep & ->).
      exists o. split; [exact Hkeep|]. destruct o; reflexivity.
Qed.

(** Replace the slot search in the goal by its run. *)
Ltac record_run :=
  match goal with
  | |- context [cmdExecute_record ?f ?n ?c ?s ?K ?t] =>
      let o := fresh "recorded" in
      let E := fresh "Hrecorded" in
      let Hk := fresh "Hkeep" in
      destruct (cmdExecute_record_keeps f n c s K t) as (o & Hk & E);
      rewrite E; destruct o as [[?|]| | | |]; run
  end.

(** The loop has fuel for every slot of the table. *)
Lemma cmdExecute_record_fuel fuel : forall n cpid s K t,
  (MAX_PROCESSES <= n + fuel)%nat ->
  outcome (cmdExecute_record fuel n cpid s K t) <> OutOfFuel.
Proof.
  induction fuel as [|fuel IH]; intros n cpid s K t Hfuel; cbn [cmdExecute_record].
  - assert (H : (n <? MAX_PROCESSES)%nat = false) by (apply Nat.ltb_ge; lia).
    rewrite H. discriminate.
  - destruct (n <? MAX_PROCESSES)%nat; [|discriminate].
    run. destruct (bgOpen s !! n) as [slot|]; [|discriminate].
    destruct (slot <? 1); [discriminate|].
    specialize (IH (S n) cpid s K t).
    destruct (cmdExecute_record fuel (S n) cpid s K t) as [o c e].
    cbn in *. apply IH. lia.
Qed.

(** The slot search stores the pid in the first slot below 1, when only
    running jobs come before it. *)
Lemma cmdExecute_record_free pre : forall done slot post fuel cpid s K t,
  bgOpen s = done ++ pre ++ slot :: post ->
  Forall (fun pid => 0 < pid) pre -> slot < 1 ->
  (length pre < fuel)%nat ->
  (length done + length pre < MAX_PROCESSES)%nat ->
  cmdExecute_record fuel (length done) cpid s K t =
  MkRun (Returned (Some (set_bgOpen (length done + length pre) cpid s))) t [].
Proof.
  induction pre as [|pid pre IH]; intros done slot post fuel cpid s K t Ht Hpre Hslot Hfuel Hmax.
  - destruct fuel as [|fuel]; [cbn in Hfuel; lia|]. cbn [cmdExecute_record].
    cbn [length] in *. apply Nat.ltb_lt in Hmax as Hlt.
    rewrite Nat.add_0_r in Hlt |- *. rewrite Hlt. run.
    rewrite Ht. cbn [app]. rewrite list_lookup_middle by reflexivity.
    apply Z.ltb_lt in Hslot. rewrite Hslot. reflexivity.
  - destruct fuel as [|fuel]; [cbn in Hfuel; lia|]. cbn [cmdExecute_record].
    cbn [length] in *.
    assert (Hlt : (length done <? MAX_PROCESSES)%nat = true) by (apply Nat.ltb_lt; lia).
    rewrite Hlt. run.
    rewrite Ht. cbn [app]. rewrite list_lookup_middle by reflexivity.
    inversion Hpre as [|? ? Hpid Hrest]; subst.
    assert (Hno : (pid <? 1) = false) by (apply Z.ltb_ge; lia).
    rewrite Hno.
    specialize (IH (done ++ [pid]) slot post fuel cpid s K t).
    rewrite length_app in IH. cbn [length] in IH.
    rewrite Nat.add_1_r in IH. cbn [Nat.add] in IH.
    rewrite IH; [|rewrite Ht, <- app_assoc; reflexivity|assumption|assumption|lia|lia].
    cbn. rewrite Nat.add_succ_r. reflexivity.
Qed.

Lemma set_bgOpen_middle pre slot post cpid s :
  bgOpen s = pre ++ slot :: post ->
  set_bgOpen (length pre) cpid s =
  MkShell (status s) (termination s) (pre ++ cpid :: post).
Proof.
  intros Ht. unfold set_bgOpen. rewrite Ht.
  rewrite <- (Nat.add_0_r (length pre)), insert_app_r. reflexivity.
Qed.

(** ** Launches *)

(** A background launch with a free slot: the run of [cmdExecute] in the
    parent. *)
Lemma cmdExecute_background K t args args' s cpid pre slot post :
  isBackground args = Some (true, args') ->
  In (EvSys sys_fork cpid) (events (cmdExecute args s K t)) -> 0 < cpid ->
  bgOpen s = pre ++ slot :: post -> length (bgOpen s) = MAX_PROCESSES ->
  Forall (fun pid => 0 < pid) pre -> slot < 1 ->
  outcome (cmdExecute args s K t) =
    Returned (MkShell (status s) (termination s) (pre ++ cpid :: post))
  /\ stdout (events (cmdExecute args s K t)) = "background pid is " +:+ dec cpid +:+ nl
  /\ ~ waited (events (cmdExecute args s K t))
  /\ ~ In (EvIndeterminate "wpid") (events (cmdExecute args s K t))
  /\ ~ In (EvIndeterminate "waitStatus") (events (cmdExecute args s K t)).
Proof.
  intros Hbg Hfork Hcpid Ht Hlen Hpre Hslot.
  assert (Hrec : forall c K t, cmdExecute_record MAX_PROCESSES 0 c s K t =
            MkRun (Returned (Some (MkShell (status s) (termination s) (pre ++ c :: post)))) t []).
  { intros c K' t'.
    change 0%nat with (@length Z []).
    rewrite (cmdExecute_record_free pre [] slot post MAX_PROCESSES c s K' t'); try assumption.
    - cbn [length Nat.add]. rewrite (set_bgOpen_middle pre slot post c s Ht). reflexivity.
    - rewrite Ht, length_app in Hlen. cbn [length] in Hlen. lia.
    - rewrite Ht, length_app in Hlen. cbn [length] in *. lia. }
  revert Hfork. unfold cmdExecute, waited.
  destruct (isInputRedirected args) as [ri|]; [|cbn; tauto].
  destruct (isOutputRedirected args) as [ro|]; [|cbn; tauto].
  rewrite Hbg.
  destruct ri, ro; run; repeat (split_if; run); rewrite ?Hrec; run.
  all: intros H; tests; member; try lia.
  all: repeat split; try reflexivity.
  all: first [ cbn [stdout]; apply append_empty
             | intros (? & ? & ? & ? & H); member
             | intros H; member ].
Qed.

(** Every background launch whose fork succeeds prints the pid. *)
Lemma cmdExecute_launch_report K t args args' s cpid :
  isBackground args = Some (true, args') ->
  In (EvSys sys_fork cpid) (events (cmdExecute args s K t)) -> 0 < cpid ->
  In (EvStdout ("background pid is " +:+ dec cpid +:+ nl))
     (events (cmdExecute args s K t)).
Proof.
  intros Hbg Hfork Hcpid. revert Hfork. unfold cmdExecute.
  destruct (isInputRedirected args) as [ri|]; [|cbn; tauto].
  destruct (isOutputRedirected args) as [ro|]; [|cbn; tauto].
  rewrite Hbg.
  destruct ri, ro; run; repeat (split_if; run); try record_run;
    repeat (split_if; run).
  all: intros H; tests; member; try lia.
  all: found.
Qed.

(** A foreground launch: the run of [cmdExecute] in the parent. *)
Lemma cmdExecute_foreground K t args args' s cpid :
  isBackground args = Some (false, args') ->
  In (EvSys sys_fork cpid) (events (cmdExecute args s K t)) -> 0 < cpid ->
  exists wpid stored,
    In (EvWait cpid 0 wpid stored) (events (cmdExecute args s K t))
    /\ (forall p o w st, In (EvWait p o w st) (events (cmdExecute args s K t)) ->
          p = cpid /\ o = 0 /\ w = wpid /\ st = stored)
    /\ (forall ws, stored = Some ws ->
          outcome (cmdExecute args s K t) = Returned (foreground_outcome ws s)
          /\ stdout (events (cmdExecute args s K t)) =
             if WIFSIGNALED ws
             then "terminated by signal " +:+ dec (WTERMSIG ws) +:+ nl
             else "").
Proof.
  intros Hbg Hfork Hcpid. revert Hfork. unfold cmdExecute.
  destruct (isInputRedirected args) as [ri|]; [|cbn; tauto].
  destruct (isOutputRedirected args) as [ro|]; [|cbn; tauto].
  rewrite Hbg.
  destruct ri, ro; run; repeat (split_if; run).
  all: intros H; tests; member; try lia.
  all: eexists; eexists; (split; [found|split]).
  all: try (intros ? ? ? ? H; member; repeat split; reflexivity).
  all: intros ws Hws; try discriminate Hws; injection Hws as <-.
  all: try (exfalso;
            match goal with
            | H1 : WIFEXITED ?x = true, H2 : WIFSIGNALED ?x = true |- _ =>
                pose proof (WIFSIGNALED_not_exited _ H2); congruence
            end).
  all: unfold foreground_outcome;
    repeat match goal with
    | H : WIFEXITED ?x = _ |- context [WIFEXITED ?x] => rewrite H
    | H : WIFSIGNALED ?x = _ |- context [WIFSIGNALED ?x] => rewrite H
    end.
  all: (split; [reflexivity|]); cbn [stdout]; try reflexivity.
  all: apply append_empty.
Qed.

(** No launch makes [termination] negative. *)
Lemma cmdExecute_termination K t args s s' :
  outcome (cmdExecute args s K t) = Returned s' ->
  0 <= termination s -> 0 <= termination s'.
Proof.
  unfold cmdExecute.
  destruct (isInputRedirected args) as [ri|]; [|cbn; discriminate].
  destruct (isOutputRedirected args) as [ro|]; [|cbn; discriminate].
  destruct (isBackground args) as [[bg args']|]; [|cbn; discriminate].
  destruct ri, ro, bg; run; repeat (split_if; run); try record_run;
    repeat (split_if; run).
  all: intros H Hs; try discriminate H; injection H as <-.
  all: cbn [termination set_termination set_status]; try assumption; try lia.
  all: try apply WTERMSIG_range.
  all: match goal with Hk : forall s', _ = _ -> _ |- _ =>
         destruct (Hk _ eq_refl) as [_ ->]; assumption end.
Qed.

(** ** The sweep *)

(** The run of the loop body, case by case. *)
Lemma reap_slot_run i curPid s K t :
  reap_slot i curPid s K t =
  if curPid =? 0 then MkRun (Returned s) t []
  else
    let w := answer K t (sys_waitpid curPid WNOHANG) in
    if w =? -1 then
      MkRun (Returned (set_status EXIT_FAILURE s)) (S t)
            [EvWait curPid WNOHANG w None; EvPerror ("wait failed" +:+ nl)]
    else if 0 <? w then
      MkRun (Returned (set_bgOpen i 0 s)) (S t)
            (EvWait curPid WNOHANG w (Some (wait_status K t))
             :: done_report curPid (wait_status K t))
    else MkRun (Returned s) (S t) [EvWait curPid WNOHANG w None].
Proof.
  unfold done_report. run. unfold IS_PROCESS_FINISHED.
  destruct (curPid =? 0); [reflexivity|]. run.
  destruct (0 <? answer K t (sys_waitpid curPid WNOHANG)) eqn:Hpos; run.
  - destruct (answer K t (sys_waitpid curPid WNOHANG) =? -1) eqn:Hw; run.
    + apply Z.eqb_eq in Hw. apply Z.ltb_lt in Hpos. lia.
    + destruct (WIFEXITED (wait_status K t)), (WIFSIGNALED (wait_status K t)); reflexivity.
  - destruct (answer K t (sys_waitpid curPid WNOHANG) =? -1); reflexivity.
Qed.

(** The run of the loop body on a slot that was found finished. *)
Lemma reap_slot_done i curPid s K t :
  curPid <> 0 -> 0 < answer K t (sys_waitpid curPid WNOHANG) ->
  reap_slot i curPid s K t =
  MkRun (Returned (set_bgOpen i 0 s)) (S t)
        (EvWait curPid WNOHANG (answer K t (sys_waitpid curPid WNOHANG))
                (Some (wait_status K t))
         :: done_report curPid (wait_status K t)).
Proof.
  intros Hcur Hw. rewrite reap_slot_run.
  apply Z.eqb_neq in Hcur. rewrite Hcur. cbv zeta.
  assert (Hne : (answer K t (sys_waitpid curPid WNOHANG) =? -1) = false)
    by (apply Z.eqb_neq; lia).
  apply Z.ltb_lt in Hw. rewrite Hne, Hw. reflexivity.
Qed.

(** The run of the loop body on a slot whose check failed. *)
Lemma reap_slot_failed i curPid s K t :
  curPid <> 0 -> answer K t (sys_waitpid curPid WNOHANG) = -1 ->
  reap_slot i curPid s K t =
  MkRun (Returned (set_status EXIT_FAILURE s)) (S t)
        [EvWait curPid WNOHANG (-1) None; EvPerror ("wait failed" +:+ nl)].
Proof.
  intros Hcur Hw. rewrite reap_slot_run.
  apply Z.eqb_neq in Hcur. rewrite Hcur. cbv zeta. rewrite Hw. reflexivity.
Qed.

Lemma done_report_no_failure curPid ws : check_failed (done_report curPid ws) = false.
Proof.
  unfold done_report. destruct (WIFEXITED ws), (WIFSIGNALED ws); reflexivity.
Qed.

Lemma stdout_done_report curPid ws :
  stdout (done_report curPid ws) =
  "background pid " +:+ dec curPid +:+ " is done: "
  +:+ (if WIFEXITED ws then "exit value " +:+ dec (WEXITSTATUS ws) +:+ nl else "")
  +:+ (if WIFSIGNALED ws then "terminated by signal " +:+ dec (WTERMSIG ws) +:+ nl else "").
Proof.
  unfold done_report. cbn [stdout].
  destruct (WIFEXITED ws), (WIFSIGNALED ws); cbn [app stdout];
    rewrite ?append_empty, ?append_assoc; reflexivity.
Qed.

(** The loop body reads the table nowhere and writes it at its own slot
    only: around the slot, any table will do. *)
Lemma reap_slot_frame curPid st tm K t :
  exists st' slot' t' evs,
    (slot' = curPid \/ slot' = 0)
    /\ (check_failed evs = true ->
        st' = EXIT_FAILURE /\ In (EvPerror ("wait failed" +:+ nl)) evs)
    /\ (check_failed evs = false -> st' = st)
    /\ forall a b,
        reap_slot (length a) curPid (MkShell st tm (a ++ curPid :: b)) K t =
        MkRun (Returned (MkShell st' tm (a ++ slot' :: b))) t' evs.
Proof.
  destruct (curPid =? 0) eqn:H0.
  { exists st, curPid, t, []. split; [auto|split; [|split]].
    - discriminate.
    - reflexivity.
    - intros a b. rewrite reap_slot_run, H0. reflexivity. }
  destruct (answer K t (sys_waitpid curPid WNOHANG) =? -1) eqn:Hw.
  { exists EXIT_FAILURE, curPid, (S t),
      [EvWait curPid WNOHANG (answer K t (sys_waitpid curPid WNOHANG)) None;
       EvPerror ("wait failed" +:+ nl)].
    split; [auto|split; [|split]].
    - intros _. split; [reflexivity|found].
    - cbn. rewrite Hw. discriminate.
    - intros a b. rewrite reap_slot_run, H0. cbv zeta. rewrite Hw. reflexivity. }
  destruct (0 <? answer K t (sys_waitpid curPid WNOHANG)) eqn:Hpos.
  { exists st, 0, (S t),
      (EvWait curPid WNOHANG (answer K t (sys_waitpid curPid WNOHANG)) (Some (wait_status K t))
       :: done_report curPid (wait_status K t)).
    split; [auto|split; [|split]].
    - cbn [check_failed existsb wait_failed]. rewrite Hw.
      fold (check_failed (done_report curPid (wait_status K t))).
      rewrite done_report_no_failure. discriminate.
    - reflexivity.
    - intros a b. rewrite reap_slot_run, H0. cbv zeta. rewrite Hw, Hpos.
      unfold set_bgOpen. cbn [status termination bgOpen].
      rewrite <- (Nat.add_0_r (length a)), insert_app_r. reflexivity. }
  exists st, curPid, (S t), [EvWait curPid WNOHANG (answer K t (sys_waitpid curPid WNOHANG)) None].
  split; [auto|split; [|split]].
  - cbn. rewrite Hw. discriminate.
  - reflexivity.
  - intros a b. rewrite reap_slot_run, H0. cbv zeta. rewrite Hw, Hpos. reflexivity.
Qed.

Lemma reap_slots_frame pre : forall st tm K t,
  exists st' pre' t' evs,
    Forall2 (fun slot slot' => slot' = slot \/ slot' = 0) pre pre'
    /\ (check_failed evs = true ->
        st' = EXIT_FAILURE /\ In (EvPerror ("wait failed" +:+ nl)) evs)
    /\ (check_failed evs = false -> st' = st)
    /\ forall a b,
        reap_slots pre (length a) (MkShell st tm (a ++ pre ++ b)) K t =
        MkRun (Returned (MkShell st' tm (a ++ pre' ++ b))) t' evs.
Proof.
  induction pre as [|curPid pre IH]; intros st tm K t.
  - exists st, [], t, []. split; [constructor|split; [|split]].
    + discriminate.
    + reflexivity.
    + reflexivity.
  - destruct (reap_slot_frame curPid st tm K t)
      as (st1 & slot1 & t1 & evs1 & Hs1 & Hf1 & Hn1 & E1).
    destruct (IH st1 tm K t1) as (st2 & pre2 & t2 & evs2 & Hs2 & Hf2 & Hn2 & E2).
    exists st2, (slot1 :: pre2), t2, (evs1 ++ evs2).
    unfold check_failed in *. rewrite existsb_app.
    split; [constructor; assumption|split; [|split]].
    + intros H. destruct (existsb wait_failed evs2) eqn:H2.
      * destruct (Hf2 eq_refl) as [-> Hin]. split; [reflexivity|apply in_or_app; auto].
      * rewrite orb_false_r in H. destruct (Hf1 H) as [-> Hin]. rewrite (Hn2 eq_refl).
        split; [reflexivity|apply in_or_app; auto].
    + intros H. apply orb_false_iff in H as [H1 H2]. rewrite Hn2, Hn1; auto.
    + intros a b. cbn [reap_slots]. unfold bind. cbn [app]. rewrite E1.
      specialize (E2 (a ++ [slot1]) b).
      rewrite length_app, Nat.add_1_r, <- !app_assoc in E2. cbn [app] in E2 |- *.
      rewrite E2. reflexivity.
Qed.

(** The loop of the sweep, on a table with an unused slot: the checks of
    the slots before it, and nothing else. *)
Lemma reap_loop_slots pre : forall a post st tm K t fuel,
  Forall (fun slot => slot <> -1) pre -> (length pre < fuel)%nat ->
  reap_loop fuel (length a) (MkShell st tm (a ++ pre ++ -1 :: post)) K t =
  reap_slots pre (length a) (MkShell st tm (a ++ pre ++ -1 :: post)) K t.
Proof.
  induction pre as [|curPid pre IH]; intros a post st tm K t fuel Hpre Hfuel;
    (destruct fuel as [|fuel]; [cbn in Hfuel; lia|]); cbn [reap_loop reap_slots].
  - unfold bind, at_. cbn [bgOpen app]. rewrite list_lookup_middle by reflexivity.
    reflexivity.
  - inversion Hpre as [|? ? Hcur Hrest]; subst.
    unfold bind at 1. unfold at_. cbn [bgOpen app].
    rewrite list_lookup_middle by reflexivity. cbn [ret after app].
    apply Z.eqb_neq in Hcur. rewrite Hcur.
    destruct (reap_slot_frame curPid st tm K t)
      as (st1 & slot1 & t1 & evs1 & Hs1 & Hf1 & Hn1 & E1).
    unfold bind. rewrite E1.
    specialize (IH (a ++ [slot1]) post st1 tm K t1 fuel Hrest).
    rewrite length_app, Nat.add_1_r, <- !app_assoc in IH. cbn [app] in IH.
    rewrite IH by (cbn in Hfuel; lia). rewrite after_nil. reflexivity.
Qed.

(** The run of a sweep over a table whose first unused slot comes after
    [pre]: it returns, whatever follows that slot. *)
Lemma reap_run K t st tm pre :
  Forall (fun slot => slot <> -1) pre -> (length pre < MAX_PROCESSES)%nat ->
  exists st' pre' t' evs,
    Forall2 (fun slot slot' => slot' = slot \/ slot' = 0) pre pre'
    /\ (check_failed evs = true ->
        st' = EXIT_FAILURE /\ In (EvPerror ("wait failed" +:+ nl)) evs)
    /\ (check_failed evs = false -> st' = st)
    /\ forall post,
        reap (MkShell st tm (pre ++ -1 :: post)) K t =
        MkRun (Returned (MkShell st' tm (pre' ++ -1 :: post))) t' evs.
Proof.
  intros Hpre Hlen.
  destruct (reap_slots_frame pre st tm K t) as (st' & pre' & t' & evs & Hs & Hf & Hn & E).
  exists st', pre', t', evs. split; [assumption|split; [assumption|split; [assumption|]]].
  intros post. unfold reap.
  assert (Hfuel : (length pre < S MAX_PROCESSES)%nat) by lia.
  etransitivity;
    [exact (reap_loop_slots pre [] post st tm K t (S MAX_PROCESSES) Hpre Hfuel)|].
  exact (E [] (-1 :: post)).
Qed.

Lemma reap_slot_termination i curPid s K t :
  exists s1 t1 evs, reap_slot i curPid s K t = MkRun (Returned s1) t1 evs
                    /\ termination s1 = termination s
                    /\ length (bgOpen s1) = length (bgOpen s).
Proof.
  rewrite reap_slot_run. unfold set_bgOpen.
  destruct (curPid =? 0); [eauto 7|]. cbv zeta.
  destruct (answer K t (sys_waitpid curPid WNOHANG) =? -1); [eauto 7|].
  destruct (0 <? answer K t (sys_waitpid curPid WNOHANG)); [|eauto 7].
  do 3 eexists. split; [reflexivity|]. split; [reflexivity|]. apply length_insert.
Qed.

(** No sweep changes [termination]. *)
Lemma reap_loop_termination fuel : forall n s K t s',
  outcome (reap_loop fuel n s K t) = Returned s' -> termination s' = termination s.
Proof.
  induction fuel as [|fuel IH]; intros n s K t s' H; cbn [reap_loop] in H.
  - discriminate H.
  - apply bind_returned in H as (curPid & c & e & Hat & H).
    unfold at_ in Hat. destruct (bgOpen s !! n) as [slot|]; [|discriminate Hat].
    injection Hat as -> <- <-.
    destruct (curPid =? -1); [injection H as <-; reflexivity|].
    apply bind_returned in H as (s1 & c1 & e1 & Hslot & H).
    destruct (reap_slot_termination n curPid s K t) as (s2 & t2 & evs & E & Hterm & _).
    rewrite E in Hslot. injection Hslot as <- <- <-.
    rewrite (IH _ _ _ _ _ H). exact Hterm.
Qed.

(** The loop has fuel for every slot of the table, and one more turn to
    run off its end. *)
Lemma reap_loop_fuel fuel : forall n s K t,
  (n <= length (bgOpen s) < n + fuel)%nat ->
  outcome (reap_loop fuel n s K t) <> OutOfFuel.
Proof.
  induction fuel as [|fuel IH]; intros n s K t Hfuel; cbn [reap_loop].
  - lia.
  - unfold bind at 1. unfold at_.
    destruct (bgOpen s !! n) as [curPid|] eqn:Hslot; [|discriminate].
    apply lookup_lt_Some in Hslot.
    cbn [ret after app]. rewrite outcome_after.
    destruct (curPid =? -1); [discriminate|].
    destruct (reap_slot_termination n curPid s K t) as (s1 & t1 & evs & E & _ & Hlen).
    unfold bind. rewrite E, outcome_after. apply IH. rewrite Hlen. lia.
Qed.

Lemma reap_fuel s K t :
  (length (bgOpen s) <= MAX_PROCESSES)%nat -> outcome (reap s K t) <> OutOfFuel.
Proof. intros H. apply reap_loop_fuel. lia. Qed.

(** ** The loop of [main] *)

Lemma processArgs_termination K t args s s' :
  outcome (processArgs args s K t) = Returned s' ->
  0 <= termination s -> 0 <= termination s'.
Proof.
  unfold processArgs. intros H Hs.
  apply bind_returned in H as (a0 & c & e & Hat & H).
  destruct a0 as [cmd|]; [|injection H as <-; assumption].
  destruct (bool_decide _); [injection H as <-; assumption|].
  destruct (String.eqb cmd "cd").
  { revert H. run. repeat (split_if; run); intros H; try discriminate H;
      injection H as <-; assumption. }
  destruct (String.eqb cmd "status").
  { revert H. run. repeat (split_if; run); intros H; injection H as <-; assumption. }
  destruct (String.eqb cmd "exit").
  { unfold cmdExit in H. apply bind_returned in H as (? & ? & ? & _ & H). discriminate H. }
  eapply cmdExecute_termination; eassumption.
Qed.

(** [termination] is never negative: it is 0, or a signal number. *)
Lemma reachable_termination s : reachable s -> 0 <= termination s.
Proof.
  induction 1 as [|s inputArgs K t s' _ IH H].
  - cbn. lia.
  - unfold main_turn in H.
    apply bind_returned in H as (s1 & c1 & e1 & Hreap & H).
    apply bind_returned in H as (? & c2 & e2 & _ & H).
    assert (Hs1 : termination s1 = termination s).
    { apply (reap_loop_termination (S MAX_PROCESSES) 0 s K t). unfold reap in Hreap.
      rewrite Hreap. reflexivity. }
    eapply processArgs_termination; [exact H|]. rewrite Hs1. exact IH.
Qed.

(** ** The full table *)

Lemma launches_reachable n : forall t s s' t',
  launches n t s = Some (s', t') -> reachable s -> reachable s'.
Proof.
  induction n as [|n IH]; intros t s s' t' H Hs; cbn [launches] in H.
  - injection H as <- _. exact Hs.
  - destruct (main_turn (array ["sleep"; "5"; "&"]) s busy_kernel t)
      as [[s1| | | |] t1 evs] eqn:E; try discriminate H.
    apply (IH t1 s1 s' t' H).
    apply (reachable_turn s (array ["sleep"; "5"; "&"]) busy_kernel t s1 Hs).
    rewrite E. reflexivity.
Qed.

Lemma full_table_reachable : reachable full_table.
Proof.
  assert (H : exists t', launches MAX_PROCESSES 0 init = Some (full_table, t')).
  { eexists. vm_compute. reflexivity. }
  destruct H as [t' H]. exact (launches_reachable _ _ _ _ _ H reachable_init).
Qed.

Lemma full_table_running : Forall (fun pid => 0 < pid) (bgOpen full_table).
Proof.
  set (table := bgOpen full_table). vm_compute in table. subst table.
  repeat (constructor; [reflexivity|]). constructor.
Qed.

(** On a table without unused slot the loop of the sweep runs off the
    end of the array. *)
Lemma reap_loop_overrun pre : forall a st tm K t fuel,
  Forall (fun slot => slot <> -1) pre -> (length pre < fuel)%nat ->
  outcome (reap_loop fuel (length a) (MkShell st tm (a ++ pre)) K t) = Undefined.
Proof.
  induction pre as [|curPid pre IH]; intros a st tm K t fuel Hpre Hfuel;
    (destruct fuel as [|fuel]; [cbn in Hfuel; lia|]); cbn [reap_loop].
  - unfold bind, at_. cbn [bgOpen]. rewrite app_nil_r.
    rewrite lookup_ge_None_2 by lia. reflexivity.
  - inversion Hpre as [|? ? Hcur Hrest]; subst.
    unfold bind at 1. unfold at_. cbn [bgOpen].
    rewrite list_lookup_middle by reflexivity. cbn [ret after app].
    rewrite outcome_after.
    apply Z.eqb_neq in Hcur. rewrite Hcur.
    destruct (reap_slot_frame curPid st tm K t)
      as (st1 & slot1 & t1 & evs1 & Hs1 & Hf1 & Hn1 & E1).
    unfold bind. rewrite E1. rewrite outcome_after.
    specialize (IH (a ++ [slot1]) st1 tm K t1 fuel Hrest).
    rewrite length_app, Nat.add_1_r, <- !app_assoc in IH. cbn [app] in IH.
    apply IH. cbn in Hfuel. lia.
Qed.

Lemma reap_overrun K t s :
  Forall (fun slot => slot <> -1) (bgOpen s) ->
  length (bgOpen s) = MAX_PROCESSES ->
  outcome (reap s K t) = Undefined.
Proof.
  intros Hpre Hlen. destruct s as [st tm table]. cbn [bgOpen] in *.
  exact (reap_loop_overrun table [] st tm K t (S MAX_PROCESSES) Hpre
           ltac:(rewrite Hlen; lia)).
Qed.

(** ** The launcher: failed opens *)

(** C1, as amended: when an [open] of [cmdExecute] fails (of the
    redirection target, or of [/dev/null] for a background command), the
    command returns with an error message printed and without forking;
    [termination] and [bgOpen] are unchanged, and [status] is set to
    [EXIT_FAILURE]. *)
Theorem cmdExecute_open_failure K t args s :
  open_failed (events (cmdExecute args s K t)) ->
  outcome (cmdExecute args s K t) = Returned (set_status EXIT_FAILURE s)
  /\ ~ forked (events (cmdExecute args s K t))
  /\ (exists text, In (EvStdout text) (events (cmdExecute args s K t))
                   /\ open_error_report text).
Proof.
  unfold cmdExecute, open_failed, forked, open_error_report.
  destruct (isInputRedirected args) as [ri|]; [|cbn; firstorder].
  destruct (isOutputRedirected args) as [ro|]; [|cbn; firstorder].
  destruct (isBackground args) as [[bg args']|]; [|cbn; firstorder].
  destruct ri, ro, bg; run; repeat (split_if; run); try record_run;
    repeat (split_if; run).
  all: intros (path & flags & mode & H); tests; member; try congruence.
  all: (split; [reflexivity|split; [intros [c Hc]; member|]]).
  all: eexists; split; [found|].
  all: first [ left; reflexivity
             | right; left; eexists; reflexivity
             | right; right; eexists; reflexivity ].
Qed.

(** [cat < f] when [f] cannot be opened. *)
Lemma cmdExecute_open_failure_witness :
  open_failed (events (cmdExecute (array ["cat"; "<"; "f"]) init
                                  (kernel (-1) 42 42 0 0 0) 0%nat))
  /\ outcome (cmdExecute (array ["cat"; "<"; "f"]) init (kernel (-1) 42 42 0 0 0) 0%nat)
     = Returned (set_status EXIT_FAILURE init).
Proof.
  assert (H : open_failed (events (cmdExecute (array ["cat"; "<"; "f"]) init
                                              (kernel (-1) 42 42 0 0 0) 0%nat))).
  { exists (Some "f"), O_RDONLY, None. vm_compute. left. reflexivity. }
  split; [exact H|].
  exact (proj1 (cmdExecute_open_failure _ _ _ _ H)).
Defined.

(** C1, as stated, fails: after [cat < f] with [f] missing, [status] is 1
    where it was 0. *)
Lemma open_failure_changes_status :
  open_failed (events (cmdExecute (array ["cat"; "<"; "f"]) init
                                  (kernel (-1) 42 42 0 0 0) 0%nat))
  /\ outcome (cmdExecute (array ["cat"; "<"; "f"]) init (kernel (-1) 42 42 0 0 0) 0%nat)
     = Returned (MkShell 1 0 (bgOpen init))
  /\ MkShell 1 0 (bgOpen init) <> init.
Proof.
  split; [|split].
  - exists (Some "f"), O_RDONLY, None. vm_compute. left. reflexivity.
  - vm_compute. reflexivity.
  - discriminate.
Qed.

(** ** Report formats *)

(** C2, as amended: the reports of job outcomes are, each followed by a
    newline: [background pid P is done: exit value V] and
    [background pid P is done: terminated by signal S] from the sweep,
    [terminated by signal S] for a signaled foreground command,
    [exit value V] and [terminated by signal S] from [status], and
    [background pid is P] at every background launch. *)
Theorem report_formats :
  (forall K t i curPid s, curPid <> 0 ->
     0 < answer K t (sys_waitpid curPid WNOHANG) ->
     WIFEXITED (wait_status K t) = true ->
     stdout (events (reap_slot i curPid s K t)) =
     "background pid " +:+ dec curPid +:+ " is done: exit value "
     +:+ dec (WEXITSTATUS (wait_status K t)) +:+ nl)
  /\ (forall K t i curPid s, curPid <> 0 ->
     0 < answer K t (sys_waitpid curPid WNOHANG) ->
     WIFSIGNALED (wait_status K t) = true ->
     stdout (events (reap_slot i curPid s K t)) =
     "background pid " +:+ dec curPid +:+ " is done: terminated by signal "
     +:+ dec (WTERMSIG (wait_status K t)) +:+ nl)
  /\ (forall K t args args' s cpid wpid ws,
     isBackground args = Some (false, args') ->
     In (EvSys sys_fork cpid) (events (cmdExecute args s K t)) -> 0 < cpid ->
     In (EvWait cpid 0 wpid (Some ws)) (events (cmdExecute args s K t)) ->
     WIFSIGNALED ws = true ->
     stdout (events (cmdExecute args s K t)) =
     "terminated by signal " +:+ dec (WTERMSIG ws) +:+ nl)
  /\ (forall K t st tm, tm <= 0 ->
     stdout (events (cmdStatus st tm K t)) = "exit value " +:+ dec st +:+ nl)
  /\ (forall K t st tm, 0 < tm ->
     stdout (events (cmdStatus st tm K t)) = "terminated by signal " +:+ dec tm +:+ nl)
  /\ (forall K t args args' s cpid,
     isBackground args = Some (true, args') ->
     In (EvSys sys_fork cpid) (events (cmdExecute args s K t)) -> 0 < cpid ->
     In (EvStdout ("background pid is " +:+ dec cpid +:+ nl))
        (events (cmdExecute args s K t))).
Proof.
  split; [|split; [|split; [|split; [|split]]]].
  - intros K t i curPid s Hcur Hw Hex.
    rewrite reap_slot_done by assumption. cbn [events stdout].
    rewrite stdout_done_report.
    rewrite Hex, (WIFEXITED_not_signaled _ Hex), append_empty. reflexivity.
  - intros K t i curPid s Hcur Hw Hsig.
    rewrite reap_slot_done by assumption. cbn [events stdout].
    rewrite stdout_done_report.
    rewrite Hsig, (WIFSIGNALED_not_exited _ Hsig). reflexivity.
  - intros K t args args' s cpid wpid ws Hbg Hfork Hcpid Hwait Hsig.
    destruct (cmdExecute_foreground K t args args' s cpid Hbg Hfork Hcpid)
      as (wpid0 & stored & _ & Honly & Hout).
    destruct (Honly _ _ _ _ Hwait) as (_ & _ & _ & Hst).
    destruct (Hout ws (eq_sym Hst)) as [_ ->]. rewrite Hsig. reflexivity.
  - intros K t st tm Htm. unfold cmdStatus.
    assert (H : (0 <? tm) = false) by (apply Z.ltb_ge; lia).
    rewrite H. cbn [printf events stdout]. apply append_empty.
  - intros K t st tm Htm. unfold cmdStatus.
    apply Z.ltb_lt in Htm. rewrite Htm. cbn [printf events stdout]. apply append_empty.
  - intros K t args args' s cpid Hbg Hfork Hcpid.
    exact (cmdExecute_launch_report K t args args' s cpid Hbg Hfork Hcpid).
Qed.

(** Job 500 found exited with value 7, and found killed by signal 9; [kill]
    in the foreground, killed by signal 9; [status] after exit value 7 and
    after signal 9; [sleep 5 &] launched as pid 42. *)
Lemma report_formats_witness :
  stdout (events (reap_slot 0%nat 500 (MkShell 0 0 (jobs 1)) (kernel 3 42 500 0 1792 0) 0%nat))
    = "background pid 500 is done: exit value 7" +:+ nl
  /\ stdout (events (reap_slot 0%nat 500 (MkShell 0 0 (jobs 1)) (kernel 3 42 500 0 9 0) 0%nat))
    = "background pid 500 is done: terminated by signal 9" +:+ nl
  /\ stdout (events (cmdExecute (array ["kill"; "-9"; "$$"]) init (kernel 3 42 42 0 9 0) 0%nat))
    = "terminated by signal 9" +:+ nl
  /\ stdout (events (cmdStatus 7 0 (kernel 3 42 42 0 0 0) 0%nat)) = "exit value 7" +:+ nl
  /\ stdout (events (cmdStatus 0 9 (kernel 3 42 42 0 0 0) 0%nat))
    = "terminated by signal 9" +:+ nl
  /\ In (EvStdout ("background pid is 42" +:+ nl))
        (events (cmdExecute (array ["sleep"; "5"; "&"]) init (kernel 3 42 0 0 0 0) 0%nat)).
Proof.
  destruct report_formats as (Hexit & Hsig & Hfg & Hst & Hterm & Hbg).
  split; [|split; [|split; [|split; [|split]]]].
  - apply (Hexit (kernel 3 42 500 0 1792 0) 0%nat 0%nat 500 (MkShell 0 0 (jobs 1)));
      [lia|reflexivity|reflexivity].
  - apply (Hsig (kernel 3 42 500 0 9 0) 0%nat 0%nat 500 (MkShell 0 0 (jobs 1)));
      [lia|reflexivity|reflexivity].
  - apply (Hfg (kernel 3 42 42 0 9 0) 0%nat (array ["kill"; "-9"; "$$"])
               (array ["kill"; "-9"; "$$"]) init 42 42 9);
      [reflexivity|vm_compute; tauto|lia|vm_compute; tauto|reflexivity].
  - apply (Hst (kernel 3 42 42 0 0 0) 0%nat 7 0). lia.
  - apply (Hterm (kernel 3 42 42 0 0 0) 0%nat 0 9). lia.
  - apply (Hbg (kernel 3 42 0 0 0 0) 0%nat (array ["sleep"; "5"; "&"])
               (array ["sleep"; "5"] ++ [None]) init 42);
      [reflexivity|vm_compute; tauto|lia].
Defined.

(** C2, as stated, fails: the launch report of [sleep 5 &] is
    [background pid is 42], which is [background pid P] for no [P]. *)
Lemma launch_report_differs :
  stdout (events (cmdExecute (array ["sleep"; "5"; "&"]) init
                             (kernel 3 42 0 0 0 0) 0%nat)) =
    "background pid is 42" +:+ nl
  /\ forall P, "background pid is 42" +:+ nl <> spec_launch_report P +:+ nl
               /\ "background pid is 42" +:+ nl <> spec_launch_report P.
Proof.
  split; [vm_compute; reflexivity|].
  intros P. unfold spec_launch_report. split; intros H.
  - rewrite append_assoc in H.
    change ("background pid is 42" +:+ nl)
      with ("background pid " +:+ ("is 42" +:+ nl)) in H.
    apply append_inj_l in H. symmetry in H.
    destruct (dec P) as [|c d] eqn:E; [discriminate H|].
    change (String c (d +:+ nl) = String "i" ("s 42" +:+ nl)) in H.
    injection H as -> _. exact (dec_head P d E).
  - change ("background pid is 42" +:+ nl)
      with ("background pid " +:+ ("is 42" +:+ nl)) in H.
    apply append_inj_l in H. symmetry in H. exact (dec_head P _ H).
Qed.

(** ** Background launches *)

(** C3: a background launch whose fork succeeds, on a table whose first
    slot that is not a running job is empty (0) or unused (-1), stores the
    child's pid in that slot, prints the pid, and returns without any
    [waitpid]. *)
Theorem background_launch_recorded K t args args' s cpid pre slot post :
  isBackground args = Some (true, args') ->
  In (EvSys sys_fork cpid) (events (cmdExecute args s K t)) -> 0 < cpid ->
  bgOpen s = pre ++ slot :: post -> length (bgOpen s) = MAX_PROCESSES ->
  Forall (fun pid => 0 < pid) pre -> slot = 0 \/ slot = -1 ->
  outcome (cmdExecute args s K t) =
    Returned (MkShell (status s) (termination s) (pre ++ cpid :: post))
  /\ stdout (events (cmdExecute args s K t)) = "background pid is " +:+ dec cpid +:+ nl
  /\ ~ waited (events (cmdExecute args s K t)).
Proof.
  intros Hbg Hfork Hcpid Ht Hlen Hpre Hslot.
  assert (Hlt : slot < 1) by lia.
  destruct (cmdExecute_background K t args args' s cpid pre slot post
              Hbg Hfork Hcpid Ht Hlen Hpre Hlt) as (Hout & Hrep & Hwait & _).
  split; [exact Hout|split; [exact Hrep|exact Hwait]].
Qed.

(** [sleep 5 &] with jobs 500 and 501 running: pid 42 goes to slot 2. *)
Lemma background_launch_recorded_witness :
  outcome (cmdExecute (array ["sleep"; "5"; "&"]) (MkShell 0 0 (jobs 2))
                      (kernel 3 42 0 0 0 0) 0%nat)
  = Returned (MkShell 0 0 ([500; 501] ++ 42 :: replicate 97 (-1))).
Proof.
  apply (background_launch_recorded (kernel 3 42 0 0 0 0) 0%nat
           (array ["sleep"; "5"; "&"]) (array ["sleep"; "5"] ++ [None])
           (MkShell 0 0 (jobs 2))
           42 [500; 501] (-1) (replicate 97 (-1)));
    [reflexivity|vm_compute; tauto|lia|reflexivity|reflexivity
    |repeat constructor|right; reflexivity].
Defined.

(** ** The reap sweep *)

(** On a table whose first unused slot (-1) comes after the slots [pre],
    a sweep is the check of each slot of [pre], from index 0 up, and
    nothing else; it returns, and what follows the unused slot plays no
    part: the run is the same for every [post'], which is left as it was.
    An empty slot (0) is skipped; a running job is checked by
    [waitpid] with [WNOHANG]; not finished (0 returned), its slot stays;
    finished (a pid returned), the job is reported and its slot set to 0. *)
Lemma reap_scans_to_first_unused K t st tm pre post :
  Forall (fun slot => slot <> -1) pre -> (length pre < MAX_PROCESSES)%nat ->
  reap (MkShell st tm (pre ++ -1 :: post)) K t =
    reap_slots pre 0 (MkShell st tm (pre ++ -1 :: post)) K t
  /\ (exists st' pre' t' evs,
        Forall2 (fun slot slot' => slot' = slot \/ slot' = 0) pre pre'
        /\ forall post',
             reap (MkShell st tm (pre ++ -1 :: post')) K t =
             MkRun (Returned (MkShell st' tm (pre' ++ -1 :: post'))) t' evs)
  /\ (forall i s K t, reap_slot i 0 s K t = MkRun (Returned s) t [])
  /\ (forall i curPid s K t, curPid <> 0 ->
        answer K t (sys_waitpid curPid WNOHANG) = 0 ->
        reap_slot i curPid s K t =
        MkRun (Returned s) (S t) [EvWait curPid WNOHANG 0 None])
  /\ (forall i curPid s K t, curPid <> 0 ->
        0 < answer K t (sys_waitpid curPid WNOHANG) ->
        reap_slot i curPid s K t =
        MkRun (Returned (set_bgOpen i 0 s)) (S t)
              (EvWait curPid WNOHANG (answer K t (sys_waitpid curPid WNOHANG))
                      (Some (wait_status K t))
               :: done_report curPid (wait_status K t))).
Proof.
  intros Hpre Hlen. split; [|split; [|split; [|split]]].
  - assert (Hfuel : (length pre < S MAX_PROCESSES)%nat) by lia.
    exact (reap_loop_slots pre [] post st tm K t (S MAX_PROCESSES) Hpre Hfuel).
  - destruct (reap_run K t st tm pre Hpre Hlen) as (st' & pre' & t' & evs & Hs & _ & _ & E).
    exists st', pre', t', evs. split; assumption.
  - intros i s K' t'. rewrite reap_slot_run. reflexivity.
  - intros i curPid s K' t' Hcur Hw. rewrite reap_slot_run.
    apply Z.eqb_neq in Hcur. rewrite Hcur. cbv zeta. rewrite Hw. reflexivity.
  - intros i curPid s K' t' Hcur Hw. apply reap_slot_done; assumption.
Qed.

(** Jobs 500 and 501 running and found finished with exit value 7: both
    slots are set to 0 and the rest of the table is as it was. *)
Lemma reap_two_finished_jobs :
  reap (MkShell 0 0 (jobs 2)) (kernel 3 42 500 0 1792 0) 0%nat =
  MkRun (Returned (MkShell 0 0 ([0; 0] ++ -1 :: replicate 97 (-1)))) 2%nat
        ((EvWait 500 WNOHANG 500 (Some 1792) :: done_report 500 1792)
         ++ (EvWait 501 WNOHANG 500 (Some 1792) :: done_report 501 1792)).
Proof. vm_compute. reflexivity. Qed.

(** C4, at the table of 100 running jobs, which the shell reaches by 100
    background launches: there is no unused slot for the sweep to stop
    at, and after the check of slot 99 the loop reads [bgOpen[100]],
    outside the array, whatever the kernel answers. *)
Theorem reap_full_table_overrun :
  reachable full_table
  /\ length (bgOpen full_table) = MAX_PROCESSES
  /\ Forall (fun pid => 0 < pid) (bgOpen full_table)
  /\ (forall K t, outcome (reap full_table K t) = Undefined).
Proof.
  split; [exact full_table_reachable|split; [vm_compute; reflexivity|]].
  split; [exact full_table_running|].
  intros K t. apply reap_overrun; [|vm_compute; reflexivity].
  eapply Forall_impl; [exact full_table_running|]. intros pid Hp. cbn in Hp. lia.
Qed.

(** C5, as amended: a check of the sweep that finds its job finished,
    by exit or by signal, leaves [status] and [termination] as they were;
    a sweep never changes [termination], and it changes [status] when and
    only when one of its checks fails, to [EXIT_FAILURE]. *)
Theorem reap_keeps_outcome K t :
  (forall i curPid s, curPid <> 0 ->
     0 < answer K t (sys_waitpid curPid WNOHANG) ->
     exists s', outcome (reap_slot i curPid s K t) = Returned s'
                /\ status s' = status s /\ termination s' = termination s)
  /\ (forall st tm pre post,
        Forall (fun slot => slot <> -1) pre -> (length pre < MAX_PROCESSES)%nat ->
        exists s', outcome (reap (MkShell st tm (pre ++ -1 :: post)) K t) = Returned s'
                   /\ termination s' = tm
                   /\ status s' =
                      if check_failed (events (reap (MkShell st tm (pre ++ -1 :: post)) K t))
                      then EXIT_FAILURE else st).
Proof.
  split.
  - intros i curPid s Hcur Hw. rewrite reap_slot_done by assumption.
    eexists. split; [reflexivity|]. split; reflexivity.
  - intros st tm pre post Hpre Hlen.
    destruct (reap_run K t st tm pre Hpre Hlen) as (st' & pre' & t' & evs & Hs & Hf & Hn & E).
    rewrite E. cbn [events outcome]. eexists. split; [reflexivity|].
    split; [reflexivity|]. cbn [status].
    destruct (check_failed evs); [apply Hf|apply Hn]; reflexivity.
Qed.

(** After a foreground command killed by signal 9 following one that
    exited with 7, job 500 is found killed by signal 15: [status] still has
    7 and 9 to report. *)
Lemma reap_keeps_outcome_witness :
  exists s', outcome (reap_slot 0%nat 500 (MkShell 7 9 (jobs 1))
                                (kernel 3 42 500 0 15 0) 0%nat) = Returned s'
             /\ status s' = 7 /\ termination s' = 9.
Proof.
  apply (proj1 (reap_keeps_outcome (kernel 3 42 500 0 15 0) 0%nat)
               0%nat 500 (MkShell 7 9 (jobs 1))); [lia|reflexivity].
Defined.

(** C5, as stated, fails: [status] is overwritten when no foreground
    command has completed, here by a sweep whose check of job 500 fails
    and by a [cd] to a directory that does not exist. *)
Lemma status_overwritten_without_foreground :
  reap (MkShell 0 0 (jobs 1)) (kernel 3 42 (-1) 0 0 0) 0%nat =
    MkRun (Returned (MkShell 1 0 (jobs 1))) 1%nat
          [EvWait 500 WNOHANG (-1) None; EvPerror ("wait failed" +:+ nl)]
  /\ processArgs (array ["cd"; "/nowhere"]) init (kernel 3 42 0 (-1) 0 0) 0%nat =
    MkRun (Returned (MkShell 1 0 (bgOpen init))) 1%nat
          [EvSys (sys_chdir (Some "/nowhere")) (-1);
           EvStdout ("cd: /nowhere: No such file or directory" +:+ nl)].
Proof. split; vm_compute; reflexivity. Qed.

(** C10: when the check of a running job fails ([waitpid] returns -1),
    the sweep reports it with [perror] and sets [status] to
    [EXIT_FAILURE]; [termination] and the table are as they were. So it is
    for the check alone, and for the whole sweep it occurs in. *)
Theorem reap_wait_failure K t :
  (forall i curPid s, curPid <> 0 ->
     answer K t (sys_waitpid curPid WNOHANG) = -1 ->
     reap_slot i curPid s K t =
     MkRun (Returned (set_status EXIT_FAILURE s)) (S t)
           [EvWait curPid WNOHANG (-1) None; EvPerror ("wait failed" +:+ nl)])
  /\ (forall st tm pre post,
        Forall (fun slot => slot <> -1) pre -> (length pre < MAX_PROCESSES)%nat ->
        check_failed (events (reap (MkShell st tm (pre ++ -1 :: post)) K t)) = true ->
        exists s', outcome (reap (MkShell st tm (pre ++ -1 :: post)) K t) = Returned s'
                   /\ status s' = EXIT_FAILURE /\ termination s' = tm
                   /\ In (EvPerror ("wait failed" +:+ nl))
                         (events (reap (MkShell st tm (pre ++ -1 :: post)) K t))).
Proof.
  split.
  - intros i curPid s Hcur Hw. apply reap_slot_failed; assumption.
  - intros st tm pre post Hpre Hlen.
    destruct (reap_run K t st tm pre Hpre Hlen) as (st' & pre' & t' & evs & Hs & Hf & _ & E).
    rewrite E. cbn [events outcome]. intros H. destruct (Hf H) as [-> Hin].
    eexists. split; [reflexivity|]. auto.
Qed.

(** The check of job 500 fails in a shell whose last foreground command
    was killed by signal 9. *)
Lemma reap_wait_failure_witness :
  reap_slot 0%nat 500 (MkShell 0 9 (jobs 1)) (kernel 3 42 (-1) 0 0 0) 0%nat =
    MkRun (Returned (MkShell 1 9 (jobs 1))) 1%nat
          [EvWait 500 WNOHANG (-1) None; EvPerror ("wait failed" +:+ nl)]
  /\ exists s', outcome (reap (MkShell 0 9 (jobs 1)) (kernel 3 42 (-1) 0 0 0) 0%nat)
                = Returned s'
                /\ status s' = EXIT_FAILURE /\ termination s' = 9.
Proof.
  split.
  - apply (proj1 (reap_wait_failure (kernel 3 42 (-1) 0 0 0) 0%nat)
                 0%nat 500 (MkShell 0 9 (jobs 1))); [lia|reflexivity].
  - destruct (proj2 (reap_wait_failure (kernel 3 42 (-1) 0 0 0) 0%nat)
                 0 9 [500] (replicate 98 (-1))) as (s' & Hout & Hst & Htm & _).
    + repeat constructor. discriminate.
    + vm_compute. lia.
    + vm_compute. reflexivity.
    + exists s'. split; [exact Hout|split; [exact Hst|exact Htm]].
Defined.

(** ** The status builtin *)

(** C6, as amended: in every state the shell reaches, [status] prints the
    signal number when [termination] is not 0 and the exit value [status]
    when it is; at start-up, before any command has run, both are 0 and
    [status] prints [exit value 0]. *)
Theorem status_report :
  (forall s, reachable s -> forall K t,
     events (cmdStatus (status s) (termination s) K t) =
     [EvStdout (if termination s =? 0
                then "exit value " +:+ dec (status s) +:+ nl
                else "terminated by signal " +:+ dec (termination s) +:+ nl)])
  /\ status init = 0 /\ termination init = 0
  /\ (forall K t, events (cmdStatus (status init) (termination init) K t) =
                  [EvStdout ("exit value 0" +:+ nl)]).
Proof.
  split; [|split; [reflexivity|split; [reflexivity|reflexivity]]].
  intros s Hs K t. apply reachable_termination in Hs. unfold cmdStatus.
  destruct (termination s =? 0) eqn:E.
  - apply Z.eqb_eq in E. rewrite E. reflexivity.
  - apply Z.eqb_neq in E.
    assert (H : (0 <? termination s) = true) by (apply Z.ltb_lt; lia).
    rewrite H. reflexivity.
Qed.

(** The state after [kill -9 $$] in the foreground, killed by signal 9. *)
Lemma status_report_witness :
  reachable (MkShell 0 9 (bgOpen init))
  /\ events (cmdStatus 0 9 (kernel 3 42 42 0 9 0) 0%nat) =
     [EvStdout ("terminated by signal 9" +:+ nl)].
Proof.
  assert (H : reachable (MkShell 0 9 (bgOpen init))).
  { apply (reachable_turn init (array ["kill"; "-9"; "$$"]) (kernel 3 42 42 0 9 0) 0%nat).
    - exact reachable_init.
    - vm_compute. reflexivity. }
  split; [exact H|].
  exact (proj1 status_report _ H (kernel 3 42 42 0 9 0) 0%nat).
Defined.

(** C6, as stated, fails: with no foreground command ever run, [status]
    prints [exit value 1] after a [cd] to a directory that does not
    exist, and after a background command whose output file cannot be
    opened and which is therefore not launched. *)
Lemma status_before_any_foreground_command :
  main_turn (array ["cd"; "/nowhere"]) init (kernel 3 42 0 (-1) 0 0) 0%nat =
    MkRun (Returned (MkShell 1 0 (bgOpen init))) 1%nat
          [EvStdout ": "; EvSys (sys_chdir (Some "/nowhere")) (-1);
           EvStdout ("cd: /nowhere: No such file or directory" +:+ nl)]
  /\ main_turn (array ["ls"; ">"; "/nowhere/x"; "&"]) init no_target_kernel 0%nat =
    MkRun (Returned (MkShell 1 0 (bgOpen init))) 4%nat
          [EvStdout ": ";
           EvSys (sys_open (Some "/dev/null") O_RDONLY None) 3;
           EvIndeterminate "outputFile";
           EvSys (sys_fcntl 3 F_SETFD FD_CLOEXEC) 0;
           EvIndeterminate "outputFile";
           EvSys (sys_fcntl 0 F_SETFD FD_CLOEXEC) 0;
           EvSys (sys_open (Some "/nowhere/x")
                           (Z.lor (Z.lor O_WRONLY O_CREAT) O_TRUNC) (Some 420)) (-1);
           EvStdout ("File Error: cannot open /nowhere/x for ouput" +:+ nl)]
  /\ (forall K t,
       main_turn (array ["status"]) (MkShell 1 0 (bgOpen init)) K t =
       MkRun (Returned (MkShell 1 0 (bgOpen init))) t
             [EvStdout ": "; EvStdout ("exit value 1" +:+ nl)]).
Proof.
  split; [vm_compute; reflexivity|split; [vm_compute; reflexivity|]].
  intros K t. reflexivity.
Qed.

(** ** Foreground launches *)

(** C7: a foreground launch whose fork succeeds waits for the child, by
    [waitpid] on the child's pid without [WNOHANG], and by no other wait.
    When the status word stored says the child exited, [status] becomes
    its exit value and [termination] 0; when it says the child was killed
    by a signal, [termination] becomes the signal number, which is
    printed. *)
Theorem foreground_launch_waits K t args args' s cpid :
  isBackground args = Some (false, args') ->
  In (EvSys sys_fork cpid) (events (cmdExecute args s K t)) -> 0 < cpid ->
  exists wpid stored,
    In (EvWait cpid 0 wpid stored) (events (cmdExecute args s K t))
    /\ (forall p o w st, In (EvWait p o w st) (events (cmdExecute args s K t)) ->
          p = cpid /\ o = 0)
    /\ (forall ws, stored = Some ws -> WIFEXITED ws = true ->
          outcome (cmdExecute args s K t) =
          Returned (MkShell (WEXITSTATUS ws) 0 (bgOpen s)))
    /\ (forall ws, stored = Some ws -> WIFSIGNALED ws = true ->
          outcome (cmdExecute args s K t) =
          Returned (MkShell (status s) (WTERMSIG ws) (bgOpen s))
          /\ stdout (events (cmdExecute args s K t)) =
             "terminated by signal " +:+ dec (WTERMSIG ws) +:+ nl).
Proof.
  intros Hbg Hfork Hcpid.
  destruct (cmdExecute_foreground K t args args' s cpid Hbg Hfork Hcpid)
    as (wpid & stored & Hwait & Honly & Hout).
  exists wpid, stored. split; [exact Hwait|split; [|split]].
  - intros p o w st H. destruct (Honly p o w st H) as (Hp & Ho & _). split; assumption.
  - intros ws Hws Hex. destruct (Hout ws Hws) as [-> _].
    unfold foreground_outcome. rewrite Hex. reflexivity.
  - intros ws Hws Hsig. destruct (Hout ws Hws) as [-> ->].
    unfold foreground_outcome.
    rewrite Hsig, (WIFSIGNALED_not_exited _ Hsig). split; reflexivity.
Qed.

(** [ls -l], run as pid 42, exits with value 2 after a command that was
    killed by signal 9. *)
Lemma foreground_launch_waits_witness :
  outcome (cmdExecute (array ["ls"; "-l"]) (MkShell 0 9 (bgOpen init))
                      (kernel 3 42 42 0 512 0) 0%nat)
  = Returned (MkShell 2 0 (bgOpen init)).
Proof.
  destruct (foreground_launch_waits (kernel 3 42 42 0 512 0) 0%nat
              (array ["ls"; "-l"]) (array ["ls"; "-l"]) (MkShell 0 9 (bgOpen init)) 42)
    as (wpid & stored & Hwait & _ & Hexit & _);
    [reflexivity|vm_compute; tauto|lia|].
  apply (Hexit 512); [|reflexivity].
  vm_compute in Hwait.
  destruct Hwait as [Hw|[Hw|[]]]; [discriminate Hw|].
  injection Hw as _ <-. reflexivity.
Defined.

(** ** Redirection and the arguments of the program *)

(** C8: [args'] being the vector once [isBackground] has cut it at [&],
    every [open] of [cmdExecute] other than those of [/dev/null] for a
    background command takes its path from [args'[2]]: read-only when [<]
    is present, write-create-truncate when [>] is; every [exec] runs
    [args'[0]], with its name as only argument when [<] or [>] is present
    and with the whole vector otherwise, which is [args] itself for a
    command without [&]. These calls are made: with [<] the file named by
    [args'[2]] is opened for input, and with [>] for output once the
    input has been opened, unless a background command has stopped on
    [/dev/null]; and the child, when no [dup2] fails, calls [exec] on the
    word at position 0 with the arguments said. *)
Theorem redirection_reads_position_two K t args args' s ri ro bg :
  isInputRedirected args = Some ri -> isOutputRedirected args = Some ro ->
  isBackground args = Some (bg, args') ->
  (forall path flags mode x,
     In (EvSys (sys_open path flags mode) x) (events (cmdExecute args s K t)) ->
     (args' !! 2%nat = Some path
      /\ (ri = true /\ flags = O_RDONLY /\ mode = None
          \/ ro = true /\ flags = Z.lor (Z.lor O_WRONLY O_CREAT) O_TRUNC
             /\ mode = Some 420))
     \/ (path = Some "/dev/null" /\ bg = true /\ mode = None
         /\ (ri = false /\ flags = O_RDONLY \/ ro = false /\ flags = O_WRONLY)))
  /\ (forall file argv x,
     In (EvSys (sys_exec file argv) x) (events (cmdExecute args s K t)) ->
     args' !! 0%nat = Some file
     /\ argv = if ri || ro then vector [file; None] else vector args')
  /\ (bg = false -> args' = args)
  /\ (ri = true -> forall path, args' !! 2%nat = Some path ->
      (bg = true ->
       ~ In (EvStdout ("cannot open /dev/null" +:+ nl)) (events (cmdExecute args s K t))) ->
      exists x, In (EvSys (sys_open path O_RDONLY None) x)
                   (events (cmdExecute args s K t)))
  /\ (ro = true -> forall path, args' !! 2%nat = Some path ->
      (bg = true ->
       ~ In (EvStdout ("cannot open /dev/null" +:+ nl)) (events (cmdExecute args s K t))) ->
      (ri = true ->
       ~ In (EvSys (sys_open path O_RDONLY None) (-1)) (events (cmdExecute args s K t))) ->
      exists x, In (EvSys (sys_open path (Z.lor (Z.lor O_WRONLY O_CREAT) O_TRUNC)
                                    (Some 420)) x)
                   (events (cmdExecute args s K t)))
  /\ (In (EvSys sys_fork 0) (events (cmdExecute args s K t)) ->
      (forall fd target,
         ~ In (EvSys (sys_dup2 fd target) (-1)) (events (cmdExecute args s K t))) ->
      forall name, args' !! 0%nat = Some (Some name) ->
      exists x, In (EvSys (sys_exec (Some name)
                                    (if ri || ro then [name] else vector args')) x)
                   (events (cmdExecute args s K t))).
Proof.
  intros Hri Hro Hbg.
  assert (Hfg : bg = false -> args' = args).
  { intros ->. apply isBackground_foreground. exact Hbg. }
  revert Hfg. unfold cmdExecute. rewrite Hri, Hro, Hbg.
  destruct ri, ro, bg; run; repeat (split_if; run); try record_run;
    repeat (split_if; run).
  all: intros Hfg.
  all: split; [intros ? ? ? ? H; member; tauto|].
  all: split; [intros ? ? ? H; member; try tauto; split; congruence|].
  all: split; [exact Hfg|].
  all: tests.
  all: split;
    [intros Ht path Hpath Hnull; first [discriminate Ht | idtac];
     first [congruence
           | exfalso; apply Hnull; [reflexivity|found]; fail
           | injection Hpath as <-; eexists; found; fail ]|].
  all: split;
    [intros Ht path Hpath Hnull Hin; first [discriminate Ht | idtac];
     first [congruence
           | exfalso; apply Hnull; [reflexivity|found]; fail
           | injection Hpath as <-; exfalso; apply Hin; [reflexivity|];
             match goal with H : _ = -1 |- _ => rewrite <- H end; found; fail
           | injection Hpath as <-; eexists; found; fail ]|].
  all: intros Hfork Hdup name Hname.
  all: try (exfalso; revert Hfork; clear; intros H; member; fail).
  all: try congruence.
  all: try (exfalso; member; lia).
  all: try (exfalso;
            match goal with H : answer _ _ (sys_dup2 _ _) = -1 |- _ =>
              eapply Hdup; rewrite <- H; found end; fail).
  all: injection Hname as <-; eexists; found.
Qed.

(** [wc -l < f] in the child: the file opened is the one named by the
    token at position 2, the operator itself, and [wc] is run without
    [-l]; [ls -l /tmp] in the child: [ls] is run with the whole vector. *)
Lemma redirection_reads_position_two_witness :
  (forall path flags mode x,
     In (EvSys (sys_open path flags mode) x)
        (events (cmdExecute (array ["wc"; "-l"; "<"; "f"]) init
                            (kernel 3 0 0 0 0 0) 0%nat)) ->
     path = Some "<")
  /\ (forall file argv x,
     In (EvSys (sys_exec file argv) x)
        (events (cmdExecute (array ["wc"; "-l"; "<"; "f"]) init
                            (kernel 3 0 0 0 0 0) 0%nat)) ->
     file = Some "wc" /\ argv = ["wc"])
  /\ (exists x,
     In (EvSys (sys_open (Some "<") O_RDONLY None) x)
        (events (cmdExecute (array ["wc"; "-l"; "<"; "f"]) init
                            (kernel 3 0 0 0 0 0) 0%nat)))
  /\ (exists x,
     In (EvSys (sys_exec (Some "wc") ["wc"]) x)
        (events (cmdExecute (array ["wc"; "-l"; "<"; "f"]) init
                            (kernel 3 0 0 0 0 0) 0%nat)))
  /\ (exists x,
     In (EvSys (sys_exec (Some "ls") ["ls"; "-l"; "/tmp"]) x)
        (events (cmdExecute (array ["ls"; "-l"; "/tmp"]) init
                            (kernel 3 0 0 0 0 0) 0%nat))).
Proof.
  destruct (redirection_reads_position_two (kernel 3 0 0 0 0 0) 0%nat
              (array ["wc"; "-l"; "<"; "f"]) (array ["wc"; "-l"; "<"; "f"]) init
              true false false eq_refl eq_refl eq_refl)
    as (Hopen & Hexec & _ & Hin & _ & Hrun).
  destruct (redirection_reads_position_two (kernel 3 0 0 0 0 0) 0%nat
              (array ["ls"; "-l"; "/tmp"]) (array ["ls"; "-l"; "/tmp"]) init
              false false false eq_refl eq_refl eq_refl)
    as (_ & _ & _ & _ & _ & Hplain).
  split; [|split; [|split; [|split]]].
  - intros path flags mode x H.
    destruct (Hopen path flags mode x H) as [[Hp _]|(_ & Hbg & _)];
      [|discriminate Hbg].
    injection Hp as <-. reflexivity.
  - intros file argv x H. destruct (Hexec file argv x H) as [Hf Ha].
    injection Hf as <-. split; [reflexivity|exact Ha].
  - apply (Hin eq_refl (Some "<") eq_refl). discriminate.
  - apply (Hrun ltac:(vm_compute; tauto)
                ltac:(intros fd target H; vm_compute in H; member) "wc" eq_refl).
  - apply (Hplain ltac:(vm_compute; tauto)
                  ltac:(intros fd target H; vm_compute in H; member) "ls" eq_refl).
Defined.

(** ** A background launch on a full table *)

(** C9, at the table of 100 running jobs, which the shell reaches by 100
    background launches: [sleep 5 &] is forked as pid 1004, the slot
    search ends without the [return], and the code after it reads [wpid]
    and [waitStatus], which were never assigned; here they hold 9, so
    [termination] becomes 9 and a signal is reported, and the new pid is
    not in the table. *)
Theorem background_launch_full_table :
  reachable full_table
  /\ cmdExecute (array ["sleep"; "5"; "&"]) full_table busy_kernel 0%nat =
     MkRun (Returned (MkShell 0 9 (bgOpen full_table))) 5%nat
        [EvSys (sys_open (Some "/dev/null") O_RDONLY None) 3;
         EvSys (sys_open (Some "/dev/null") O_WRONLY None) 3;
         EvSys (sys_fcntl 3 F_SETFD FD_CLOEXEC) 0;
         EvSys (sys_fcntl 3 F_SETFD FD_CLOEXEC) 0;
         EvSys sys_fork 1004;
         EvStdout ("background pid is 1004" +:+ nl);
         EvIndeterminate "wpid";
         EvIndeterminate "waitStatus";
         EvIndeterminate "waitStatus";
         EvStdout ("terminated by signal 9" +:+ nl)].
Proof. split; [exact full_table_reachable|vm_compute; reflexivity]. Qed.

(** ** Splitting a line *)

Lemma fields_token_span s :
  exists fs, fields s = fst (token_span s) :: fs
             /\ List.filter nonempty fs = tokens (snd (token_span s)).
Proof.
  induction s as [|c rest IH]; cbn [fields token_span].
  - exists []. split; reflexivity.
  - destruct (is_space c).
    + exists (fields rest). split; reflexivity.
    + destruct IH as (fs & -> & Hfs). exists fs. split; [reflexivity|exact Hfs].
Qed.

Lemma tokens_skip_spaces s : tokens (skip_spaces s) = tokens s.
Proof.
  induction s as [|c rest IH]; [reflexivity|]. cbn [skip_spaces].
  destruct (is_space c) eqn:E; [|reflexivity].
  rewrite IH. unfold tokens. cbn [fields]. rewrite E. reflexivity.
Qed.

Lemma skip_spaces_head s c rest : skip_spaces s = String c rest -> is_space c = false.
Proof.
  induction s as [|d s IH]; cbn [skip_spaces]; [discriminate|].
  destruct (is_space d) eqn:E; [exact IH|]. intros H. injection H as <- _. exact E.
Qed.

Lemma length_skip_spaces s : (String.length (skip_spaces s) <= String.length s)%nat.
Proof.
  induction s as [|c rest IH]; cbn [skip_spaces]; [lia|].
  destruct (is_space c); cbn [String.length]; lia.
Qed.

Lemma length_token_span s :
  (String.length (snd (token_span s)) <= String.length s)%nat.
Proof.
  induction s as [|c rest IH]; cbn [token_span]; [cbn; lia|].
  destruct (is_space c); cbn [snd String.length]; lia.
Qed.

Lemma spaceless_token_span s : spaceless (fst (token_span s)) = true.
Proof.
  induction s as [|c rest IH]; cbn [token_span]; [reflexivity|].
  destruct (is_space c) eqn:E; [reflexivity|]. cbn [fst spaceless]. rewrite E. exact IH.
Qed.

(** One call of [strtok] takes the first word off the string. *)
Lemma strtok_tokens s :
  tokens s = pending (fst (strtok s)) (snd (strtok s))
  /\ (forall tok, fst (strtok s) = Some tok ->
        word tok = true
        /\ (String.length (snd (strtok s)) < String.length s)%nat).
Proof.
  unfold strtok. pose proof (length_skip_spaces s) as Hlen.
  rewrite <- (tokens_skip_spaces s).
  destruct (skip_spaces s) as [|c rest] eqn:E; [split; [reflexivity|discriminate]|].
  apply skip_spaces_head in E as Hc.
  destruct (fields_token_span (String c rest)) as (fs & Hf & Hfs).
  pose proof (spaceless_token_span (String c rest)) as Hsp.
  pose proof (length_token_span rest) as Hrest.
  cbn [token_span] in *. rewrite Hc in *. cbn [fst snd] in *.
  split.
  - unfold tokens at 1. rewrite Hf. cbn [List.filter nonempty pending].
    rewrite Hfs. reflexivity.
  - intros tok H. injection H as <-. split; [exact Hsp|]. cbn [String.length] in Hlen. lia.
Qed.

Lemma parseInput_loop_run fuel : forall token rest position args,
  (forall tok, token = Some tok -> (String.length rest < fuel)%nat) ->
  parseInput_loop fuel token rest position args =
  if (position + length (pending token rest) <? length args)%nat
  then Returned (take position args ++ (Some <$> pending token rest)
                 ++ None :: drop (S (position + length (pending token rest))) args)
  else Undefined.
Proof.
  induction fuel as [|fuel IH]; intros token rest position args Hfuel.
  - destruct token as [tok|]; [specialize (Hfuel tok eq_refl); lia|].
    cbn [parseInput_loop pending length fmap list_fmap app]. rewrite Nat.add_0_r.
    destruct (position <? length args)%nat eqn:E; [|reflexivity].
    apply Nat.ltb_lt in E. rewrite insert_take_drop by exact E. reflexivity.
  - destruct token as [tok|].
    2:{ cbn [parseInput_loop pending length fmap list_fmap app]. rewrite Nat.add_0_r.
        destruct (position <? length args)%nat eqn:E; [|reflexivity].
        apply Nat.ltb_lt in E. rewrite insert_take_drop by exact E. reflexivity. }
    specialize (Hfuel tok eq_refl).
    cbn [parseInput_loop pending length].
    destruct (position <? length args)%nat eqn:E.
    2:{ apply Nat.ltb_ge in E.
        assert (H : (position + S (length (tokens rest)) <? length args)%nat = false)
          by (apply Nat.ltb_ge; lia).
        rewrite H. reflexivity. }
    apply Nat.ltb_lt in E.
    destruct (strtok_tokens rest) as [Htok Hlen].
    rewrite IH.
    2:{ intros tok' H. destruct (Hlen tok' H) as [_ Hl]. lia. }
    rewrite <- Htok, length_insert.
    replace (S position + length (tokens rest))%nat
      with (position + S (length (tokens rest)))%nat by lia.
    destruct (position + S (length (tokens rest)) <? length args)%nat; [|reflexivity].
    f_equal.
    rewrite (take_S_r _ _ (Some tok)) by (apply list_lookup_insert_eq; exact E).
    rewrite take_insert_ge by lia.
    rewrite drop_insert_lt by lia.
    rewrite <- app_assoc. reflexivity.
Qed.

(** The run of [parseInput]: it has fuel for every word of the line. *)
Lemma parseInput_run input args :
  parseInput input args =
  if (length (tokens input) <? length args)%nat
  then Returned (stored (tokens input) args)
  else Undefined.
Proof.
  unfold parseInput, stored.
  destruct (strtok_tokens input) as [Htok Hlen].
  rewrite parseInput_loop_run.
  - rewrite <- Htok. reflexivity.
  - intros tok H. apply (Hlen tok H).
Qed.

Lemma fields_spaceless s : Forall (fun f => spaceless f = true) (fields s).
Proof.
  induction s as [|c rest IH]; cbn [fields].
  - repeat constructor.
  - destruct (is_space c) eqn:E; [constructor; [reflexivity|exact IH]|].
    destruct (fields rest) as [|f fs].
    + repeat constructor. cbn. rewrite E. reflexivity.
    + inversion IH as [|? ? Hf Hfs]; subst. constructor; [|exact Hfs].
      cbn. rewrite E. exact Hf.
Qed.

Lemma tokens_words s : Forall (fun w => word w = true) (tokens s).
Proof.
  unfold tokens. pose proof (fields_spaceless s) as H.
  induction H as [|f fs Hf _ IH]; cbn [List.filter]; [constructor|].
  destruct (nonempty f) eqn:E; [|exact IH].
  constructor; [|exact IH]. unfold word. rewrite E, Hf. reflexivity.
Qed.

Lemma fields_word_space w s :
  spaceless w = true -> fields (w +:+ String " " s) = w :: fields s.
Proof.
  induction w as [|c w IH]; intros H; [reflexivity|].
  cbn [spaceless] in H. apply andb_true_iff in H as [Hc Hw].
  apply negb_true_iff in Hc.
  change (String c w +:+ String " " s) with (String c (w +:+ String " " s)).
  cbn [fields]. rewrite Hc, (IH Hw). reflexivity.
Qed.

Lemma fields_word w : spaceless w = true -> fields w = [w].
Proof.
  induction w as [|c w IH]; intros H; [reflexivity|].
  cbn [spaceless] in H. apply andb_true_iff in H as [Hc Hw].
  apply negb_true_iff in Hc. cbn [fields]. rewrite Hc, (IH Hw). reflexivity.
Qed.

(** Joining words by spaces and splitting again gives the words back. *)
Lemma tokens_join ws : Forall (fun w => word w = true) ws -> tokens (join ws) = ws.
Proof.
  induction 1 as [|w ws Hw Hws IH]; [reflexivity|].
  unfold word in Hw. apply andb_true_iff in Hw as [Hne Hsp].
  destruct ws as [|w2 ws].
  - cbn [join]. unfold tokens. rewrite (fields_word w Hsp). cbn. rewrite Hne. reflexivity.
  - change (join (w :: w2 :: ws)) with (w +:+ String " " (join (w2 :: ws))).
    unfold tokens. rewrite (fields_word_space w _ Hsp). cbn [List.filter].
    rewrite Hne. f_equal. exact IH.
Qed.

(** ** The scans on a vector *)

Lemma vector_stored ws tail : vector ((Some <$> ws) ++ None :: tail) = ws.
Proof. induction ws as [|w ws IH]; [reflexivity|]. cbn. f_equal. exact IH. Qed.

Lemma isInputRedirected_stored ws tail :
  isInputRedirected ((Some <$> ws) ++ None :: tail)
  = Some (existsb (fun w => String.eqb w "<") ws).
Proof.
  induction ws as [|w ws IH]; [reflexivity|]. cbn.
  destruct (String.eqb w "<"); [reflexivity|exact IH].
Qed.

Lemma isOutputRedirected_stored ws tail :
  isOutputRedirected ((Some <$> ws) ++ None :: tail)
  = Some (existsb (fun w => String.eqb w ">") ws).
Proof.
  induction ws as [|w ws IH]; [reflexivity|]. cbn.
  destruct (String.eqb w ">"); [reflexivity|exact IH].
Qed.

Lemma isBackground_stored ws tail :
  exists args',
    isBackground ((Some <$> ws) ++ None :: tail)
    = Some (existsb (fun w => String.eqb w "&") ws, args')
    /\ vector args' = before "&" ws
    /\ length args' = length ((Some <$> ws) ++ None :: tail).
Proof.
  induction ws as [|w ws IH].
  - eexists. split; [reflexivity|]. split; reflexivity.
  - cbn [fmap list_fmap app isBackground existsb before].
    change (list_fmap string (option string) Some ws) with (Some <$> ws).
    destruct (String.eqb w "&").
    + eexists. split; [reflexivity|]. split; reflexivity.
    + destruct IH as (args' & -> & Hv & Hl).
      eexists. split; [reflexivity|]. cbn. rewrite Hv, Hl. split; reflexivity.
Qed.

Lemma existsb_eqb_In tok ws :
  existsb (fun w => String.eqb w tok) ws = true <-> In tok ws.
Proof.
  rewrite existsb_exists. split.
  - intros (w & Hin & E). apply String.eqb_eq in E. subst. exact Hin.
  - intros H. exists tok. split; [exact H|apply String.eqb_refl].
Qed.

(** A scan runs off the end of the array exactly when the array holds
    neither a null pointer nor the token looked for. *)
Lemma isInputRedirected_undefined args :
  isInputRedirected args = None <-> ~ In None args /\ ~ In (Some "<") args.
Proof.
  induction args as [|[a|] rest IH]; cbn [isInputRedirected In].
  - split; [intros _; split; intros []|reflexivity].
  - destruct (String.eqb a "<") eqn:E.
    + apply String.eqb_eq in E. subst. split; [discriminate|].
      intros [_ H]. exfalso. apply H. left. reflexivity.
    + apply String.eqb_neq in E. rewrite IH. split.
      * intros [H1 H2]. split; intros [H|H]; try discriminate; try contradiction.
        injection H as H. contradiction.
      * intros [H1 H2]. split; intros H; [apply H1|apply H2]; right; exact H.
  - split; [discriminate|]. intros [H _]. exfalso. apply H. left. reflexivity.
Qed.

Lemma isOutputRedirected_undefined args :
  isOutputRedirected args = None <-> ~ In None args /\ ~ In (Some ">") args.
Proof.
  induction args as [|[a|] rest IH]; cbn [isOutputRedirected In].
  - split; [intros _; split; intros []|reflexivity].
  - destruct (String.eqb a ">") eqn:E.
    + apply String.eqb_eq in E. subst. split; [discriminate|].
      intros [_ H]. exfalso. apply H. left. reflexivity.
    + apply String.eqb_neq in E. rewrite IH. split.
      * intros [H1 H2]. split; intros [H|H]; try discriminate; try contradiction.
        injection H as H. contradiction.
      * intros [H1 H2]. split; intros H; [apply H1|apply H2]; right; exact H.
  - split; [discriminate|]. intros [H _]. exfalso. apply H. left. reflexivity.
Qed.

Lemma isBackground_undefined args :
  isBackground args = None <-> ~ In None args /\ ~ In (Some "&") args.
Proof.
  induction args as [|[a|] rest IH]; cbn [isBackground In].
  - split; [intros _; split; intros []|reflexivity].
  - destruct (String.eqb a "&") eqn:E.
    + apply String.eqb_eq in E. subst. split; [discriminate|].
      intros [_ H]. exfalso. apply H. left. reflexivity.
    + apply String.eqb_neq in E.
      destruct (isBackground rest) as [[b rest']|].
      * split; [discriminate|]. intros [H1 H2]. exfalso.
        assert (H : Some (b, rest') = None)
          by (apply IH; split; intros H; [apply H1|apply H2]; right; exact H).
        discriminate H.
      * split; [intros _|reflexivity].
        destruct (proj1 IH eq_refl) as [H1 H2].
        split; intros [H|H]; try discriminate; try contradiction.
        injection H as H. contradiction.
  - split; [discriminate|]. intros [H _]. exfalso. apply H. left. reflexivity.
Qed.

(** ** Reading a line *)

Lemma no_newline_cut s : no_newline (cut_newline s) = true.
Proof.
  induction s as [|c rest IH]; [reflexivity|]. cbn [cut_newline].
  destruct (is_newline c) eqn:E; [reflexivity|]. cbn. rewrite E. exact IH.
Qed.

Lemma cut_newline_id s : no_newline s = true -> cut_newline s = s.
Proof.
  induction s as [|c rest IH]; [reflexivity|]. cbn.
  destruct (is_newline c); [discriminate|]. cbn. intros H. f_equal. exact (IH H).
Qed.

Lemma plain_no_newline s : plain s = true -> no_newline s = true.
Proof.
  induction s as [|c rest IH]; [reflexivity|]. cbn.
  destruct (is_newline c); [discriminate|]. cbn.
  destruct (is_nul c); [discriminate|]. cbn. exact IH.
Qed.

Lemma c_string_plain s : plain s = true -> c_string s = s.
Proof.
  induction s as [|c rest IH]; [reflexivity|]. cbn.
  destruct (is_newline c); [discriminate|]. cbn.
  destruct (is_nul c); [discriminate|]. cbn. intros H. f_equal. exact (IH H).
Qed.

Lemma c_string_line line : plain line = true -> c_string (line +:+ nl) = line +:+ nl.
Proof.
  induction line as [|c rest IH]; [reflexivity|]. cbn [plain].
  change (String c rest +:+ nl) with (String c (rest +:+ nl)). cbn [c_string].
  destruct (is_newline c); [discriminate|]. cbn.
  destruct (is_nul c); [discriminate|]. cbn. intros H. f_equal. exact (IH H).
Qed.

Lemma cut_newline_line line : no_newline line = true -> cut_newline (line +:+ nl) = line.
Proof.
  induction line as [|c rest IH]; [reflexivity|]. cbn [no_newline].
  change (String c rest +:+ nl) with (String c (rest +:+ nl)). cbn [cut_newline].
  destruct (is_newline c); [discriminate|]. cbn. intros H. f_equal. exact (IH H).
Qed.

(** [fgets] takes a whole line when it has room for it. *)
Lemma fgets_read_line line : forall n rest,
  no_newline line = true -> (String.length line < n)%nat ->
  fgets_read n (line +:+ nl +:+ rest) = (line +:+ nl, rest).
Proof.
  induction line as [|c line IH]; intros n rest Hline Hn.
  - destruct n as [|n]; [cbn in Hn; lia|]. reflexivity.
  - destruct n as [|n]; [cbn in Hn; lia|]. cbn [no_newline] in Hline.
    apply andb_true_iff in Hline as [Hc Hline]. apply negb_true_iff in Hc.
    change (String c line +:+ nl +:+ rest) with (String c (line +:+ nl +:+ rest)).
    cbn [fgets_read]. rewrite Hc, (IH n rest Hline) by (cbn in Hn; lia). reflexivity.
Qed.

(** [fgets] stops when the array is full. *)
Lemma fgets_read_chunk chunk : forall more,
  no_newline chunk = true ->
  fgets_read (String.length chunk) (chunk +:+ more) = (chunk, more).
Proof.
  induction chunk as [|c chunk IH]; intros more Hchunk; [reflexivity|].
  cbn [no_newline] in Hchunk.
  apply andb_true_iff in Hchunk as [Hc Hchunk]. apply negb_true_iff in Hc.
  change (String c chunk +:+ more) with (String c (chunk +:+ more)).
  cbn [String.length fgets_read]. rewrite Hc, (IH more Hchunk). reflexivity.
Qed.

(** ** The line read and its words *)

Lemma length_stored ws args :
  (length ws < length args)%nat -> length (stored ws args) = length args.
Proof.
  intros H. unfold stored. rewrite length_app, length_fmap. cbn [length].
  rewrite length_drop. lia.
Qed.

(** X1: [parseInput] stores the words of the line from position 0 on and
    a null pointer after the last, when the line has fewer words than
    the array has cells; when it has not, it stores outside the array.
    No word stored is empty or holds a space. *)
Theorem parseInput_words input args :
  ((length (tokens input) < length args)%nat ->
   exists tail,
     parseInput input args = Returned ((Some <$> tokens input) ++ None :: tail)
     /\ length ((Some <$> tokens input) ++ None :: tail) = length args)
  /\ ((length args <= length (tokens input))%nat ->
      parseInput input args = Undefined)
  /\ Forall (fun w => word w = true) (tokens input).
Proof.
  split; [|split].
  - intros H. exists (drop (S (length (tokens input))) args).
    rewrite parseInput_run. split.
    + apply Nat.ltb_lt in H. rewrite H. reflexivity.
    + apply (length_stored (tokens input) args H).
  - intros H. rewrite parseInput_run. apply Nat.ltb_ge in H. rewrite H. reflexivity.
  - apply tokens_words.
Qed.

(** [  ls  -l] in an array of 8 cells; and a line of 512 words [a], 1023
    characters long, in an array of [MAX_ARGS] cells. *)
Lemma parseInput_words_witness :
  (exists tail,
     parseInput "  ls  -l" (replicate 8 None) =
       Returned ((Some <$> tokens "  ls  -l") ++ None :: tail)
     /\ length ((Some <$> tokens "  ls  -l") ++ None :: tail) = 8%nat)
  /\ parseInput (join (replicate MAX_ARGS "a")) (replicate MAX_ARGS None) = Undefined.
Proof.
  split.
  - apply (proj1 (parseInput_words "  ls  -l" (replicate 8 None))).
    vm_compute. lia.
  - apply (proj1 (proj2 (parseInput_words (join (replicate MAX_ARGS "a"))
                                           (replicate MAX_ARGS None)))).
    vm_compute. lia.
Defined.

(** X2: a line made of words joined by single spaces is split into those
    words again: the vector [parseInput] leaves holds them, in order. *)
Theorem parseInput_join ws args :
  Forall (fun w => word w = true) ws -> (length ws < length args)%nat ->
  exists args1, parseInput (join ws) args = Returned args1
                /\ vector args1 = ws /\ length args1 = length args.
Proof.
  intros Hws Hlen. exists (stored ws args). split; [|split].
  - rewrite parseInput_run, (tokens_join ws Hws).
    apply Nat.ltb_lt in Hlen. rewrite Hlen. reflexivity.
  - apply vector_stored.
  - apply (length_stored ws args Hlen).
Qed.

Lemma parseInput_join_witness :
  exists args1, parseInput "wc -l < f" (replicate 8 None) = Returned args1
                /\ vector args1 = ["wc"; "-l"; "<"; "f"] /\ length args1 = 8%nat.
Proof.
  apply (parseInput_join ["wc"; "-l"; "<"; "f"] (replicate 8 None)
           ltac:(repeat constructor) ltac:(vm_compute; lia)).
Defined.

(** X3: on the array [parseInput] returns, no scan leaves the array;
    [isInputRedirected], [isOutputRedirected] and [isBackground] say
    whether [<], [>] and [&] are among the words of the line, and the
    vector [isBackground] leaves is the words before the first [&]. *)
Theorem parseInput_scans input args args1 :
  parseInput input args = Returned args1 ->
  exists ri ro bg args',
    isInputRedirected args1 = Some ri
    /\ isOutputRedirected args1 = Some ro
    /\ isBackground args1 = Some (bg, args')
    /\ (ri = true <-> In "<" (tokens input))
    /\ (ro = true <-> In ">" (tokens input))
    /\ (bg = true <-> In "&" (tokens input))
    /\ vector args' = before "&" (tokens input)
    /\ length args' = length args.
Proof.
  rewrite parseInput_run.
  destruct (length (tokens input) <? length args)%nat eqn:Hlen; [|discriminate].
  intros H. injection H as <-. unfold stored.
  destruct (isBackground_stored (tokens input) (drop (S (length (tokens input))) args))
    as (args' & Hbg & Hv & Hl).
  exists (existsb (fun w => String.eqb w "<") (tokens input)),
         (existsb (fun w => String.eqb w ">") (tokens input)),
         (existsb (fun w => String.eqb w "&") (tokens input)), args'.
  split; [apply isInputRedirected_stored|].
  split; [apply isOutputRedirected_stored|].
  split; [exact Hbg|].
  split; [apply existsb_eqb_In|].
  split; [apply existsb_eqb_In|].
  split; [apply existsb_eqb_In|].
  split; [exact Hv|].
  rewrite Hl, length_app, length_fmap. cbn [length]. rewrite length_drop.
  apply Nat.ltb_lt in Hlen. lia.
Qed.

(** [sleep 5 & echo] : the program gets [sleep 5]. *)
Lemma parseInput_scans_witness :
  exists ri ro bg args',
    isBackground (stored ["sleep"; "5"; "&"; "echo"] (replicate 8 None)) = Some (bg, args')
    /\ (bg = true <-> In "&" (tokens "sleep 5 & echo"))
    /\ vector args' = ["sleep"; "5"]
    /\ ri = false /\ ro = false.
Proof.
  destruct (parseInput_scans "sleep 5 & echo" (replicate 8 None)
              (stored ["sleep"; "5"; "&"; "echo"] (replicate 8 None)) eq_refl)
    as (ri & ro & bg & args' & Hri & Hro & Hbg & _ & _ & Hb & Hv & _).
  exists ri, ro, bg, args'.
  split; [exact Hbg|]. split; [exact Hb|]. split; [exact Hv|].
  vm_compute in Hri, Hro. injection Hri as <-. injection Hro as <-.
  split; reflexivity.
Defined.

(** X4: each scan reads past the end of the array exactly when the array
    holds neither a null pointer nor the token the scan looks for. *)
Theorem scans_leave_array args :
  (isInputRedirected args = None <-> ~ In None args /\ ~ In (Some "<") args)
  /\ (isOutputRedirected args = None <-> ~ In None args /\ ~ In (Some ">") args)
  /\ (isBackground args = None <-> ~ In None args /\ ~ In (Some "&") args).
Proof.
  split; [apply isInputRedirected_undefined|].
  split; [apply isOutputRedirected_undefined|apply isBackground_undefined].
Qed.

(** [ls -l] in an array of two cells. *)
Lemma scans_leave_array_witness : isBackground [Some "ls"; Some "-l"] = None.
Proof.
  apply (proj2 (proj2 (scans_leave_array [Some "ls"; Some "-l"]))).
  split; intros [H|[H|[]]]; discriminate H.
Defined.

(** X5: [getInput] returns a line without newline. A line without NUL
    and shorter than 2047 characters is read whole, its newline dropped;
    of a line of 2047 characters or more the first 2047 are returned, and
    the rest, newline included, is left in the stream for the next read.
    At the end of the stream nothing is stored: the string the array held
    on entry is returned. *)
Theorem getInput_line input :
  (forall stream, no_newline (fst (getInput input stream)) = true)
  /\ (forall line rest, plain line = true ->
        (String.length line < MAX_LINE_LENGTH - 1)%nat ->
        getInput input (line +:+ nl +:+ rest) = (line, rest))
  /\ (forall chunk more, plain chunk = true ->
        String.length chunk = (MAX_LINE_LENGTH - 1)%nat ->
        getInput input (chunk +:+ more) = (chunk, more))
  /\ (no_newline input = true -> getInput input "" = (input, "")).
Proof.
  split; [|split; [|split]].
  - intros stream. unfold getInput. cbn [fst]. apply no_newline_cut.
  - intros line rest Hline Hlen. unfold getInput, fgets.
    pose proof (plain_no_newline line Hline) as Hnl.
    rewrite (fgets_read_line line (MAX_LINE_LENGTH - 1) rest Hnl Hlen).
    destruct (line +:+ nl +:+ rest) eqn:E.
    { destruct line; discriminate E. }
    cbn [fst snd]. rewrite (c_string_line line Hline), (cut_newline_line line Hnl).
    reflexivity.
  - intros chunk more Hchunk Hlen. unfold getInput, fgets.
    pose proof (plain_no_newline chunk Hchunk) as Hnl.
    rewrite <- Hlen, (fgets_read_chunk chunk more Hnl).
    destruct (chunk +:+ more) eqn:E.
    { destruct chunk; [discriminate Hlen|discriminate E]. }
    cbn [fst snd]. rewrite (c_string_plain chunk Hchunk), (cut_newline_id chunk Hnl).
    reflexivity.
  - intros Hnl. unfold getInput. cbn [fgets fst snd].
    rewrite (cut_newline_id input Hnl). reflexivity.
Qed.

(** [ls -l] then [pwd]; a line of 3000 [a]: 2047 are read, 953 and the
    newline are left; and the end of the stream. *)
Lemma getInput_line_witness :
  getInput "old" ("ls -l" +:+ nl +:+ "pwd" +:+ nl) = ("ls -l", "pwd" +:+ nl)
  /\ getInput "old" (run_of 2047 "a" +:+ (run_of 953 "a" +:+ nl))
     = (run_of 2047 "a", run_of 953 "a" +:+ nl)
  /\ getInput "old" "" = ("old", "").
Proof.
  destruct (getInput_line "old") as (_ & Hline & Hchunk & Hend). split; [|split].
  - apply (Hline "ls -l" ("pwd" +:+ nl)); [reflexivity|vm_compute; lia].
  - apply (Hchunk (run_of 2047 "a") (run_of 953 "a" +:+ nl));
      [vm_compute; reflexivity|vm_compute; reflexivity].
  - apply Hend. reflexivity.
Defined.

(** ** Lines that run nothing, and the builtins *)

Lemma tokens_blank input : skip_spaces input = "" -> tokens input = [].
Proof.
  intros H. rewrite (proj1 (strtok_tokens input)). unfold strtok. rewrite H. reflexivity.
Qed.

Lemma tokens_comment input rest :
  skip_spaces input = String "#" rest ->
  exists w ws, tokens input = String "#" w :: ws.
Proof.
  intros H. rewrite (proj1 (strtok_tokens input)). unfold strtok. rewrite H.
  cbn. eexists. eexists. reflexivity.
Qed.

(** X6: a line of spaces only, and a line whose first character other
    than a space is [#], run nothing: [processArgs] returns with the
    state as it was, without a system call and without output, whatever
    else the line holds. *)
Theorem blank_or_comment_line input args args1 s K t :
  parseInput input args = Returned args1 ->
  skip_spaces input = "" \/ (exists rest, skip_spaces input = String "#" rest) ->
  processArgs args1 s K t = MkRun (Returned s) t [].
Proof.
  rewrite parseInput_run.
  destruct (length (tokens input) <? length args)%nat; [|discriminate].
  intros H. injection H as <-. intros [Hblank|[rest Hcomment]].
  - rewrite (tokens_blank input Hblank). reflexivity.
  - destruct (tokens_comment input rest Hcomment) as (w & ws & ->). reflexivity.
Qed.

Lemma blank_or_comment_line_witness :
  processArgs (stored ["#"; "rm"; "-rf"; "x"; ">"; "f"; "&"] (replicate 8 None))
              init (kernel 3 42 42 0 0 0) 0%nat
  = MkRun (Returned init) 0%nat [].
Proof.
  apply (blank_or_comment_line "  # rm -rf x > f &" (replicate 8 None)).
  - reflexivity.
  - right. eexists. reflexivity.
Defined.

(** The events of a bind are those of its first part and, when that
    returns, those of the second. *)
Lemma events_bind {A B} (m : M A) (k : A -> M B) K t ev :
  In ev (events (bind m k K t)) ->
  In ev (events (m K t))
  \/ exists a c e, m K t = MkRun (Returned a) c e /\ In ev (events (k a K c)).
Proof.
  unfold bind. destruct (m K t) as [[a| | | |] c e]; cbn [events]; try tauto.
  destruct (k a K c) as [o' c' e'] eqn:E. cbn [after events].
  intros H. apply in_app_or in H as [H|H]; [left; exact H|].
  right. exists a, c, e. split; [reflexivity|]. rewrite E. exact H.
Qed.

Lemma lookup_In {A} (l : list A) : forall n x, l !! n = Some x -> In x l.
Proof.
  induction l as [|y l IH]; intros [|n] x H; try discriminate H.
  - injection H as ->. left. reflexivity.
  - right. apply (IH n). exact H.
Qed.

(** Name the run of the rest of a loop, with what the induction
    hypothesis [IH] says of it. *)
Ltac rest_of_loop IH :=
  match goal with
  | |- context [cmdExit_loop ?f ?n ?table ?K ?t] =>
      let o := fresh "o" in let c := fresh "c" in let e := fresh "e" in
      let H := fresh "Hrest" in
      pose proof (IH n table K t) as H;
      destruct (cmdExit_loop f n table K t) as [o c e];
      cbn [outcome events clock after app] in *
  end.

(** The loop of [cmdExit] only kills, with [SIGKILL], slots of the table
    that hold a pid, and reports the kills that fail. *)
Lemma cmdExit_loop_events fuel : forall n table K t ev,
  In ev (events (cmdExit_loop fuel n table K t)) ->
  (exists pid r, ev = EvSys (sys_kill pid SIGKILL) r
                 /\ In pid table /\ pid <> 0 /\ pid <> -1)
  \/ ev = EvPerror "kill failed".
Proof.
  induction fuel as [|fuel IH]; intros n table K t ev; cbn [cmdExit_loop].
  - cbn. tauto.
  - run. destruct (table !! n) as [curPid|] eqn:Hn; [|cbn; tauto]. run.
    assert (Hin : In curPid table).
    { apply (lookup_In table n). exact Hn. }
    destruct (curPid =? -1) eqn:Hu; [cbn; tauto|]. run.
    unfold IS_PROCESS_FINISHED.
    destruct (curPid =? 0) eqn:Hf; run.
    + rest_of_loop IH. apply Hrest.
    + tests.
      destruct (answer K t (sys_kill curPid SIGKILL) =? -1); run.
      all: rest_of_loop IH.
      all: intros H; member; try subst ev.
      all: first [ left; exists curPid; eexists;
                   (split; [reflexivity|]); (split; [assumption|]); split; assumption
                 | right; reflexivity
                 | apply Hrest; assumption ].
Qed.

(** The loop of [cmdExit] over the slots [pre] before the first unused one. *)
Lemma cmdExit_loop_run pre : forall done post fuel K t,
  Forall (fun slot => slot <> -1) pre -> (length pre < fuel)%nat ->
  outcome (cmdExit_loop fuel (length done) (done ++ pre ++ -1 :: post) K t) = Returned tt
  /\ calls (events (cmdExit_loop fuel (length done) (done ++ pre ++ -1 :: post) K t))
     = kills pre.
Proof.
  induction pre as [|pid pre IH]; intros done post fuel K t Hpre Hfuel.
  - destruct fuel as [|fuel]; [cbn in Hfuel; lia|]. cbn [cmdExit_loop]. run.
    rewrite list_lookup_middle by reflexivity. run. split; reflexivity.
  - destruct fuel as [|fuel]; [cbn in Hfuel; lia|]. cbn [cmdExit_loop]. run.
    rewrite list_lookup_middle by reflexivity. run.
    inversion Hpre as [|? ? Hpid Hrest]; subst.
    assert (Hu : (pid =? -1) = false) by (apply Z.eqb_neq; exact Hpid).
    rewrite Hu. run.
    assert (IH' : forall K t,
              outcome (cmdExit_loop fuel (S (length done))
                         (done ++ pid :: pre ++ -1 :: post) K t) = Returned tt
              /\ calls (events (cmdExit_loop fuel (S (length done))
                                  (done ++ pid :: pre ++ -1 :: post) K t)) = kills pre).
    { intros K' t'. specialize (IH (done ++ [pid]) post fuel K' t').
      rewrite length_app in IH. cbn [length] in IH. rewrite Nat.add_1_r in IH.
      rewrite <- app_assoc in IH. cbn [app] in IH.
      apply IH; [assumption|cbn [length] in Hfuel; lia]. }
    unfold kills. cbn [List.filter]. unfold IS_PROCESS_FINISHED.
    destruct (pid =? 0) eqn:Hf; run.
    + specialize (IH' K t).
      destruct (cmdExit_loop fuel (S (length done)) (done ++ pid :: pre ++ -1 :: post) K t)
        as [o c e].
      cbn [outcome events] in *. exact IH'.
    + destruct (answer K t (sys_kill pid SIGKILL) =? -1); run.
      all: specialize (IH' K (S t)).
      all: destruct (cmdExit_loop fuel (S (length done))
                       (done ++ pid :: pre ++ -1 :: post) K (S t)) as [o c e].
      all: cbn [outcome events calls] in *.
      all: destruct IH' as [Ho Hc].
      all: split; [exact Ho|]; cbn [fmap list_fmap]; f_equal; exact Hc.
Qed.

(** The loop of [cmdExit] on a table without unused slot. *)
Lemma cmdExit_loop_overrun pre : forall done fuel K t,
  Forall (fun slot => slot <> -1) pre -> (length pre < fuel)%nat ->
  outcome (cmdExit_loop fuel (length done) (done ++ pre) K t) = Undefined.
Proof.
  induction pre as [|pid pre IH]; intros done fuel K t Hpre Hfuel.
  - destruct fuel as [|fuel]; [cbn in Hfuel; lia|]. cbn [cmdExit_loop]. run.
    rewrite app_nil_r, lookup_ge_None_2 by lia. reflexivity.
  - destruct fuel as [|fuel]; [cbn in Hfuel; lia|]. cbn [cmdExit_loop]. run.
    rewrite list_lookup_middle by reflexivity. run.
    inversion Hpre as [|? ? Hpid Hrest]; subst.
    assert (Hu : (pid =? -1) = false) by (apply Z.eqb_neq; exact Hpid).
    rewrite Hu. run.
    assert (IH' : forall K t,
              outcome (cmdExit_loop fuel (S (length done)) (done ++ pid :: pre) K t)
              = Undefined).
    { intros K' t'. specialize (IH (done ++ [pid]) fuel K' t').
      rewrite length_app in IH. cbn [length] in IH. rewrite Nat.add_1_r in IH.
      rewrite <- app_assoc in IH. cbn [app] in IH.
      apply IH; [assumption|cbn [length] in Hfuel; lia]. }
    unfold IS_PROCESS_FINISHED.
    destruct (pid =? 0) eqn:Hf; run.
    + specialize (IH' K t).
      destruct (cmdExit_loop fuel (S (length done)) (done ++ pid :: pre) K t) as [o c e].
      cbn [outcome] in *. exact IH'.
    + destruct (answer K t (sys_kill pid SIGKILL) =? -1); run.
      all: specialize (IH' K (S t)).
      all: destruct (cmdExit_loop fuel (S (length done)) (done ++ pid :: pre) K (S t))
             as [o c e].
      all: cbn [outcome] in *; exact IH'.
Qed.

(** X7: [cmdExit] sends [SIGKILL] to each slot before the first unused
    one that is not marked finished, in the order of the table, makes no
    other system call, and ends the shell with [EXIT_SUCCESS] whatever
    the kills return. On a table without unused slot it reads past the
    end of the table. *)
Theorem cmdExit_kills K t :
  (forall pre post,
     Forall (fun slot => slot <> -1) pre -> (length pre <= MAX_PROCESSES)%nat ->
     outcome (cmdExit (pre ++ -1 :: post) K t) = Exited EXIT_SUCCESS
     /\ calls (events (cmdExit (pre ++ -1 :: post) K t)) = kills pre)
  /\ (forall table,
     Forall (fun slot => slot <> -1) table -> (length table <= MAX_PROCESSES)%nat ->
     outcome (cmdExit table K t) = Undefined).
Proof.
  split.
  - intros pre post Hpre Hlen.
    destruct (cmdExit_loop_run pre [] post (S MAX_PROCESSES) K t Hpre) as [Ho Hc];
      [lia|].
    unfold cmdExit, bind. cbn [length app] in Ho, Hc.
    destruct (cmdExit_loop (S MAX_PROCESSES) 0 (pre ++ -1 :: post) K t) as [o c e].
    cbn [outcome events] in Ho, Hc. subst o.
    cbn [exit_ after outcome events]. rewrite app_nil_r. split; [reflexivity|exact Hc].
  - intros table Htable Hlen.
    pose proof (cmdExit_loop_overrun table [] (S MAX_PROCESSES) K t Htable) as Ho.
    unfold cmdExit, bind. cbn [length app] in Ho.
    destruct (cmdExit_loop (S MAX_PROCESSES) 0 table K t) as [o c e].
    cbn [outcome] in Ho. rewrite Ho by lia. reflexivity.
Qed.

(** Jobs 500 (running), a finished one and 502 (running); and a table of
    100 running jobs. *)
Lemma cmdExit_kills_witness :
  (outcome (cmdExit ([500; 0; 502] ++ -1 :: replicate 96 (-1))
                    (kernel 3 42 0 0 0 0) 0%nat) = Exited EXIT_SUCCESS
   /\ calls (events (cmdExit ([500; 0; 502] ++ -1 :: replicate 96 (-1))
                             (kernel 3 42 0 0 0 0) 0%nat))
      = [sys_kill 500 SIGKILL; sys_kill 502 SIGKILL])
  /\ outcome (cmdExit (replicate MAX_PROCESSES 7) (kernel 3 42 0 0 0 0) 0%nat)
     = Undefined.
Proof.
  split.
  - apply (proj1 (cmdExit_kills (kernel 3 42 0 0 0 0) 0%nat) [500; 0; 502]
                 (replicate 96 (-1))).
    + repeat constructor; discriminate.
    + vm_compute. lia.
  - apply (proj2 (cmdExit_kills (kernel 3 42 0 0 0 0) 0%nat) (replicate MAX_PROCESSES 7)).
    + vm_compute. repeat constructor; discriminate.
    + vm_compute. lia.
Defined.

(** X8: [cd] leaves [termination] and the table alone, and changes
    [status] only when a directory is given and [chdir] to it returns -1:
    then it prints the message and sets [status] to [EXIT_FAILURE].
    Without a directory it calls [chdir] with the value of [HOME] and
    ignores the result. It never sets [status] back to 0. *)
Theorem cmdChangeDir_outcome args s K t :
  (args !! 1%nat = Some None ->
   cmdChangeDir args s K t =
   MkRun (Returned s) (S t)
         [EvSys (sys_chdir (getenv K "HOME")) (answer K t (sys_chdir (getenv K "HOME")))])
  /\ (forall dir, args !! 1%nat = Some (Some dir) ->
        calls (events (cmdChangeDir args s K t)) = [sys_chdir (Some dir)]
        /\ exists s', outcome (cmdChangeDir args s K t) = Returned s'
           /\ termination s' = termination s /\ bgOpen s' = bgOpen s
           /\ (In (EvSys (sys_chdir (Some dir)) (-1)) (events (cmdChangeDir args s K t)) ->
               status s' = EXIT_FAILURE
               /\ stdout (events (cmdChangeDir args s K t)) =
                  "cd: " +:+ dir +:+ ": No such file or directory" +:+ nl)
           /\ (~ In (EvSys (sys_chdir (Some dir)) (-1)) (events (cmdChangeDir args s K t)) ->
               s' = s /\ stdout (events (cmdChangeDir args s K t)) = ""))
  /\ (args !! 1%nat = None -> outcome (cmdChangeDir args s K t) = Undefined).
Proof.
  split; [|split].
  - intros H. run. rewrite H. reflexivity.
  - intros dir H. run. rewrite H. run.
    destruct (answer K t (sys_chdir (Some dir)) =? -1) eqn:E; run; tests.
    + split; [reflexivity|]. eexists. split; [reflexivity|].
      split; [reflexivity|]. split; [reflexivity|]. split.
      * intros _. split; [reflexivity|]. cbn [stdout str].
        rewrite append_empty. reflexivity.
      * intros Hno. exfalso. apply Hno. rewrite E. found.
    + split; [reflexivity|]. eexists. split; [reflexivity|].
      split; [reflexivity|]. split; [reflexivity|]. split.
      * intros Hin. member. congruence.
      * intros _. split; reflexivity.
  - intros H. run. rewrite H. reflexivity.
Qed.

Lemma cmdChangeDir_outcome_witness :
  cmdChangeDir (array ["cd"]) (MkShell 1 0 (bgOpen init)) (kernel 3 42 0 (-1) 0 0) 0%nat
  = MkRun (Returned (MkShell 1 0 (bgOpen init))) 1%nat [EvSys (sys_chdir None) (-1)]
  /\ calls (events (cmdChangeDir (array ["cd"; "/tmp"]) (MkShell 1 0 (bgOpen init))
                                 (kernel 3 42 0 0 0 0) 0%nat))
     = [sys_chdir (Some "/tmp")].
Proof.
  destruct (cmdChangeDir_outcome (array ["cd"]) (MkShell 1 0 (bgOpen init))
              (kernel 3 42 0 (-1) 0 0) 0%nat) as (Hhome & _ & _).
  destruct (cmdChangeDir_outcome (array ["cd"; "/tmp"]) (MkShell 1 0 (bgOpen init))
              (kernel 3 42 0 0 0 0) 0%nat) as (_ & Hdir & _).
  split.
  - apply Hhome. reflexivity.
  - apply (Hdir "/tmp"). reflexivity.
Defined.

(** ** The fork and the child *)

(** The vector [isBackground] leaves has a cell 0. *)
Lemma isBackground_cell0 args bg args' :
  isBackground args = Some (bg, args') -> exists a, args' !! 0%nat = Some a.
Proof.
  destruct args as [|[a|] rest]; cbn; [discriminate| |].
  - destruct (String.eqb a "&").
    + intros H. injection H as <- <-. eexists. reflexivity.
    + destruct (isBackground rest) as [[b rest']|]; [|discriminate].
      intros H. injection H as <- <-. eexists. reflexivity.
  - intros H. injection H as <- <-. eexists. reflexivity.
Qed.


(** A vector in which a scan finds its token starts with a word. *)
Lemma isInputRedirected_cell0 args :
  isInputRedirected args = Some true -> exists name, args !! 0%nat = Some (Some name).
Proof.
  destruct args as [|[a|] rest]; cbn; [discriminate| |discriminate].
  intros _. eexists. reflexivity.
Qed.

(** X9: when [fork] fails, [cmdExecute] returns with the state as it
    was: [status] is not set, nothing is waited for and nothing goes to
    standard output; [perror] reports the failure when [fork] returned
    -1. *)
Theorem fork_failure K t args s cpid :
  In (EvSys sys_fork cpid) (events (cmdExecute args s K t)) -> cpid < 0 ->
  outcome (cmdExecute args s K t) = Returned s
  /\ ~ waited (events (cmdExecute args s K t))
  /\ stdout (events (cmdExecute args s K t)) = ""
  /\ (cpid = -1 <-> In (EvPerror "fork failed") (events (cmdExecute args s K t))).
Proof.
  intros Hfork Hcpid. revert Hfork. unfold cmdExecute, waited.
  destruct (isInputRedirected args) as [ri|]; [|cbn; tauto].
  destruct (isOutputRedirected args) as [ro|]; [|cbn; tauto].
  destruct (isBackground args) as [[bg args']|]; [|cbn; tauto].
  destruct ri, ro, bg; run; repeat (split_if; run); try record_run;
    repeat (split_if; run).
  all: intros H; tests; member; try lia.
  all: split; [reflexivity|].
  all: split; [intros (? & ? & ? & ? & H); member|].
  all: split; [reflexivity|].
  all: split; [intros; try found; try lia|intros H; member; try lia].
Qed.

Lemma fork_failure_witness :
  outcome (cmdExecute (array ["ls"]) (MkShell 0 0 (bgOpen init))
                      (kernel 3 (-1) 0 0 0 0) 0%nat)
  = Returned (MkShell 0 0 (bgOpen init)).
Proof.
  apply (fork_failure (kernel 3 (-1) 0 0 0 0) 0%nat (array ["ls"])
                      (MkShell 0 0 (bgOpen init)) (-1)).
  - vm_compute. left. reflexivity.
  - lia.
Defined.

(** X10: the child never returns to the loop of [main]: it is replaced
    by the program or exits with [EXIT_FAILURE], unless position 0 of the
    vector holds a null pointer, as after a line that begins with [&]:
    then the child hands the null pointer to [exec] as the file name, and
    no program is run. The child sets the handling of [SIGINT] first, to
    ignored for a background command and to the default for a foreground
    one, and waits for nothing. When [exec] fails it prints the message
    that names the command. *)
Theorem child_never_returns K t args args' bg s :
  isBackground args = Some (bg, args') ->
  In (EvSys sys_fork 0) (events (cmdExecute args s K t)) ->
  (outcome (cmdExecute args s K t) = Replaced
   \/ outcome (cmdExecute args s K t) = Exited EXIT_FAILURE
   \/ (outcome (cmdExecute args s K t) = Undefined /\ args' !! 0%nat = Some None))
  /\ (exists r, In (EvSys (sys_sigaction SIGINT (if bg then SIG_IGN else SIG_DFL)) r)
                   (events (cmdExecute args s K t)))
  /\ ~ waited (events (cmdExecute args s K t))
  /\ (forall file argv r,
        In (EvSys (sys_exec file argv) r) (events (cmdExecute args s K t)) ->
        args' !! 0%nat = Some file /\ exists name, file = Some name)
  /\ (forall file argv,
        In (EvSys (sys_exec file argv) (-1)) (events (cmdExecute args s K t)) ->
        outcome (cmdExecute args s K t) = Exited EXIT_FAILURE
        /\ In (EvStdout ("Execution Error: " +:+ str file
                         +:+ " is not a valid command" +:+ nl))
              (events (cmdExecute args s K t)))
  /\ (forall file argv r,
        In (EvSys (sys_exec file argv) r) (events (cmdExecute args s K t)) ->
        r <> -1 -> outcome (cmdExecute args s K t) = Replaced).
Proof.
  intros Hbg Hfork. destruct (isBackground_cell0 args bg args' Hbg) as [a Ha].
  revert Hfork. unfold cmdExecute, waited.
  destruct (isInputRedirected args) as [ri|]; [|cbn; tauto].
  destruct (isOutputRedirected args) as [ro|]; [|cbn; tauto].
  rewrite Hbg.
  destruct ri, ro, bg; run; repeat (split_if; run); try record_run;
    repeat (split_if; run).
  all: intros H; tests; member; try lia; try congruence.
  all: split; [first [left; reflexivity | right; left; reflexivity
                     | right; right; split; reflexivity]|].
  all: split; [eexists; found|].
  all: split; [intros (? & ? & ? & ? & Hw); member|].
  all: split; [intros ? ? ? Hx; member;
                 first [split; [reflexivity|eexists; reflexivity]]|].
  all: split; [intros ? ? Hx; member; cbn [vector] in *;
                 first [congruence | split; [reflexivity|found]]|].
  all: intros ? ? ? Hx Hr; member; cbn [vector] in *;
    first [congruence | reflexivity].
Qed.

(** [sleep 5 &] in the child; and [&] alone, after which position 0 is
    null. *)
Lemma child_never_returns_witness :
  (outcome (cmdExecute (array ["sleep"; "5"; "&"]) init (kernel 3 0 0 0 0 0) 0%nat)
   = Replaced
   \/ outcome (cmdExecute (array ["sleep"; "5"; "&"]) init (kernel 3 0 0 0 0 0) 0%nat)
      = Exited EXIT_FAILURE
   \/ (outcome (cmdExecute (array ["sleep"; "5"; "&"]) init (kernel 3 0 0 0 0 0) 0%nat)
       = Undefined
       /\ (array ["sleep"; "5"] ++ [None]) !! 0%nat = Some None))
  /\ (outcome (cmdExecute (array ["&"]) init (kernel 3 0 0 0 0 0) 0%nat) = Replaced
      \/ outcome (cmdExecute (array ["&"]) init (kernel 3 0 0 0 0 0) 0%nat)
         = Exited EXIT_FAILURE
      \/ (outcome (cmdExecute (array ["&"]) init (kernel 3 0 0 0 0 0) 0%nat) = Undefined
          /\ (None :: replicate 6 (@None string)) !! 0%nat = Some None)).
Proof.
  split.
  - apply (child_never_returns (kernel 3 0 0 0 0 0) 0%nat (array ["sleep"; "5"; "&"])
             (array ["sleep"; "5"] ++ [None]) true init).
    + reflexivity.
    + vm_compute. tauto.
  - apply (child_never_returns (kernel 3 0 0 0 0 0) 0%nat (array ["&"])
             (None :: replicate 6 None) true init).
    + reflexivity.
    + vm_compute. tauto.
Defined.

(** X11: in the child of a foreground command with both [<] and [>],
    only the result of the second [dup2] is tested: when the [dup2] onto
    standard input fails and the one onto standard output does not, no
    error is reported and the program is run. *)
Theorem child_tests_last_dup2 K t args args' s i :
  isInputRedirected args = Some true -> isOutputRedirected args = Some true ->
  isBackground args = Some (false, args') ->
  In (EvSys sys_fork 0) (events (cmdExecute args s K t)) ->
  In (EvSys (sys_dup2 i 0) (-1)) (events (cmdExecute args s K t)) ->
  (forall o, ~ In (EvSys (sys_dup2 o 1) (-1)) (events (cmdExecute args s K t))) ->
  (forall text, ~ In (EvPerror text) (events (cmdExecute args s K t)))
  /\ exists file argv r, In (EvSys (sys_exec file argv) r) (events (cmdExecute args s K t)).
Proof.
  intros Hri Hro Hbg. destruct (isInputRedirected_cell0 args Hri) as [name Hname].
  rewrite <- (isBackground_foreground args args' Hbg) in Hname.
  unfold cmdExecute. rewrite Hri, Hro, Hbg.
  run; repeat (split_if; run).
  all: intros Hfork Hin Hout; tests.
  all: try (exfalso; revert Hfork; clear; intros H; member; fail).
  all: try congruence.
  all: try (exfalso; member; lia).
  all: try (exfalso; eapply Hout; match goal with H : _ = -1 |- _ => rewrite <- H end;
            found; fail).
  all: split; [intros text H; member|eexists; eexists; eexists; found].
Qed.

Lemma child_tests_last_dup2_witness :
  exists file argv r,
    In (EvSys (sys_exec file argv) r)
       (events (cmdExecute (array ["sort"; "<"; "f"; ">"; "g"]) init
                  (MkKernel (fun _ c => match c with
                                       | sys_open _ _ _ => 3
                                       | sys_dup2 _ 0 => -1
                                       | _ => 0
                                       end)
                            (fun _ => 0) (fun _ => 0) (fun _ => None)) 0%nat)).
Proof.
  apply (child_tests_last_dup2 _ 0%nat (array ["sort"; "<"; "f"; ">"; "g"])
           (array ["sort"; "<"; "f"; ">"; "g"]) init 3).
  - reflexivity.
  - reflexivity.
  - reflexivity.
  - vm_compute. tauto.
  - vm_compute. tauto.
  - intros o H. vm_compute in H. member.
Defined.

(** X12: a background command with [<] reads [inputFile] before it is
    assigned (line 388); one with [>] only reads [outputFile] unassigned
    unless the [open] of [/dev/null] failed. A background command
    without redirection reads neither unassigned, and a foreground command
    reads no variable unassigned but [waitStatus]. *)
Theorem background_redirection_reads_unassigned K t args args' s ri ro bg :
  isInputRedirected args = Some ri -> isOutputRedirected args = Some ro ->
  isBackground args = Some (bg, args') ->
  (bg = true -> ri = true ->
   In (EvIndeterminate "inputFile") (events (cmdExecute args s K t)))
  /\ (bg = true -> ri = false -> ro = true ->
      In (EvIndeterminate "outputFile") (events (cmdExecute args s K t))
      \/ In (EvSys (sys_open (Some "/dev/null") O_RDONLY None) (-1))
            (events (cmdExecute args s K t)))
  /\ (bg = true -> ri = false -> ro = false ->
      ~ In (EvIndeterminate "inputFile") (events (cmdExecute args s K t))
      /\ ~ In (EvIndeterminate "outputFile") (events (cmdExecute args s K t)))
  /\ (bg = false -> forall var,
      In (EvIndeterminate var) (events (cmdExecute args s K t)) -> var = "waitStatus").
Proof.
  intros Hri Hro Hbg. unfold cmdExecute. rewrite Hri, Hro, Hbg.
  destruct ri, ro, bg; run; repeat (split_if; run); try record_run;
    repeat (split_if; run).
  all: split; [intros; first [congruence | found]|].
  all: split; [intros; first [congruence | tests;
               first [left; found; fail
                     | right; match goal with H : _ = -1 |- _ => rewrite <- H end;
                       found; fail]]|].
  all: split; [intros; first [congruence | split; intros Hin; member]|].
  all: intros Hfg var Hin; first [congruence | member; reflexivity].
Qed.

(** [sort < f &]. *)
Lemma background_redirection_reads_unassigned_witness :
  In (EvIndeterminate "inputFile")
     (events (cmdExecute (array ["sort"; "<"; "f"; "&"]) init (kernel 3 42 0 0 0 0) 0%nat)).
Proof.
  apply (proj1 (background_redirection_reads_unassigned (kernel 3 42 0 0 0 0) 0%nat
                  (array ["sort"; "<"; "f"; "&"]) (array ["sort"; "<"; "f"] ++ [None]) init
                  true false true eq_refl eq_refl eq_refl));
    reflexivity.
Defined.

(** ** The table of background jobs *)

(** Where the slot search stores the pid: in the first slot below 1. *)
Lemma cmdExecute_record_slot fuel : forall n cpid s K t s',
  outcome (cmdExecute_record fuel n cpid s K t) = Returned (Some s') ->
  exists pre slot post,
    bgOpen s = pre ++ slot :: post /\ (n <= length pre)%nat
    /\ Forall (fun pid => 0 < pid) (drop n pre) /\ slot < 1
    /\ s' = MkShell (status s) (termination s) (pre ++ cpid :: post).
Proof.
  induction fuel as [|fuel IH]; intros n cpid s K t s'; cbn [cmdExecute_record].
  - destruct (n <? MAX_PROCESSES)%nat; discriminate.
  - destruct (n <? MAX_PROCESSES)%nat; [|discriminate].
    run. destruct (bgOpen s !! n) as [slot|] eqn:Hn; [|discriminate].
    pose proof (lookup_lt_Some _ _ _ Hn) as Hlt.
    destruct (slot <? 1) eqn:Hslot.
    + intros H. injection H as <-.
      exists (take n (bgOpen s)), slot, (drop (S n) (bgOpen s)).
      split; [symmetry; apply take_drop_middle; exact Hn|].
      split; [rewrite length_take; lia|].
      split; [rewrite drop_ge by (rewrite length_take; lia); constructor|].
      split; [apply Z.ltb_lt; exact Hslot|].
      unfold set_bgOpen. f_equal. apply insert_take_drop. exact Hlt.
    + specialize (IH (S n) cpid s K t s').
      destruct (cmdExecute_record fuel (S n) cpid s K t) as [o c e].
      cbn [outcome] in *. intros H.
      assert (Ho : o = Returned (Some s')) by (destruct o; exact H).
      destruct (IH Ho) as (pre & slot' & post & Ht & Hlen & Hpre & Hs & Hs').
      exists pre, slot', post.
      split; [exact Ht|]. split; [lia|]. split; [|split; assumption].
      assert (Hpn : pre !! n = Some slot).
      { rewrite Ht in Hn. rewrite lookup_app_l in Hn by lia. exact Hn. }
      rewrite (drop_S _ _ _ Hpn). constructor; [|exact Hpre].
      apply Z.ltb_ge in Hslot. lia.
Qed.

(** Replace the slot search in the goal by its run, with the place of
    the slot it has filled. *)
Ltac record_slot :=
  match goal with
  | |- context [cmdExecute_record ?f ?n ?c ?s ?K ?t] =>
      let o := fresh "recorded" in
      let E := fresh "Hrecorded" in
      let Hk := fresh "Hkeep" in
      let Hs := fresh "Hslot" in
      pose proof (cmdExecute_record_slot f n c s K t) as Hs;
      destruct (cmdExecute_record_keeps f n c s K t) as (o & Hk & E);
      rewrite E in Hs |- *; cbn [outcome] in Hs; clear Hk E;
      destruct o as [[?|]| | | |]; run
  end.

(** What a launch that returns has changed. *)
Lemma cmdExecute_returns K t args args' bg s s' :
  isBackground args = Some (bg, args') ->
  outcome (cmdExecute args s K t) = Returned s' ->
  (bgOpen s' = bgOpen s
   \/ bg = true
      /\ exists pre slot post cpid,
           bgOpen s = pre ++ slot :: post
           /\ Forall (fun pid => 0 < pid) pre /\ slot < 1 /\ 0 < cpid
           /\ In (EvSys sys_fork cpid) (events (cmdExecute args s K t))
           /\ s' = MkShell (status s) (termination s) (pre ++ cpid :: post))
  /\ (status s' = status s \/ status s' = EXIT_FAILURE
      \/ exists ws, status s' = WEXITSTATUS ws)
  /\ (termination s' = termination s \/ termination s' = 0
      \/ exists ws, WIFSIGNALED ws = true /\ termination s' = WTERMSIG ws).
Proof.
  intros Hbg. unfold cmdExecute.
  destruct (isInputRedirected args) as [ri|]; [|cbn; discriminate].
  destruct (isOutputRedirected args) as [ro|]; [|cbn; discriminate].
  rewrite Hbg.
  destruct ri, ro, bg; run; repeat (split_if; run); try record_slot;
    repeat (split_if; run).
  all: intros H; try discriminate H; injection H as <-.
  all: try match goal with
       | Hs : forall s', Returned (Some ?s1) = Returned (Some s') -> _ |- _ =>
           destruct (Hs s1 eq_refl) as (pre & slot & post & Ht & _ & Hpre & Hlt & ->);
           clear Hs; cbn [drop] in Hpre
       end.
  all: tests.
  all: split;
    [first [left; reflexivity
           | right; split; [reflexivity|];
             eexists; eexists; eexists; eexists;
             (split; [eassumption|]); (split; [assumption|]); (split; [assumption|]);
             (split; [eassumption|]); split; [found|reflexivity]]|].
  all: cbn [status termination set_status set_termination].
  all: split;
    [first [left; reflexivity | right; left; reflexivity
           | right; right; eexists; reflexivity]
    |first [left; reflexivity | right; left; reflexivity
           | right; right; eexists; split; [eassumption|reflexivity]]].
Qed.

(** X13: a launch that returns leaves the table as long as it was. A
    foreground launch does not change it; a background launch changes it
    at most by storing the pid of the child in the first slot below 1,
    and then leaves [status] and [termination] as they were. *)
Theorem launch_changes_table K t args args' bg s s' :
  isBackground args = Some (bg, args') ->
  outcome (cmdExecute args s K t) = Returned s' ->
  length (bgOpen s') = length (bgOpen s)
  /\ (bg = false -> bgOpen s' = bgOpen s)
  /\ (bgOpen s' <> bgOpen s ->
      exists pre slot post cpid,
        bgOpen s = pre ++ slot :: post
        /\ Forall (fun pid => 0 < pid) pre /\ slot < 1
        /\ In (EvSys sys_fork cpid) (events (cmdExecute args s K t))
        /\ bgOpen s' = pre ++ cpid :: post
        /\ status s' = status s /\ termination s' = termination s).
Proof.
  intros Hbg Hret.
  destruct (cmdExecute_returns K t args args' bg s s' Hbg Hret) as [Htable _].
  destruct Htable as [Hsame|[-> (pre & slot & post & cpid & Ht & Hpre & Hslot & _ & Hfork & ->)]].
  - split; [rewrite Hsame; reflexivity|]. split; [intros _; exact Hsame|].
    intros Hdiff. contradiction.
  - cbn [bgOpen status termination].
    split; [rewrite Ht, !length_app; reflexivity|].
    split; [discriminate|]. intros _.
    exists pre, slot, post, cpid. repeat (split; [assumption|]).
    repeat split; reflexivity.
Qed.

(** [sleep 5 &] with jobs 500 and 501 running. *)
Lemma launch_changes_table_witness :
  length (bgOpen (MkShell 0 0 ([500; 501] ++ 42 :: replicate 97 (-1))))
  = length (bgOpen (MkShell 0 0 (jobs 2))).
Proof.
  apply (launch_changes_table (kernel 3 42 0 0 0 0) 0%nat (array ["sleep"; "5"; "&"])
           (array ["sleep"; "5"] ++ [None]) true (MkShell 0 0 (jobs 2))
           (MkShell 0 0 ([500; 501] ++ 42 :: replicate 97 (-1)))).
  - reflexivity.
  - vm_compute. reflexivity.
Defined.

(** ** The states of the shell *)

Lemma WEXITSTATUS_range ws : 0 <= WEXITSTATUS ws < 256.
Proof.
  unfold WEXITSTATUS. rewrite Z.shiftr_land.
  change (Z.shiftr 65280 8) with (Z.ones 8). rewrite Z.land_ones by lia.
  apply Z.mod_pos_bound. reflexivity.
Qed.

Lemma marked_slots pre pre' :
  Forall2 (fun slot slot' : Z => slot' = slot \/ slot' = 0) pre pre' ->
  Forall (fun pid => 0 <= pid) pre -> Forall (fun pid => 0 <= pid) pre'.
Proof.
  induction 1 as [|slot slot' pre pre' Hs _ IH]; intros Hpre; [constructor|].
  inversion Hpre as [|? ? Hslot Hrest]; subst.
  constructor; [destruct Hs as [->| ->]; lia|apply IH; assumption].
Qed.

(** A sweep that returns keeps the shape of the table. *)
Lemma reap_table_ok s K t s' :
  table_ok (bgOpen s) -> outcome (reap s K t) = Returned s' ->
  table_ok (bgOpen s')
  /\ (status s' = status s \/ status s' = EXIT_FAILURE)
  /\ termination s' = termination s.
Proof.
  destruct s as [st tm table]. cbn [bgOpen status termination].
  intros (used & free & -> & Hused & Hlen) Hret.
  assert (Hno : Forall (fun slot => slot <> -1) used).
  { eapply Forall_impl; [exact Hused|]. intros pid H. cbn in H. lia. }
  destruct free as [|free].
  - exfalso. cbn [replicate] in *. rewrite app_nil_r in *.
    rewrite (reap_overrun K t (MkShell st tm used) Hno Hlen) in Hret. discriminate.
  - cbn [replicate] in *.
    assert (Hlt : (length used < MAX_PROCESSES)%nat).
    { rewrite length_app in Hlen. cbn [length] in Hlen. lia. }
    destruct (reap_run K t st tm used Hno Hlt) as (st' & pre' & t' & evs & Hmark & Hf & Hk & Hrun).
    rewrite Hrun in Hret. cbn [outcome] in Hret. injection Hret as <-.
    cbn [bgOpen status termination]. split; [|split; [|reflexivity]].
    + exists pre', (S free). cbn [replicate].
      split; [reflexivity|]. split; [apply (marked_slots used); assumption|].
      rewrite <- Hlen, !length_app. cbn [length].
      rewrite (Forall2_length _ _ _ Hmark). reflexivity.
    + destruct (check_failed evs).
      * right. apply Hf. reflexivity.
      * left. apply Hk. reflexivity.
Qed.

(** [cmdExit] never returns. *)
Lemma cmdExit_no_return table K t s' : outcome (cmdExit table K t) <> Returned s'.
Proof.
  unfold cmdExit, bind.
  destruct (cmdExit_loop (S MAX_PROCESSES) 0 table K t) as [[[]| | | |] c e];
    cbn; discriminate.
Qed.

(** Storing a pid in the first slot below 1 keeps the shape of the table. *)
Lemma table_ok_store pre slot post cpid :
  table_ok (pre ++ slot :: post) ->
  Forall (fun pid => 0 < pid) pre -> slot < 1 -> 0 < cpid ->
  table_ok (pre ++ cpid :: post).
Proof.
  intros (used & free & Heq & Hused & Hlen) Hpre Hslot Hcpid.
  assert (Hlen' : length (pre ++ cpid :: post) = MAX_PROCESSES).
  { rewrite <- Hlen, !length_app. reflexivity. }
  destruct (List.app_eq_app _ _ _ _ Heq) as [l [[Hp Hr]|[Hu Hr]]].
  - (* the slot is among the unused ones *)
    assert (Hl : l = []).
    { destruct l as [|x l]; [reflexivity|]. exfalso.
      destruct free as [|free]; [discriminate Hr|].
      cbn in Hr. injection Hr as Hx _. subst pre.
      apply Forall_app in Hpre as [_ Hpre]. inversion Hpre; subst. lia. }
    subst l. rewrite app_nil_r in Hp. subst pre. cbn [app] in Hr.
    destruct free as [|free]; [discriminate Hr|].
    cbn in Hr. injection Hr as _ <-.
    exists (used ++ [cpid]), free. split; [rewrite <- app_assoc; reflexivity|].
    split; [|exact Hlen'].
    apply Forall_app. split; [exact Hused|]. constructor; [lia|constructor].
  - destruct l as [|x l].
    + (* the slot is the first unused one *)
      rewrite app_nil_r in Hu. subst used. cbn [app] in Hr.
      destruct free as [|free]; [discriminate Hr|].
      cbn in Hr. injection Hr as _ ->.
      exists (pre ++ [cpid]), free. split; [rewrite <- app_assoc; reflexivity|].
      split; [|exact Hlen'].
      apply Forall_app. split; [exact Hused|]. constructor; [lia|constructor].
    + (* the slot holds the finished mark *)
      cbn [app] in Hr. injection Hr as -> ->. subst used.
      exists (pre ++ cpid :: l), free.
      split; [rewrite <- app_assoc; reflexivity|]. split; [|exact Hlen'].
      apply Forall_app in Hused as [Hu1 Hu2]. inversion Hu2; subst.
      apply Forall_app. split; [exact Hu1|]. constructor; [lia|assumption].
Qed.

Lemma run_eta {A} (r : Run A) :
  match r with MkRun o c e => MkRun o c e end = r.
Proof. destruct r; reflexivity. Qed.

(** What a command that returns has changed. *)
Lemma processArgs_returns K t args s s' :
  outcome (processArgs args s K t) = Returned s' ->
  table_ok (bgOpen s) ->
  table_ok (bgOpen s')
  /\ (status s' = status s \/ status s' = EXIT_FAILURE
      \/ exists ws, status s' = WEXITSTATUS ws)
  /\ (termination s' = termination s \/ termination s' = 0
      \/ exists ws, WIFSIGNALED ws = true /\ termination s' = WTERMSIG ws).
Proof.
  unfold processArgs. run.
  destruct (args !! 0%nat) as [[cmd|]|]; run; [| |discriminate].
  - destruct (bool_decide (first_char cmd = Some "#"%char)).
    { intros H Hok. injection H as <-. repeat split; [assumption|left..]; reflexivity. }
    destruct (String.eqb cmd "cd").
    { destruct (args !! 1%nat) as [[dir|]|]; run; [| |discriminate].
      - destruct (answer K t (sys_chdir (Some dir)) =? -1); run;
          intros H Hok; injection H as <-; cbn [bgOpen status termination set_status].
        + repeat split; [assumption|right; left|left]; reflexivity.
        + repeat split; [assumption|left..]; reflexivity.
      - intros H Hok; injection H as <-. repeat split; [assumption|left..]; reflexivity. }
    destruct (String.eqb cmd "status").
    { destruct (0 <? termination s); run; intros H Hok; injection H as <-.
      all: repeat split; [assumption|left..]; reflexivity. }
    destruct (String.eqb cmd "exit").
    { rewrite run_eta. intros H. exfalso. exact (cmdExit_no_return _ _ _ _ H). }
    rewrite run_eta. intros H Hok.
    destruct (isBackground args) as [[bg args']|] eqn:Hbg.
    + destruct (cmdExecute_returns K t args args' bg s s' Hbg H)
        as (Htable & Hstatus & Htermination).
      split; [|split; assumption].
      destruct Htable as [->|[_ (pre & slot & post & cpid & Ht & Hpre & Hslot & Hcpid & _ & ->)]];
        [assumption|].
      cbn [bgOpen]. rewrite Ht in Hok. exact (table_ok_store pre slot post cpid Hok Hpre Hslot Hcpid).
    + exfalso. revert H. unfold cmdExecute.
      destruct (isInputRedirected args) as [ri|]; [|cbn; discriminate].
      destruct (isOutputRedirected args) as [ro|]; [|cbn; discriminate].
      rewrite Hbg. cbn. discriminate.
  - intros H Hok. injection H as <-. repeat split; [assumption|left..]; reflexivity.
Qed.

(** X14: at the top of the loop of [main] the table always has
    [MAX_PROCESSES] slots, of which the unused ones come last, so that
    every job recorded is before the first unused slot; [status] is
    between 0 and 255, and [termination] is 0 or a signal number below
    128. *)
Theorem reachable_invariant s :
  reachable s ->
  table_ok (bgOpen s) /\ 0 <= status s < 256 /\ 0 <= termination s < 128.
Proof.
  induction 1 as [|s inputArgs K t s' _ IH Hturn].
  - split; [|cbn; lia]. exists [], MAX_PROCESSES.
    split; [reflexivity|]. split; [constructor|]. apply length_replicate.
  - destruct IH as (Hok & Hst & Htm). unfold main_turn in Hturn.
    apply bind_returned in Hturn as (s1 & c1 & e1 & Hreap & Hturn).
    apply bind_returned in Hturn as (u & c2 & e2 & _ & Hturn).
    assert (Hreap' : outcome (reap s K t) = Returned s1) by (rewrite Hreap; reflexivity).
    destruct (reap_table_ok s K t s1 Hok Hreap') as (Hok1 & Hst1 & Htm1).
    destruct (processArgs_returns K c2 inputArgs s1 s' Hturn Hok1)
      as (Hok' & Hst' & Htm').
    split; [exact Hok'|]. split.
    + destruct Hst' as [E|[E|[ws E]]]; rewrite E.
      * destruct Hst1 as [E1|E1]; rewrite E1; [exact Hst|unfold EXIT_FAILURE; lia].
      * unfold EXIT_FAILURE; lia.
      * apply WEXITSTATUS_range.
    + destruct Htm' as [E|[E|[ws [_ E]]]]; rewrite E.
      * rewrite Htm1. exact Htm.
      * lia.
      * apply WTERMSIG_range.
Qed.

(** After a foreground [kill -9 $$] that a signal has ended. *)
Lemma reachable_invariant_witness :
  reachable (MkShell 0 9 (bgOpen init))
  /\ table_ok (bgOpen (MkShell 0 9 (bgOpen init)))
  /\ 0 <= status (MkShell 0 9 (bgOpen init)) < 256
  /\ 0 <= termination (MkShell 0 9 (bgOpen init)) < 128.
Proof.
  assert (H : reachable (MkShell 0 9 (bgOpen init))).
  { apply (reachable_turn init (array ["kill"; "-9"; "$$"]) (kernel 3 42 42 0 9 0) 0%nat).
    - exact reachable_init.
    - vm_compute. reflexivity. }
  split; [exact H|]. exact (reachable_invariant _ H).
Defined.

(** ** The polls of the sweep *)

Lemma calls_app a b : calls (a ++ b) = calls a ++ calls b.
Proof.
  induction a as [|[c r|p o r st|x|x|x] a IH]; cbn [app calls]; rewrite ?IH; reflexivity.
Qed.

Lemma calls_done_report curPid ws : calls (done_report curPid ws) = [].
Proof.
  unfold done_report. destruct (WIFEXITED ws), (WIFSIGNALED ws); reflexivity.
Qed.

(** The check of one slot polls it once, unless it is marked finished. *)
Lemma reap_slot_calls i curPid s K t :
  exists s1 t1 evs,
    reap_slot i curPid s K t = MkRun (Returned s1) t1 evs
    /\ calls evs = polls [curPid].
Proof.
  rewrite reap_slot_run. unfold polls, IS_PROCESS_FINISHED. cbn [List.filter].
  destruct (curPid =? 0); [do 3 eexists; split; reflexivity|].
  cbv zeta. destruct (answer K t (sys_waitpid curPid WNOHANG) =? -1);
    [do 3 eexists; split; reflexivity|].
  destruct (0 <? answer K t (sys_waitpid curPid WNOHANG));
    do 3 eexists; (split; [reflexivity|]); cbn [calls negb fmap list_fmap];
    rewrite ?calls_done_report; reflexivity.
Qed.

Lemma polls_cons pid slots : polls (pid :: slots) = polls [pid] ++ polls slots.
Proof.
  unfold polls. cbn [List.filter].
  destruct (negb (pid =? IS_PROCESS_FINISHED)); reflexivity.
Qed.

Lemma reap_slots_calls pre : forall n s K t,
  calls (events (reap_slots pre n s K t)) = polls pre.
Proof.
  induction pre as [|pid pre IH]; intros n s K t; [reflexivity|].
  cbn [reap_slots]. unfold bind.
  destruct (reap_slot_calls n pid s K t) as (s1 & t1 & evs & -> & Hc).
  specialize (IH (S n) s1 K t1).
  destruct (reap_slots pre (S n) s1 K t1) as [o c e].
  cbn [after events] in *. rewrite calls_app, Hc, IH. symmetry. apply polls_cons.
Qed.

Lemma first_unused (table : list Z) :
  In (-1) table ->
  exists pre post, table = pre ++ -1 :: post /\ Forall (fun slot => slot <> -1) pre.
Proof.
  induction table as [|slot table IH]; intros H; [destruct H|].
  destruct (Z.eq_dec slot (-1)) as [->|Hne].
  - exists [], table. split; [reflexivity|constructor].
  - destruct H as [H|H]; [congruence|].
    destruct (IH H) as (pre & post & -> & Hpre).
    exists (slot :: pre), post. split; [reflexivity|]. constructor; assumption.
Qed.

(** X15: the sweep polls each slot before the first unused one that is
    not marked finished, once and in the order of the table, with
    [WNOHANG], and makes no other system call. It leaves [termination]
    and the slots from the first unused one on as they were; a slot
    before it is left alone or marked finished. *)
Theorem reap_polls_jobs K t st tm pre post :
  Forall (fun slot => slot <> -1) pre -> (length pre < MAX_PROCESSES)%nat ->
  calls (events (reap (MkShell st tm (pre ++ -1 :: post)) K t)) = polls pre
  /\ exists st' pre',
       outcome (reap (MkShell st tm (pre ++ -1 :: post)) K t)
       = Returned (MkShell st' tm (pre' ++ -1 :: post))
       /\ Forall2 (fun slot slot' => slot' = slot \/ slot' = 0) pre pre'.
Proof.
  intros Hpre Hlen. split.
  - unfold reap.
    pose proof (reap_loop_slots pre [] post st tm K t (S MAX_PROCESSES) Hpre) as E.
    cbn [length app] in E. rewrite E by lia. apply reap_slots_calls.
  - destruct (reap_run K t st tm pre Hpre Hlen) as (st' & pre' & t' & evs & Hmark & _ & _ & Hrun).
    exists st', pre'. rewrite Hrun. split; [reflexivity|exact Hmark].
Qed.

(** Jobs 500 and 502 running, a finished job between them. *)
Lemma reap_polls_jobs_witness :
  calls (events (reap (MkShell 0 0 ([500; 0; 502] ++ -1 :: replicate 96 (-1)))
                      (kernel 3 42 0 0 0 0) 0%nat))
  = [sys_waitpid 500 WNOHANG; sys_waitpid 502 WNOHANG].
Proof.
  apply (reap_polls_jobs (kernel 3 42 0 0 0 0) 0%nat 0 0 [500; 0; 502] (replicate 96 (-1))).
  - repeat constructor; discriminate.
  - vm_compute. lia.
Defined.

(** X16: on a table of [MAX_PROCESSES] slots the sweep returns exactly
    when a slot is unused; when none is, it reads past the end of the
    table. *)
Theorem reap_returns_iff_unused_slot s K t :
  length (bgOpen s) = MAX_PROCESSES ->
  ((exists s', outcome (reap s K t) = Returned s') <-> In (-1) (bgOpen s))
  /\ (~ In (-1) (bgOpen s) -> outcome (reap s K t) = Undefined).
Proof.
  intros Hlen.
  assert (Hfull : ~ In (-1) (bgOpen s) -> outcome (reap s K t) = Undefined).
  { intros Hno. apply reap_overrun; [|exact Hlen].
    clear Hlen. induction (bgOpen s) as [|slot table IH]; constructor.
    - intros ->. apply Hno. left. reflexivity.
    - apply IH. intros H. apply Hno. right. exact H. }
  split; [split|exact Hfull].
  - intros [s' Hret].
    destruct (in_dec Z.eq_dec (-1) (bgOpen s)) as [Hin|Hno]; [exact Hin|].
    rewrite (Hfull Hno) in Hret. discriminate.
  - intros Hin. destruct (first_unused (bgOpen s) Hin) as (pre & post & Ht & Hpre).
    destruct s as [st tm table]. cbn [bgOpen] in *. subst table.
    assert (Hlt : (length pre < MAX_PROCESSES)%nat).
    { rewrite length_app in Hlen. cbn [length] in Hlen. lia. }
    destruct (reap_run K t st tm pre Hpre Hlt) as (st' & pre' & t' & evs & _ & _ & _ & Hrun).
    eexists. rewrite Hrun. reflexivity.
Qed.

Lemma reap_returns_iff_unused_slot_witness :
  outcome (reap (MkShell 0 0 (replicate MAX_PROCESSES 7)) (kernel 3 42 0 0 0 0) 0%nat)
  = Undefined.
Proof.
  apply (reap_returns_iff_unused_slot (MkShell 0 0 (replicate MAX_PROCESSES 7))
           (kernel 3 42 0 0 0 0) 0%nat).
  - reflexivity.
  - vm_compute. intros H. repeat (destruct H as [H|H]; [discriminate H|]). exact H.
Defined.

(** ** What a command line runs *)

(** X17: every descriptor [cmdExecute] has opened when it forks is set
    to close on [exec]. *)
Theorem opened_descriptors_close_on_exec K t args s path flags mode fd :
  In (EvSys (sys_open path flags mode) fd) (events (cmdExecute args s K t)) ->
  forked (events (cmdExecute args s K t)) ->
  exists r, In (EvSys (sys_fcntl fd F_SETFD FD_CLOEXEC) r) (events (cmdExecute args s K t)).
Proof.
  unfold cmdExecute, forked.
  destruct (isInputRedirected args) as [ri|]; [|cbn; tauto].
  destruct (isOutputRedirected args) as [ro|]; [|cbn; tauto].
  destruct (isBackground args) as [[bg args']|]; [|cbn; tauto].
  destruct ri, ro, bg; run; repeat (split_if; run); try record_run;
    repeat (split_if; run).
  all: intros Hopen [cpid Hfork].
  all: try (exfalso; revert Hfork; clear; intros H; member; fail).
  all: member; eexists; found.
Qed.

Lemma opened_descriptors_close_on_exec_witness :
  exists r, In (EvSys (sys_fcntl 3 F_SETFD FD_CLOEXEC) r)
               (events (cmdExecute (array ["wc"; "<"; "f"]) init (kernel 3 42 42 0 0 0) 0%nat)).
Proof.
  apply (opened_descriptors_close_on_exec (kernel 3 42 42 0 0 0) 0%nat
           (array ["wc"; "<"; "f"]) init (Some "f") O_RDONLY None 3).
  - vm_compute. tauto.
  - exists 42. vm_compute. tauto.
Defined.


(** The program and the arguments of every [exec] of [cmdExecute]. *)
Lemma cmdExecute_exec K t args args' s ri ro bg file argv r :
  isInputRedirected args = Some ri -> isOutputRedirected args = Some ro ->
  isBackground args = Some (bg, args') ->
  In (EvSys (sys_exec file argv) r) (events (cmdExecute args s K t)) ->
  args' !! 0%nat = Some file
  /\ argv = if ri || ro then vector [file; None] else vector args'.
Proof.
  intros Hri Hro Hbg. unfold cmdExecute. rewrite Hri, Hro, Hbg.
  destruct ri, ro, bg; run; repeat (split_if; run); try record_run;
    repeat (split_if; run).
  all: intros H; member; split; first [congruence | reflexivity].
Qed.

Lemma vector_cell0 args' file :
  args' !! 0%nat = Some file ->
  head (vector args') = file /\ vector [file; None] = take 1 (vector args').
Proof.
  destruct args' as [|[a|] rest]; cbn; intros H; [discriminate| |];
    injection H as <-; split; reflexivity.
Qed.

(** Only [cmdExecute] runs programs. *)
Lemma processArgs_exec K t args s file argv r :
  In (EvSys (sys_exec file argv) r) (events (processArgs args s K t)) ->
  In (EvSys (sys_exec file argv) r) (events (cmdExecute args s K t)).
Proof.
  unfold processArgs. run.
  destruct (args !! 0%nat) as [[cmd|]|]; run; [|intros []..].
  destruct (bool_decide (first_char cmd = Some "#"%char)); [intros []|].
  destruct (String.eqb cmd "cd").
  { destruct (args !! 1%nat) as [[dir|]|]; run; [| |intros []].
    - destruct (answer K t (sys_chdir (Some dir)) =? -1); run; intros H; member.
    - intros H; member. }
  destruct (String.eqb cmd "status").
  { destruct (0 <? termination s); run; intros H; member. }
  rewrite !run_eta.
  destruct (String.eqb cmd "exit"); [|tauto].
  intros H. exfalso. unfold cmdExit in H. apply events_bind in H as [H|(u & c & e & _ & H)].
  - apply cmdExit_loop_events in H as [(pid & x & H & _)|H]; discriminate H.
  - destruct H.
Qed.

(** X18: the program a command line runs is its first word, unless that
    is [&]; its arguments are the words before the first [&] when the
    line holds neither [<] nor [>], and its name alone when the line
    holds one of them, wherever it stands. *)
Theorem command_line_exec input args args1 s K t file argv r :
  parseInput input args = Returned args1 ->
  In (EvSys (sys_exec file argv) r) (events (processArgs args1 s K t)) ->
  file = head (before "&" (tokens input))
  /\ (In "<" (tokens input) \/ In ">" (tokens input) ->
      argv = take 1 (before "&" (tokens input)))
  /\ (~ In "<" (tokens input) -> ~ In ">" (tokens input) ->
      argv = before "&" (tokens input)).
Proof.
  rewrite parseInput_run.
  destruct (length (tokens input) <? length args)%nat; [|discriminate].
  intros H. injection H as <-. unfold stored. intros Hexec.
  apply processArgs_exec in Hexec.
  destruct (isBackground_stored (tokens input) (drop (S (length (tokens input))) args))
    as (args' & Hbg & Hv & _).
  destruct (cmdExecute_exec K t _ args' s _ _ _ file argv r
              (isInputRedirected_stored _ _) (isOutputRedirected_stored _ _) Hbg Hexec)
    as [H0 ->].
  destruct (vector_cell0 args' file H0) as [Hhead Hone].
  rewrite Hv in Hhead, Hone. split; [symmetry; exact Hhead|]. split.
  - intros Hred.
    assert (E : existsb (fun w => String.eqb w "<") (tokens input)
                || existsb (fun w => String.eqb w ">") (tokens input) = true).
    { apply orb_true_iff. destruct Hred as [Hred|Hred]; [left|right];
        apply existsb_eqb_In; exact Hred. }
    rewrite E. exact Hone.
  - intros Hin Hout.
    assert (E : existsb (fun w => String.eqb w "<") (tokens input)
                || existsb (fun w => String.eqb w ">") (tokens input) = false).
    { apply orb_false_iff. split.
      - destruct (existsb (fun w => String.eqb w "<") (tokens input)) eqn:E; [|reflexivity].
        exfalso. apply Hin. apply existsb_eqb_In. exact E.
      - destruct (existsb (fun w => String.eqb w ">") (tokens input)) eqn:E; [|reflexivity].
        exfalso. apply Hout. apply existsb_eqb_In. exact E. }
    rewrite E. exact Hv.
Qed.

(** [sort -r > out & echo] in the child: [sort] runs without [-r]. *)
Lemma command_line_exec_witness :
  Some "sort" = head (before "&" (tokens "sort -r > out & echo"))
  /\ (In "<" (tokens "sort -r > out & echo") \/ In ">" (tokens "sort -r > out & echo") ->
      ["sort"] = take 1 (before "&" (tokens "sort -r > out & echo"))).
Proof.
  destruct (command_line_exec "sort -r > out & echo" (replicate 8 None)
              (stored ["sort"; "-r"; ">"; "out"; "&"; "echo"] (replicate 8 None)) init
              (kernel 3 0 0 0 0 0) 0%nat (Some "sort") ["sort"] 0)
    as (Hfile & Hargv & _).
  - reflexivity.
  - vm_compute. tauto.
  - split; assumption.
Defined.

(** X19: [cd], [status] and [exit] start no process and open no file,
    whatever follows them on the line: the only system calls of [cd] are
    [chdir], those of [exit] are [kill] with [SIGKILL] of pids recorded in
    the table, and [status] makes none and leaves the state as it was. *)
Theorem builtins_start_no_process args cmd s K t :
  args !! 0%nat = Some (Some cmd) ->
  cmd = "cd" \/ cmd = "status" \/ cmd = "exit" ->
  (forall c, In c (calls (events (processArgs args s K t))) ->
     (cmd = "cd" /\ exists path, c = sys_chdir path)
     \/ (cmd = "exit" /\ exists pid, c = sys_kill pid SIGKILL /\ In pid (bgOpen s)))
  /\ (cmd = "status" -> exists text,
        processArgs args s K t = MkRun (Returned s) t [EvStdout text]).
Proof.
  intros H0 Hcmd. unfold processArgs. run. rewrite H0. run.
  destruct Hcmd as [->|[->| ->]]; cbn [bool_decide decide_rel String.eqb Ascii.eqb Bool.eqb];
    change (bool_decide _) with false; cbv iota.
  - split; [|discriminate].
    assert (Hcd : forall path c, In c [sys_chdir path] ->
              ("cd" = "cd" /\ exists path, c = sys_chdir path)
              \/ ("cd" = "exit" /\ exists pid, c = sys_kill pid SIGKILL /\ In pid (bgOpen s))).
    { intros path c Hc. destruct Hc as [<-|[]].
      left. split; [reflexivity|]. eexists. reflexivity. }
    destruct (args !! 1%nat) as [[dir|]|]; run; [| |intros c []].
    + destruct (answer K t (sys_chdir (Some dir)) =? -1); run;
        intros c Hc; cbn [calls] in Hc; exact (Hcd _ c Hc).
    + intros c Hc. cbn [calls] in Hc. exact (Hcd _ c Hc).
  - split.
    + destruct (0 <? termination s); run; intros c [].
    + intros _. destruct (0 <? termination s); run; eexists; reflexivity.
  - split; [|discriminate]. rewrite run_eta.
    assert (Hev : forall evs, (forall ev, In ev evs ->
                    (exists pid r, ev = EvSys (sys_kill pid SIGKILL) r
                                   /\ In pid (bgOpen s) /\ pid <> 0 /\ pid <> -1)
                    \/ ev = EvPerror "kill failed") ->
                  forall c, In c (calls evs) ->
                    exists pid, c = sys_kill pid SIGKILL /\ In pid (bgOpen s)).
    { induction evs as [|ev evs IH]; intros Hall c Hc; [destruct Hc|].
      destruct (Hall ev (or_introl eq_refl)) as [(pid & x & -> & Hin & _)| ->].
      - cbn [calls In] in Hc. destruct Hc as [<-|Hc].
        + exists pid. split; [reflexivity|exact Hin].
        + apply IH; [|exact Hc]. intros ev' H'. apply Hall. right. exact H'.
      - cbn [calls] in Hc. apply IH; [|exact Hc].
        intros ev' H'. apply Hall. right. exact H'. }
    intros c Hc. right. split; [reflexivity|]. apply (Hev _) in Hc; [exact Hc|].
    intros ev H. unfold cmdExit in H.
    apply events_bind in H as [H|(u & c' & e & _ & H)]; [|destruct H].
    exact (cmdExit_loop_events _ _ _ _ _ _ H).
Qed.

(** [cd /tmp > f &]: the one system call is [chdir] to [/tmp]. *)
Lemma builtins_start_no_process_witness :
  calls (events (processArgs (array ["cd"; "/tmp"; ">"; "f"; "&"]) init
                             (kernel 3 42 42 0 0 0) 0%nat))
  = [sys_chdir (Some "/tmp")]
  /\ (("cd" = "cd" /\ exists path, sys_chdir (Some "/tmp") = sys_chdir path)
      \/ ("cd" = "exit"
          /\ exists pid, sys_chdir (Some "/tmp") = sys_kill pid SIGKILL
                         /\ In pid (bgOpen init))).
Proof.
  split; [reflexivity|].
  apply (proj1 (builtins_start_no_process (array ["cd"; "/tmp"; ">"; "f"; "&"]) "cd" init
                  (kernel 3 42 42 0 0 0) 0%nat eq_refl (or_introl eq_refl))
               (sys_chdir (Some "/tmp"))).
  vm_compute. left. reflexivity.
Defined.

(** ** Lines that fit, and jobs that are polled *)

(** The characters of the fields of a line, and the spaces between them. *)
Lemma fields_count s :
  (length (List.filter nonempty (fields s)) + length (fields s)
   <= String.length s + 2)%nat
  /\ (1 <= length (fields s))%nat
  /\ (forall f fs, fields s = f :: fs ->
        (length (List.filter nonempty fs) + length fs + String.length f
         <= String.length s)%nat).
Proof.
  induction s as [|c s IH]; cbn [fields String.length].
  - split; [cbn; lia|]. split; [cbn; lia|].
    intros f fs H. injection H as <- <-. cbn. lia.
  - destruct IH as (_ & Hone & Hcount).
    destruct (fields s) as [|f fs] eqn:E; [cbn in Hone; lia|].
    specialize (Hcount f fs eq_refl).
    assert (Hf : (length (List.filter nonempty [f]) <= String.length f)%nat).
    { destruct f; cbn; lia. }
    destruct (is_space c).
    + split; [|split].
      * cbn [List.filter nonempty length] in *. destruct (nonempty f); cbn [length] in *; lia.
      * cbn; lia.
      * intros f' fs' H. injection H as <- <-.
        cbn [List.filter length String.length] in *.
        destruct (nonempty f); cbn [length] in *; lia.
    + split; [|split].
      * cbn [List.filter nonempty length]. lia.
      * cbn; lia.
      * intros f' fs' H. injection H as <- <-. cbn [String.length]. lia.
Qed.

Lemma tokens_count s : (2 * length (tokens s) <= String.length s + 1)%nat.
Proof.
  unfold tokens. destruct (fields_count s) as (_ & _ & Hcount).
  destruct (fields s) as [|f fs] eqn:E; [cbn; lia|].
  specialize (Hcount f fs eq_refl).
  pose proof (filter_length nonempty fs) as Hfs.
  assert (Hle : (length (List.filter nonempty fs) <= length fs)%nat).
  { clear. induction fs as [|x fs IH]; cbn; [lia|]. destruct (nonempty x); cbn; lia. }
  cbn [List.filter]. destruct f; cbn [nonempty length String.length] in *; lia.
Qed.

(** X20: a line with fewer than twice as many characters as the array
    has cells, less one, always fits: [parseInput] stays inside the
    array. For the array of [main] these are the lines of fewer than 1023
    characters. *)
Theorem parseInput_short_line input args :
  (String.length input + 1 < 2 * length args)%nat ->
  exists tail,
    parseInput input args = Returned ((Some <$> tokens input) ++ None :: tail)
    /\ length ((Some <$> tokens input) ++ None :: tail) = length args.
Proof.
  intros Hshort. pose proof (tokens_count input) as Hcount.
  assert (Hfit : (length (tokens input) < length args)%nat) by lia.
  exists (drop (S (length (tokens input))) args). rewrite parseInput_run. split.
  - apply Nat.ltb_lt in Hfit. rewrite Hfit. reflexivity.
  - apply (length_stored (tokens input) args Hfit).
Qed.

(** A line of 511 words [a], 1021 characters long, in the array of [main]. *)
Lemma parseInput_short_line_witness :
  exists tail,
    parseInput (join (replicate 511 "a")) (replicate MAX_ARGS None)
    = Returned ((Some <$> tokens (join (replicate 511 "a"))) ++ None :: tail)
    /\ length ((Some <$> tokens (join (replicate 511 "a"))) ++ None :: tail)
       = length (replicate MAX_ARGS (@None string)).
Proof.
  apply (parseInput_short_line (join (replicate 511 "a")) (replicate MAX_ARGS None)).
  vm_compute. lia.
Defined.

Lemma polls_In pid slots :
  In pid slots -> pid <> 0 -> In (sys_waitpid pid WNOHANG) (polls slots).
Proof.
  intros Hin Hpid. unfold polls, IS_PROCESS_FINISHED.
  induction slots as [|slot slots IH]; [destruct Hin|].
  cbn [List.filter]. destruct Hin as [->|Hin].
  - apply Z.eqb_neq in Hpid. rewrite Hpid. left. reflexivity.
  - destruct (negb (slot =? 0)); [right|]; apply IH; exact Hin.
Qed.

(** X21: on a table whose unused slots come last and which has one, the
    sweep polls every pid the table holds: no job recorded is skipped. *)
Theorem every_job_is_polled s K t pid :
  table_ok (bgOpen s) -> In (-1) (bgOpen s) ->
  In pid (bgOpen s) -> 0 < pid ->
  In (sys_waitpid pid WNOHANG) (calls (events (reap s K t))).
Proof.
  destruct s as [st tm table]. cbn [bgOpen].
  intros (used & free & -> & Hused & Hlen) Hfree Hpid Hpos.
  assert (Hno : Forall (fun slot => slot <> -1) used).
  { eapply Forall_impl; [exact Hused|]. intros x H. cbn in H. lia. }
  assert (Hin : In pid used).
  { apply in_app_or in Hpid as [H|H]; [exact H|].
    exfalso. clear -H Hpos. induction free as [|free IH]; [destruct H|].
    cbn in H. destruct H as [H|H]; [lia|exact (IH H)]. }
  destruct free as [|free].
  - exfalso. cbn [replicate] in Hfree. rewrite app_nil_r in Hfree.
    clear -Hfree Hused. induction Hused as [|x used Hx _ IH]; [destruct Hfree|].
    destruct Hfree as [H|H]; [lia|exact (IH H)].
  - cbn [replicate]. unfold reap.
    pose proof (reap_loop_slots used [] (replicate free (-1)) st tm K t
                  (S MAX_PROCESSES) Hno) as E.
    cbn [length app] in E. rewrite E.
    + rewrite reap_slots_calls. apply polls_In; [exact Hin|lia].
    + rewrite length_app in Hlen. cbn [replicate length] in Hlen. lia.
Qed.

(** Jobs 500 and 501 running. *)
Lemma every_job_is_polled_witness :
  In (sys_waitpid 501 WNOHANG)
     (calls (events (reap (MkShell 0 0 (jobs 2)) (kernel 3 42 0 0 0 0) 0%nat))).
Proof.
  apply (every_job_is_polled (MkShell 0 0 (jobs 2)) (kernel 3 42 0 0 0 0) 0%nat 501).
  - exists [500; 501], 98%nat. split; [reflexivity|].
    split; [repeat constructor; lia|reflexivity].
  - vm_compute. tauto.
  - vm_compute. tauto.
  - lia.
Defined.
